(** * The tool-catalog markdown generator

    A shallow embedding of [scripts/generate-tool-catalog-markdown.py] and
    the properties of its rendering that the specification states.

    The script walks the value returned by [json.load] and appends lines to
    one list, [markdown], which it joins with newlines at the end.  The
    embedding keeps that shape: JSON values are a dynamically typed tree,
    the operations the script applies to them ([.get], [in], iteration,
    truth value, [str()]) are given their Python meaning, failures included,
    and the functions that receive [markdown] run in a monad whose state is
    that list and whose failures are Python exceptions.

    A text is held as the bytes of its UTF-8 encoding, a lone surrogate as
    the three bytes of its code point: [str.lower], [str.title], [repr],
    iteration and [len] work on its code points, with the case mappings and
    the properties of the Unicode database. *)

From Stdlib Require Import String Ascii List ZArith Lia Bool DecimalString.
Import ListNotations.
Open Scope string_scope.

(** ** Strings *)

Module PyStr.

(** The double quote and the line feed. *)
Definition dq : string := String (ascii_of_nat 34) EmptyString.
Definition nl : string := String (ascii_of_nat 10) EmptyString.

(** [sep.join(parts)] on a list of [str]. *)
Definition join (sep : string) (parts : list string) : string :=
  String.concat sep parts.

(** *** UTF-8 *)

Definition byte (c : ascii) : Z := Z.of_nat (nat_of_ascii c).
Definition char_of (n : Z) : ascii := ascii_of_nat (Z.to_nat n).

Definition is_continuation (c : ascii) : bool :=
  (128 <=? byte c)%Z && (byte c <? 192)%Z.

Definition continues (chunk : string) : bool :=
  match chunk with
  | String c _ => is_continuation c
  | EmptyString => false
  end.

(** The characters of a text, each with the bytes that encode it: a byte
    above the ASCII range that is followed by continuation bytes is grouped
    with them. *)
Fixpoint chars (s : string) : list string :=
  match s with
  | EmptyString => []
  | String c r =>
      match chars r with
      | chunk :: chunks =>
          if (128 <=? byte c)%Z && continues chunk
          then String c chunk :: chunks
          else String c EmptyString :: chunk :: chunks
      | [] => [String c EmptyString]
      end
  end.

(** The code point a well-formed chunk encodes. *)
Definition code_point (chunk : string) : option Z :=
  match map byte (list_ascii_of_string chunk) with
  | [b0] => if (b0 <? 128)%Z then Some b0 else None
  | [b0; b1] =>
      if (194 <=? b0)%Z && (b0 <? 224)%Z
      then Some ((b0 - 192) * 64 + (b1 - 128))%Z
      else None
  | [b0; b1; b2] =>
      let n := ((b0 - 224) * 4096 + (b1 - 128) * 64 + (b2 - 128))%Z in
      if (224 <=? b0)%Z && (b0 <? 240)%Z && (2048 <=? n)%Z then Some n else None
  | [b0; b1; b2; b3] =>
      let n := ((b0 - 240) * 262144 + (b1 - 128) * 4096 + (b2 - 128) * 64 + (b3 - 128))%Z in
      if (240 <=? b0)%Z && (b0 <? 245)%Z && (65536 <=? n)%Z && (n <=? 1114111)%Z
      then Some n else None
  | _ => None
  end.

Definition bytes (l : list Z) : string := string_of_list_ascii (map char_of l).

(** The chunk that encodes a code point. *)
Definition utf8 (n : Z) : string :=
  if (n <? 128)%Z then bytes [n]
  else if (n <? 2048)%Z then bytes [192 + n / 64; 128 + n mod 64]%Z
  else if (n <? 65536)%Z then
    bytes [224 + n / 4096; 128 + (n / 64) mod 64; 128 + n mod 64]%Z
  else
    bytes [240 + n / 262144; 128 + (n / 4096) mod 64; 128 + (n / 64) mod 64;
           128 + n mod 64]%Z.

(** A character of a text: a code point, or bytes that encode none (no
    Python [str] has them; they are left as they are). *)
Inductive item : Type :=
| Code (n : Z)
| Undecoded (chunk : string).

Definition items (s : string) : list item :=
  map (fun chunk => match code_point chunk with
                    | Some n => Code n
                    | None => Undecoded chunk
                    end)
      (chars s).

Definition text (l : list item) : string :=
  String.concat EmptyString
    (map (fun x => match x with Code n => utf8 n | Undecoded chunk => chunk end) l).

(** *** The Unicode database

    The tables of Unicode 14.0.0, as CPython 3.11 has them. *)

(** The code points with a one-character lower case: from [lo] to [hi] by
    [step], each is moved by [shift]. *)
Definition lower_shifts : list (Z * Z * Z * Z) :=
  [ (65, 90, 1, 32); (192, 214, 1, 32); (216, 222, 1, 32); (256, 302, 2, 1); (306, 310, 2, 1);
    (313, 327, 2, 1); (330, 374, 2, 1); (376, 376, 1, (-121)); (377, 381, 2, 1);
    (385, 385, 1, 210); (386, 388, 2, 1); (390, 390, 1, 206); (391, 391, 1, 1);
    (393, 394, 1, 205); (395, 395, 1, 1); (398, 398, 1, 79); (399, 399, 1, 202);
    (400, 400, 1, 203); (401, 401, 1, 1); (403, 403, 1, 205); (404, 404, 1, 207);
    (406, 406, 1, 211); (407, 407, 1, 209); (408, 408, 1, 1); (412, 412, 1, 211);
    (413, 413, 1, 213); (415, 415, 1, 214); (416, 420, 2, 1); (422, 422, 1, 218);
    (423, 423, 1, 1); (425, 425, 1, 218); (428, 428, 1, 1); (430, 430, 1, 218);
    (431, 431, 1, 1); (433, 434, 1, 217); (435, 437, 2, 1); (439, 439, 1, 219);
    (440, 440, 1, 1); (444, 444, 1, 1); (452, 452, 1, 2); (453, 453, 1, 1); (455, 455, 1, 2);
    (456, 456, 1, 1); (458, 458, 1, 2); (459, 475, 2, 1); (478, 494, 2, 1); (497, 497, 1, 2);
    (498, 500, 2, 1); (502, 502, 1, (-97)); (503, 503, 1, (-56)); (504, 542, 2, 1);
    (544, 544, 1, (-130)); (546, 562, 2, 1); (570, 570, 1, 10795); (571, 571, 1, 1);
    (573, 573, 1, (-163)); (574, 574, 1, 10792); (577, 577, 1, 1); (579, 579, 1, (-195));
    (580, 580, 1, 69); (581, 581, 1, 71); (582, 590, 2, 1); (880, 882, 2, 1); (886, 886, 1, 1);
    (895, 895, 1, 116); (902, 902, 1, 38); (904, 906, 1, 37); (908, 908, 1, 64);
    (910, 911, 1, 63); (913, 929, 1, 32); (931, 939, 1, 32); (975, 975, 1, 8);
    (984, 1006, 2, 1); (1012, 1012, 1, (-60)); (1015, 1015, 1, 1); (1017, 1017, 1, (-7));
    (1018, 1018, 1, 1); (1021, 1023, 1, (-130)); (1024, 1039, 1, 80); (1040, 1071, 1, 32);
    (1120, 1152, 2, 1); (1162, 1214, 2, 1); (1216, 1216, 1, 15); (1217, 1229, 2, 1);
    (1232, 1326, 2, 1); (1329, 1366, 1, 48); (4256, 4293, 1, 7264); (4295, 4295, 1, 7264);
    (4301, 4301, 1, 7264); (5024, 5103, 1, 38864); (5104, 5109, 1, 8);
    (7312, 7354, 1, (-3008)); (7357, 7359, 1, (-3008)); (7680, 7828, 2, 1);
    (7838, 7838, 1, (-7615)); (7840, 7934, 2, 1); (7944, 7951, 1, (-8)); (7960, 7965, 1, (-8));
    (7976, 7983, 1, (-8)); (7992, 7999, 1, (-8)); (8008, 8013, 1, (-8)); (8025, 8031, 2, (-8));
    (8040, 8047, 1, (-8)); (8072, 8079, 1, (-8)); (8088, 8095, 1, (-8)); (8104, 8111, 1, (-8));
    (8120, 8121, 1, (-8)); (8122, 8123, 1, (-74)); (8124, 8124, 1, (-9));
    (8136, 8139, 1, (-86)); (8140, 8140, 1, (-9)); (8152, 8153, 1, (-8));
    (8154, 8155, 1, (-100)); (8168, 8169, 1, (-8)); (8170, 8171, 1, (-112));
    (8172, 8172, 1, (-7)); (8184, 8185, 1, (-128)); (8186, 8187, 1, (-126));
    (8188, 8188, 1, (-9)); (8486, 8486, 1, (-7517)); (8490, 8490, 1, (-8383));
    (8491, 8491, 1, (-8262)); (8498, 8498, 1, 28); (8544, 8559, 1, 16); (8579, 8579, 1, 1);
    (9398, 9423, 1, 26); (11264, 11311, 1, 48); (11360, 11360, 1, 1);
    (11362, 11362, 1, (-10743)); (11363, 11363, 1, (-3814)); (11364, 11364, 1, (-10727));
    (11367, 11371, 2, 1); (11373, 11373, 1, (-10780)); (11374, 11374, 1, (-10749));
    (11375, 11375, 1, (-10783)); (11376, 11376, 1, (-10782)); (11378, 11378, 1, 1);
    (11381, 11381, 1, 1); (11390, 11391, 1, (-10815)); (11392, 11490, 2, 1);
    (11499, 11501, 2, 1); (11506, 11506, 1, 1); (42560, 42604, 2, 1); (42624, 42650, 2, 1);
    (42786, 42798, 2, 1); (42802, 42862, 2, 1); (42873, 42875, 2, 1);
    (42877, 42877, 1, (-35332)); (42878, 42886, 2, 1); (42891, 42891, 1, 1);
    (42893, 42893, 1, (-42280)); (42896, 42898, 2, 1); (42902, 42920, 2, 1);
    (42922, 42922, 1, (-42308)); (42923, 42923, 1, (-42319)); (42924, 42924, 1, (-42315));
    (42925, 42925, 1, (-42305)); (42926, 42926, 1, (-42308)); (42928, 42928, 1, (-42258));
    (42929, 42929, 1, (-42282)); (42930, 42930, 1, (-42261)); (42931, 42931, 1, 928);
    (42932, 42946, 2, 1); (42948, 42948, 1, (-48)); (42949, 42949, 1, (-42307));
    (42950, 42950, 1, (-35384)); (42951, 42953, 2, 1); (42960, 42960, 1, 1);
    (42966, 42968, 2, 1); (42997, 42997, 1, 1); (65313, 65338, 1, 32); (66560, 66599, 1, 40);
    (66736, 66771, 1, 40); (66928, 66938, 1, 39); (66940, 66954, 1, 39); (66956, 66962, 1, 39);
    (66964, 66965, 1, 39); (68736, 68786, 1, 64); (71840, 71871, 1, 32); (93760, 93791, 1, 32);
    (125184, 125217, 1, 34) ]%Z.

(** The code points whose lower case has several characters. *)
Definition lower_special : list (Z * list Z) :=
  [ (304, [105; 775]) ]%Z.

(** The same for the title case. *)
Definition title_shifts : list (Z * Z * Z * Z) :=
  [ (97, 122, 1, (-32)); (181, 181, 1, 743); (224, 246, 1, (-32)); (248, 254, 1, (-32));
    (255, 255, 1, 121); (257, 303, 2, (-1)); (305, 305, 1, (-232)); (307, 311, 2, (-1));
    (314, 328, 2, (-1)); (331, 375, 2, (-1)); (378, 382, 2, (-1)); (383, 383, 1, (-300));
    (384, 384, 1, 195); (387, 389, 2, (-1)); (392, 392, 1, (-1)); (396, 396, 1, (-1));
    (402, 402, 1, (-1)); (405, 405, 1, 97); (409, 409, 1, (-1)); (410, 410, 1, 163);
    (414, 414, 1, 130); (417, 421, 2, (-1)); (424, 424, 1, (-1)); (429, 429, 1, (-1));
    (432, 432, 1, (-1)); (436, 438, 2, (-1)); (441, 441, 1, (-1)); (445, 445, 1, (-1));
    (447, 447, 1, 56); (452, 452, 1, 1); (454, 454, 1, (-1)); (455, 455, 1, 1);
    (457, 457, 1, (-1)); (458, 458, 1, 1); (460, 476, 2, (-1)); (477, 477, 1, (-79));
    (479, 495, 2, (-1)); (497, 497, 1, 1); (499, 501, 2, (-1)); (505, 543, 2, (-1));
    (547, 563, 2, (-1)); (572, 572, 1, (-1)); (575, 576, 1, 10815); (578, 578, 1, (-1));
    (583, 591, 2, (-1)); (592, 592, 1, 10783); (593, 593, 1, 10780); (594, 594, 1, 10782);
    (595, 595, 1, (-210)); (596, 596, 1, (-206)); (598, 599, 1, (-205)); (601, 601, 1, (-202));
    (603, 603, 1, (-203)); (604, 604, 1, 42319); (608, 608, 1, (-205)); (609, 609, 1, 42315);
    (611, 611, 1, (-207)); (613, 613, 1, 42280); (614, 614, 1, 42308); (616, 616, 1, (-209));
    (617, 617, 1, (-211)); (618, 618, 1, 42308); (619, 619, 1, 10743); (620, 620, 1, 42305);
    (623, 623, 1, (-211)); (625, 625, 1, 10749); (626, 626, 1, (-213)); (629, 629, 1, (-214));
    (637, 637, 1, 10727); (640, 640, 1, (-218)); (642, 642, 1, 42307); (643, 643, 1, (-218));
    (647, 647, 1, 42282); (648, 648, 1, (-218)); (649, 649, 1, (-69)); (650, 651, 1, (-217));
    (652, 652, 1, (-71)); (658, 658, 1, (-219)); (669, 669, 1, 42261); (670, 670, 1, 42258);
    (837, 837, 1, 84); (881, 883, 2, (-1)); (887, 887, 1, (-1)); (891, 893, 1, 130);
    (940, 940, 1, (-38)); (941, 943, 1, (-37)); (945, 961, 1, (-32)); (962, 962, 1, (-31));
    (963, 971, 1, (-32)); (972, 972, 1, (-64)); (973, 974, 1, (-63)); (976, 976, 1, (-62));
    (977, 977, 1, (-57)); (981, 981, 1, (-47)); (982, 982, 1, (-54)); (983, 983, 1, (-8));
    (985, 1007, 2, (-1)); (1008, 1008, 1, (-86)); (1009, 1009, 1, (-80)); (1010, 1010, 1, 7);
    (1011, 1011, 1, (-116)); (1013, 1013, 1, (-96)); (1016, 1016, 1, (-1));
    (1019, 1019, 1, (-1)); (1072, 1103, 1, (-32)); (1104, 1119, 1, (-80));
    (1121, 1153, 2, (-1)); (1163, 1215, 2, (-1)); (1218, 1230, 2, (-1));
    (1231, 1231, 1, (-15)); (1233, 1327, 2, (-1)); (1377, 1414, 1, (-48));
    (5112, 5117, 1, (-8)); (7296, 7296, 1, (-6254)); (7297, 7297, 1, (-6253));
    (7298, 7298, 1, (-6244)); (7299, 7300, 1, (-6242)); (7301, 7301, 1, (-6243));
    (7302, 7302, 1, (-6236)); (7303, 7303, 1, (-6181)); (7304, 7304, 1, 35266);
    (7545, 7545, 1, 35332); (7549, 7549, 1, 3814); (7566, 7566, 1, 35384);
    (7681, 7829, 2, (-1)); (7835, 7835, 1, (-59)); (7841, 7935, 2, (-1)); (7936, 7943, 1, 8);
    (7952, 7957, 1, 8); (7968, 7975, 1, 8); (7984, 7991, 1, 8); (8000, 8005, 1, 8);
    (8017, 8023, 2, 8); (8032, 8039, 1, 8); (8048, 8049, 1, 74); (8050, 8053, 1, 86);
    (8054, 8055, 1, 100); (8056, 8057, 1, 128); (8058, 8059, 1, 112); (8060, 8061, 1, 126);
    (8064, 8071, 1, 8); (8080, 8087, 1, 8); (8096, 8103, 1, 8); (8112, 8113, 1, 8);
    (8115, 8115, 1, 9); (8126, 8126, 1, (-7205)); (8131, 8131, 1, 9); (8144, 8145, 1, 8);
    (8160, 8161, 1, 8); (8165, 8165, 1, 7); (8179, 8179, 1, 9); (8526, 8526, 1, (-28));
    (8560, 8575, 1, (-16)); (8580, 8580, 1, (-1)); (9424, 9449, 1, (-26));
    (11312, 11359, 1, (-48)); (11361, 11361, 1, (-1)); (11365, 11365, 1, (-10795));
    (11366, 11366, 1, (-10792)); (11368, 11372, 2, (-1)); (11379, 11379, 1, (-1));
    (11382, 11382, 1, (-1)); (11393, 11491, 2, (-1)); (11500, 11502, 2, (-1));
    (11507, 11507, 1, (-1)); (11520, 11557, 1, (-7264)); (11559, 11559, 1, (-7264));
    (11565, 11565, 1, (-7264)); (42561, 42605, 2, (-1)); (42625, 42651, 2, (-1));
    (42787, 42799, 2, (-1)); (42803, 42863, 2, (-1)); (42874, 42876, 2, (-1));
    (42879, 42887, 2, (-1)); (42892, 42892, 1, (-1)); (42897, 42899, 2, (-1));
    (42900, 42900, 1, 48); (42903, 42921, 2, (-1)); (42933, 42947, 2, (-1));
    (42952, 42954, 2, (-1)); (42961, 42961, 1, (-1)); (42967, 42969, 2, (-1));
    (42998, 42998, 1, (-1)); (43859, 43859, 1, (-928)); (43888, 43967, 1, (-38864));
    (65345, 65370, 1, (-32)); (66600, 66639, 1, (-40)); (66776, 66811, 1, (-40));
    (66967, 66977, 1, (-39)); (66979, 66993, 1, (-39)); (66995, 67001, 1, (-39));
    (67003, 67004, 1, (-39)); (68800, 68850, 1, (-64)); (71872, 71903, 1, (-32));
    (93792, 93823, 1, (-32)); (125218, 125251, 1, (-34)) ]%Z.

(** The code points whose title case has several characters. *)
Definition title_special : list (Z * list Z) :=
  [ (223, [83; 115]); (329, [700; 78]); (496, [74; 780]); (912, [921; 776; 769]);
    (944, [933; 776; 769]); (1415, [1333; 1410]); (7830, [72; 817]); (7831, [84; 776]);
    (7832, [87; 778]); (7833, [89; 778]); (7834, [65; 702]); (8016, [933; 787]);
    (8018, [933; 787; 768]); (8020, [933; 787; 769]); (8022, [933; 787; 834]);
    (8114, [8122; 837]); (8116, [902; 837]); (8118, [913; 834]); (8119, [913; 834; 837]);
    (8130, [8138; 837]); (8132, [905; 837]); (8134, [919; 834]); (8135, [919; 834; 837]);
    (8146, [921; 776; 768]); (8147, [921; 776; 769]); (8150, [921; 834]);
    (8151, [921; 776; 834]); (8162, [933; 776; 768]); (8163, [933; 776; 769]);
    (8164, [929; 787]); (8166, [933; 834]); (8167, [933; 776; 834]); (8178, [8186; 837]);
    (8180, [911; 837]); (8182, [937; 834]); (8183, [937; 834; 837]); (64256, [70; 102]);
    (64257, [70; 105]); (64258, [70; 108]); (64259, [70; 102; 105]); (64260, [70; 102; 108]);
    (64261, [83; 116]); (64262, [83; 116]); (64275, [1348; 1398]); (64276, [1348; 1381]);
    (64277, [1348; 1387]); (64278, [1358; 1398]); (64279, [1348; 1389]) ]%Z.

(** The cased code points, by ranges. *)
Definition cased_ranges : list (Z * Z) :=
  [ (65, 90); (97, 122); (170, 170); (181, 181); (186, 186); (192, 214); (216, 246);
    (248, 442); (444, 447); (452, 659); (661, 696); (704, 705); (736, 740); (837, 837);
    (880, 883); (886, 887); (890, 893); (895, 895); (902, 902); (904, 906); (908, 908);
    (910, 929); (931, 1013); (1015, 1153); (1162, 1327); (1329, 1366); (1376, 1416);
    (4256, 4293); (4295, 4295); (4301, 4301); (4304, 4346); (4349, 4351); (5024, 5109);
    (5112, 5117); (7296, 7304); (7312, 7354); (7357, 7359); (7424, 7615); (7680, 7957);
    (7960, 7965); (7968, 8005); (8008, 8013); (8016, 8023); (8025, 8025); (8027, 8027);
    (8029, 8029); (8031, 8061); (8064, 8116); (8118, 8124); (8126, 8126); (8130, 8132);
    (8134, 8140); (8144, 8147); (8150, 8155); (8160, 8172); (8178, 8180); (8182, 8188);
    (8305, 8305); (8319, 8319); (8336, 8348); (8450, 8450); (8455, 8455); (8458, 8467);
    (8469, 8469); (8473, 8477); (8484, 8484); (8486, 8486); (8488, 8488); (8490, 8493);
    (8495, 8500); (8505, 8505); (8508, 8511); (8517, 8521); (8526, 8526); (8544, 8575);
    (8579, 8580); (9398, 9449); (11264, 11492); (11499, 11502); (11506, 11507); (11520, 11557);
    (11559, 11559); (11565, 11565); (42560, 42605); (42624, 42653); (42786, 42887);
    (42891, 42894); (42896, 42954); (42960, 42961); (42963, 42963); (42965, 42969);
    (42997, 42998); (43000, 43002); (43824, 43866); (43868, 43880); (43888, 43967);
    (64256, 64262); (64275, 64279); (65313, 65338); (65345, 65370); (66560, 66639);
    (66736, 66771); (66776, 66811); (66928, 66938); (66940, 66954); (66956, 66962);
    (66964, 66965); (66967, 66977); (66979, 66993); (66995, 67001); (67003, 67004);
    (67456, 67456); (67459, 67461); (67463, 67504); (67506, 67514); (68736, 68786);
    (68800, 68850); (71840, 71903); (93760, 93823); (119808, 119892); (119894, 119964);
    (119966, 119967); (119970, 119970); (119973, 119974); (119977, 119980); (119982, 119993);
    (119995, 119995); (119997, 120003); (120005, 120069); (120071, 120074); (120077, 120084);
    (120086, 120092); (120094, 120121); (120123, 120126); (120128, 120132); (120134, 120134);
    (120138, 120144); (120146, 120485); (120488, 120512); (120514, 120538); (120540, 120570);
    (120572, 120596); (120598, 120628); (120630, 120654); (120656, 120686); (120688, 120712);
    (120714, 120744); (120746, 120770); (120772, 120779); (122624, 122633); (122635, 122654);
    (125184, 125251); (127280, 127305); (127312, 127337); (127344, 127369) ]%Z.

(** The case-ignorable code points, by ranges. *)
Definition case_ignorable_ranges : list (Z * Z) :=
  [ (39, 39); (46, 46); (58, 58); (94, 94); (96, 96); (168, 168); (173, 173); (175, 175);
    (180, 180); (183, 184); (688, 879); (884, 885); (890, 890); (900, 901); (903, 903);
    (1155, 1161); (1369, 1369); (1375, 1375); (1425, 1469); (1471, 1471); (1473, 1474);
    (1476, 1477); (1479, 1479); (1524, 1524); (1536, 1541); (1552, 1562); (1564, 1564);
    (1600, 1600); (1611, 1631); (1648, 1648); (1750, 1757); (1759, 1768); (1770, 1773);
    (1807, 1807); (1809, 1809); (1840, 1866); (1958, 1968); (2027, 2037); (2042, 2042);
    (2045, 2045); (2070, 2093); (2137, 2139); (2184, 2184); (2192, 2193); (2200, 2207);
    (2249, 2306); (2362, 2362); (2364, 2364); (2369, 2376); (2381, 2381); (2385, 2391);
    (2402, 2403); (2417, 2417); (2433, 2433); (2492, 2492); (2497, 2500); (2509, 2509);
    (2530, 2531); (2558, 2558); (2561, 2562); (2620, 2620); (2625, 2626); (2631, 2632);
    (2635, 2637); (2641, 2641); (2672, 2673); (2677, 2677); (2689, 2690); (2748, 2748);
    (2753, 2757); (2759, 2760); (2765, 2765); (2786, 2787); (2810, 2815); (2817, 2817);
    (2876, 2876); (2879, 2879); (2881, 2884); (2893, 2893); (2901, 2902); (2914, 2915);
    (2946, 2946); (3008, 3008); (3021, 3021); (3072, 3072); (3076, 3076); (3132, 3132);
    (3134, 3136); (3142, 3144); (3146, 3149); (3157, 3158); (3170, 3171); (3201, 3201);
    (3260, 3260); (3263, 3263); (3270, 3270); (3276, 3277); (3298, 3299); (3328, 3329);
    (3387, 3388); (3393, 3396); (3405, 3405); (3426, 3427); (3457, 3457); (3530, 3530);
    (3538, 3540); (3542, 3542); (3633, 3633); (3636, 3642); (3654, 3662); (3761, 3761);
    (3764, 3772); (3782, 3782); (3784, 3789); (3864, 3865); (3893, 3893); (3895, 3895);
    (3897, 3897); (3953, 3966); (3968, 3972); (3974, 3975); (3981, 3991); (3993, 4028);
    (4038, 4038); (4141, 4144); (4146, 4151); (4153, 4154); (4157, 4158); (4184, 4185);
    (4190, 4192); (4209, 4212); (4226, 4226); (4229, 4230); (4237, 4237); (4253, 4253);
    (4348, 4348); (4957, 4959); (5906, 5908); (5938, 5939); (5970, 5971); (6002, 6003);
    (6068, 6069); (6071, 6077); (6086, 6086); (6089, 6099); (6103, 6103); (6109, 6109);
    (6155, 6159); (6211, 6211); (6277, 6278); (6313, 6313); (6432, 6434); (6439, 6440);
    (6450, 6450); (6457, 6459); (6679, 6680); (6683, 6683); (6742, 6742); (6744, 6750);
    (6752, 6752); (6754, 6754); (6757, 6764); (6771, 6780); (6783, 6783); (6823, 6823);
    (6832, 6862); (6912, 6915); (6964, 6964); (6966, 6970); (6972, 6972); (6978, 6978);
    (7019, 7027); (7040, 7041); (7074, 7077); (7080, 7081); (7083, 7085); (7142, 7142);
    (7144, 7145); (7149, 7149); (7151, 7153); (7212, 7219); (7222, 7223); (7288, 7293);
    (7376, 7378); (7380, 7392); (7394, 7400); (7405, 7405); (7412, 7412); (7416, 7417);
    (7468, 7530); (7544, 7544); (7579, 7679); (8125, 8125); (8127, 8129); (8141, 8143);
    (8157, 8159); (8173, 8175); (8189, 8190); (8203, 8207); (8216, 8217); (8228, 8228);
    (8231, 8231); (8234, 8238); (8288, 8292); (8294, 8303); (8305, 8305); (8319, 8319);
    (8336, 8348); (8400, 8432); (11388, 11389); (11503, 11505); (11631, 11631); (11647, 11647);
    (11744, 11775); (11823, 11823); (12293, 12293); (12330, 12333); (12337, 12341);
    (12347, 12347); (12441, 12446); (12540, 12542); (40981, 40981); (42232, 42237);
    (42508, 42508); (42607, 42610); (42612, 42621); (42623, 42623); (42652, 42655);
    (42736, 42737); (42752, 42785); (42864, 42864); (42888, 42890); (42994, 42996);
    (43000, 43001); (43010, 43010); (43014, 43014); (43019, 43019); (43045, 43046);
    (43052, 43052); (43204, 43205); (43232, 43249); (43263, 43263); (43302, 43309);
    (43335, 43345); (43392, 43394); (43443, 43443); (43446, 43449); (43452, 43453);
    (43471, 43471); (43493, 43494); (43561, 43566); (43569, 43570); (43573, 43574);
    (43587, 43587); (43596, 43596); (43632, 43632); (43644, 43644); (43696, 43696);
    (43698, 43700); (43703, 43704); (43710, 43711); (43713, 43713); (43741, 43741);
    (43756, 43757); (43763, 43764); (43766, 43766); (43867, 43871); (43881, 43883);
    (44005, 44005); (44008, 44008); (44013, 44013); (64286, 64286); (64434, 64450);
    (65024, 65039); (65043, 65043); (65056, 65071); (65106, 65106); (65109, 65109);
    (65279, 65279); (65287, 65287); (65294, 65294); (65306, 65306); (65342, 65342);
    (65344, 65344); (65392, 65392); (65438, 65439); (65507, 65507); (65529, 65531);
    (66045, 66045); (66272, 66272); (66422, 66426); (67456, 67461); (67463, 67504);
    (67506, 67514); (68097, 68099); (68101, 68102); (68108, 68111); (68152, 68154);
    (68159, 68159); (68325, 68326); (68900, 68903); (69291, 69292); (69446, 69456);
    (69506, 69509); (69633, 69633); (69688, 69702); (69744, 69744); (69747, 69748);
    (69759, 69761); (69811, 69814); (69817, 69818); (69821, 69821); (69826, 69826);
    (69837, 69837); (69888, 69890); (69927, 69931); (69933, 69940); (70003, 70003);
    (70016, 70017); (70070, 70078); (70089, 70092); (70095, 70095); (70191, 70193);
    (70196, 70196); (70198, 70199); (70206, 70206); (70367, 70367); (70371, 70378);
    (70400, 70401); (70459, 70460); (70464, 70464); (70502, 70508); (70512, 70516);
    (70712, 70719); (70722, 70724); (70726, 70726); (70750, 70750); (70835, 70840);
    (70842, 70842); (70847, 70848); (70850, 70851); (71090, 71093); (71100, 71101);
    (71103, 71104); (71132, 71133); (71219, 71226); (71229, 71229); (71231, 71232);
    (71339, 71339); (71341, 71341); (71344, 71349); (71351, 71351); (71453, 71455);
    (71458, 71461); (71463, 71467); (71727, 71735); (71737, 71738); (71995, 71996);
    (71998, 71998); (72003, 72003); (72148, 72151); (72154, 72155); (72160, 72160);
    (72193, 72202); (72243, 72248); (72251, 72254); (72263, 72263); (72273, 72278);
    (72281, 72283); (72330, 72342); (72344, 72345); (72752, 72758); (72760, 72765);
    (72767, 72767); (72850, 72871); (72874, 72880); (72882, 72883); (72885, 72886);
    (73009, 73014); (73018, 73018); (73020, 73021); (73023, 73029); (73031, 73031);
    (73104, 73105); (73109, 73109); (73111, 73111); (73459, 73460); (78896, 78904);
    (92912, 92916); (92976, 92982); (92992, 92995); (94031, 94031); (94095, 94111);
    (94176, 94177); (94179, 94180); (110576, 110579); (110581, 110587); (110589, 110590);
    (113821, 113822); (113824, 113827); (118528, 118573); (118576, 118598); (119143, 119145);
    (119155, 119170); (119173, 119179); (119210, 119213); (119362, 119364); (121344, 121398);
    (121403, 121452); (121461, 121461); (121476, 121476); (121499, 121503); (121505, 121519);
    (122880, 122886); (122888, 122904); (122907, 122913); (122915, 122916); (122918, 122922);
    (123184, 123197); (123566, 123566); (123628, 123631); (125136, 125142); (125252, 125259);
    (127995, 127999); (917505, 917505); (917536, 917631); (917760, 917999) ]%Z.

(** The code points [repr] escapes, by ranges. *)
Definition unprintable_ranges : list (Z * Z) :=
  [ (0, 31); (127, 160); (173, 173); (888, 889); (896, 899); (907, 907); (909, 909);
    (930, 930); (1328, 1328); (1367, 1368); (1419, 1420); (1424, 1424); (1480, 1487);
    (1515, 1518); (1525, 1541); (1564, 1564); (1757, 1757); (1806, 1807); (1867, 1868);
    (1970, 1983); (2043, 2044); (2094, 2095); (2111, 2111); (2140, 2141); (2143, 2143);
    (2155, 2159); (2191, 2199); (2274, 2274); (2436, 2436); (2445, 2446); (2449, 2450);
    (2473, 2473); (2481, 2481); (2483, 2485); (2490, 2491); (2501, 2502); (2505, 2506);
    (2511, 2518); (2520, 2523); (2526, 2526); (2532, 2533); (2559, 2560); (2564, 2564);
    (2571, 2574); (2577, 2578); (2601, 2601); (2609, 2609); (2612, 2612); (2615, 2615);
    (2618, 2619); (2621, 2621); (2627, 2630); (2633, 2634); (2638, 2640); (2642, 2648);
    (2653, 2653); (2655, 2661); (2679, 2688); (2692, 2692); (2702, 2702); (2706, 2706);
    (2729, 2729); (2737, 2737); (2740, 2740); (2746, 2747); (2758, 2758); (2762, 2762);
    (2766, 2767); (2769, 2783); (2788, 2789); (2802, 2808); (2816, 2816); (2820, 2820);
    (2829, 2830); (2833, 2834); (2857, 2857); (2865, 2865); (2868, 2868); (2874, 2875);
    (2885, 2886); (2889, 2890); (2894, 2900); (2904, 2907); (2910, 2910); (2916, 2917);
    (2936, 2945); (2948, 2948); (2955, 2957); (2961, 2961); (2966, 2968); (2971, 2971);
    (2973, 2973); (2976, 2978); (2981, 2983); (2987, 2989); (3002, 3005); (3011, 3013);
    (3017, 3017); (3022, 3023); (3025, 3030); (3032, 3045); (3067, 3071); (3085, 3085);
    (3089, 3089); (3113, 3113); (3130, 3131); (3141, 3141); (3145, 3145); (3150, 3156);
    (3159, 3159); (3163, 3164); (3166, 3167); (3172, 3173); (3184, 3190); (3213, 3213);
    (3217, 3217); (3241, 3241); (3252, 3252); (3258, 3259); (3269, 3269); (3273, 3273);
    (3278, 3284); (3287, 3292); (3295, 3295); (3300, 3301); (3312, 3312); (3315, 3327);
    (3341, 3341); (3345, 3345); (3397, 3397); (3401, 3401); (3408, 3411); (3428, 3429);
    (3456, 3456); (3460, 3460); (3479, 3481); (3506, 3506); (3516, 3516); (3518, 3519);
    (3527, 3529); (3531, 3534); (3541, 3541); (3543, 3543); (3552, 3557); (3568, 3569);
    (3573, 3584); (3643, 3646); (3676, 3712); (3715, 3715); (3717, 3717); (3723, 3723);
    (3748, 3748); (3750, 3750); (3774, 3775); (3781, 3781); (3783, 3783); (3790, 3791);
    (3802, 3803); (3808, 3839); (3912, 3912); (3949, 3952); (3992, 3992); (4029, 4029);
    (4045, 4045); (4059, 4095); (4294, 4294); (4296, 4300); (4302, 4303); (4681, 4681);
    (4686, 4687); (4695, 4695); (4697, 4697); (4702, 4703); (4745, 4745); (4750, 4751);
    (4785, 4785); (4790, 4791); (4799, 4799); (4801, 4801); (4806, 4807); (4823, 4823);
    (4881, 4881); (4886, 4887); (4955, 4956); (4989, 4991); (5018, 5023); (5110, 5111);
    (5118, 5119); (5760, 5760); (5789, 5791); (5881, 5887); (5910, 5918); (5943, 5951);
    (5972, 5983); (5997, 5997); (6001, 6001); (6004, 6015); (6110, 6111); (6122, 6127);
    (6138, 6143); (6158, 6158); (6170, 6175); (6265, 6271); (6315, 6319); (6390, 6399);
    (6431, 6431); (6444, 6447); (6460, 6463); (6465, 6467); (6510, 6511); (6517, 6527);
    (6572, 6575); (6602, 6607); (6619, 6621); (6684, 6685); (6751, 6751); (6781, 6782);
    (6794, 6799); (6810, 6815); (6830, 6831); (6863, 6911); (6989, 6991); (7039, 7039);
    (7156, 7163); (7224, 7226); (7242, 7244); (7305, 7311); (7355, 7356); (7368, 7375);
    (7419, 7423); (7958, 7959); (7966, 7967); (8006, 8007); (8014, 8015); (8024, 8024);
    (8026, 8026); (8028, 8028); (8030, 8030); (8062, 8063); (8117, 8117); (8133, 8133);
    (8148, 8149); (8156, 8156); (8176, 8177); (8181, 8181); (8191, 8207); (8232, 8239);
    (8287, 8303); (8306, 8307); (8335, 8335); (8349, 8351); (8385, 8399); (8433, 8447);
    (8588, 8591); (9255, 9279); (9291, 9311); (11124, 11125); (11158, 11158); (11508, 11512);
    (11558, 11558); (11560, 11564); (11566, 11567); (11624, 11630); (11633, 11646);
    (11671, 11679); (11687, 11687); (11695, 11695); (11703, 11703); (11711, 11711);
    (11719, 11719); (11727, 11727); (11735, 11735); (11743, 11743); (11870, 11903);
    (11930, 11930); (12020, 12031); (12246, 12271); (12284, 12288); (12352, 12352);
    (12439, 12440); (12544, 12548); (12592, 12592); (12687, 12687); (12772, 12783);
    (12831, 12831); (42125, 42127); (42183, 42191); (42540, 42559); (42744, 42751);
    (42955, 42959); (42962, 42962); (42964, 42964); (42970, 42993); (43053, 43055);
    (43066, 43071); (43128, 43135); (43206, 43213); (43226, 43231); (43348, 43358);
    (43389, 43391); (43470, 43470); (43482, 43485); (43519, 43519); (43575, 43583);
    (43598, 43599); (43610, 43611); (43715, 43738); (43767, 43776); (43783, 43784);
    (43791, 43792); (43799, 43807); (43815, 43815); (43823, 43823); (43884, 43887);
    (44014, 44015); (44026, 44031); (55204, 55215); (55239, 55242); (55292, 63743);
    (64110, 64111); (64218, 64255); (64263, 64274); (64280, 64284); (64311, 64311);
    (64317, 64317); (64319, 64319); (64322, 64322); (64325, 64325); (64451, 64466);
    (64912, 64913); (64968, 64974); (64976, 65007); (65050, 65055); (65107, 65107);
    (65127, 65127); (65132, 65135); (65141, 65141); (65277, 65280); (65471, 65473);
    (65480, 65481); (65488, 65489); (65496, 65497); (65501, 65503); (65511, 65511);
    (65519, 65531); (65534, 65535); (65548, 65548); (65575, 65575); (65595, 65595);
    (65598, 65598); (65614, 65615); (65630, 65663); (65787, 65791); (65795, 65798);
    (65844, 65846); (65935, 65935); (65949, 65951); (65953, 65999); (66046, 66175);
    (66205, 66207); (66257, 66271); (66300, 66303); (66340, 66348); (66379, 66383);
    (66427, 66431); (66462, 66462); (66500, 66503); (66518, 66559); (66718, 66719);
    (66730, 66735); (66772, 66775); (66812, 66815); (66856, 66863); (66916, 66926);
    (66939, 66939); (66955, 66955); (66963, 66963); (66966, 66966); (66978, 66978);
    (66994, 66994); (67002, 67002); (67005, 67071); (67383, 67391); (67414, 67423);
    (67432, 67455); (67462, 67462); (67505, 67505); (67515, 67583); (67590, 67591);
    (67593, 67593); (67638, 67638); (67641, 67643); (67645, 67646); (67670, 67670);
    (67743, 67750); (67760, 67807); (67827, 67827); (67830, 67834); (67868, 67870);
    (67898, 67902); (67904, 67967); (68024, 68027); (68048, 68049); (68100, 68100);
    (68103, 68107); (68116, 68116); (68120, 68120); (68150, 68151); (68155, 68158);
    (68169, 68175); (68185, 68191); (68256, 68287); (68327, 68330); (68343, 68351);
    (68406, 68408); (68438, 68439); (68467, 68471); (68498, 68504); (68509, 68520);
    (68528, 68607); (68681, 68735); (68787, 68799); (68851, 68857); (68904, 68911);
    (68922, 69215); (69247, 69247); (69290, 69290); (69294, 69295); (69298, 69375);
    (69416, 69423); (69466, 69487); (69514, 69551); (69580, 69599); (69623, 69631);
    (69710, 69713); (69750, 69758); (69821, 69821); (69827, 69839); (69865, 69871);
    (69882, 69887); (69941, 69941); (69960, 69967); (70007, 70015); (70112, 70112);
    (70133, 70143); (70162, 70162); (70207, 70271); (70279, 70279); (70281, 70281);
    (70286, 70286); (70302, 70302); (70314, 70319); (70379, 70383); (70394, 70399);
    (70404, 70404); (70413, 70414); (70417, 70418); (70441, 70441); (70449, 70449);
    (70452, 70452); (70458, 70458); (70469, 70470); (70473, 70474); (70478, 70479);
    (70481, 70486); (70488, 70492); (70500, 70501); (70509, 70511); (70517, 70655);
    (70748, 70748); (70754, 70783); (70856, 70863); (70874, 71039); (71094, 71095);
    (71134, 71167); (71237, 71247); (71258, 71263); (71277, 71295); (71354, 71359);
    (71370, 71423); (71451, 71452); (71468, 71471); (71495, 71679); (71740, 71839);
    (71923, 71934); (71943, 71944); (71946, 71947); (71956, 71956); (71959, 71959);
    (71990, 71990); (71993, 71994); (72007, 72015); (72026, 72095); (72104, 72105);
    (72152, 72153); (72165, 72191); (72264, 72271); (72355, 72367); (72441, 72703);
    (72713, 72713); (72759, 72759); (72774, 72783); (72813, 72815); (72848, 72849);
    (72872, 72872); (72887, 72959); (72967, 72967); (72970, 72970); (73015, 73017);
    (73019, 73019); (73022, 73022); (73032, 73039); (73050, 73055); (73062, 73062);
    (73065, 73065); (73103, 73103); (73106, 73106); (73113, 73119); (73130, 73439);
    (73465, 73647); (73649, 73663); (73714, 73726); (74650, 74751); (74863, 74863);
    (74869, 74879); (75076, 77711); (77811, 77823); (78895, 82943); (83527, 92159);
    (92729, 92735); (92767, 92767); (92778, 92781); (92863, 92863); (92874, 92879);
    (92910, 92911); (92918, 92927); (92998, 93007); (93018, 93018); (93026, 93026);
    (93048, 93052); (93072, 93759); (93851, 93951); (94027, 94030); (94088, 94094);
    (94112, 94175); (94181, 94191); (94194, 94207); (100344, 100351); (101590, 101631);
    (101641, 110575); (110580, 110580); (110588, 110588); (110591, 110591); (110883, 110927);
    (110931, 110947); (110952, 110959); (111356, 113663); (113771, 113775); (113789, 113791);
    (113801, 113807); (113818, 113819); (113824, 118527); (118574, 118575); (118599, 118607);
    (118724, 118783); (119030, 119039); (119079, 119080); (119155, 119162); (119275, 119295);
    (119366, 119519); (119540, 119551); (119639, 119647); (119673, 119807); (119893, 119893);
    (119965, 119965); (119968, 119969); (119971, 119972); (119975, 119976); (119981, 119981);
    (119994, 119994); (119996, 119996); (120004, 120004); (120070, 120070); (120075, 120076);
    (120085, 120085); (120093, 120093); (120122, 120122); (120127, 120127); (120133, 120133);
    (120135, 120137); (120145, 120145); (120486, 120487); (120780, 120781); (121484, 121498);
    (121504, 121504); (121520, 122623); (122655, 122879); (122887, 122887); (122905, 122906);
    (122914, 122914); (122917, 122917); (122923, 123135); (123181, 123183); (123198, 123199);
    (123210, 123213); (123216, 123535); (123567, 123583); (123642, 123646); (123648, 124895);
    (124903, 124903); (124908, 124908); (124911, 124911); (124927, 124927); (125125, 125126);
    (125143, 125183); (125260, 125263); (125274, 125277); (125280, 126064); (126133, 126208);
    (126270, 126463); (126468, 126468); (126496, 126496); (126499, 126499); (126501, 126502);
    (126504, 126504); (126515, 126515); (126520, 126520); (126522, 126522); (126524, 126529);
    (126531, 126534); (126536, 126536); (126538, 126538); (126540, 126540); (126544, 126544);
    (126547, 126547); (126549, 126550); (126552, 126552); (126554, 126554); (126556, 126556);
    (126558, 126558); (126560, 126560); (126563, 126563); (126565, 126566); (126571, 126571);
    (126579, 126579); (126584, 126584); (126589, 126589); (126591, 126591); (126602, 126602);
    (126620, 126624); (126628, 126628); (126634, 126634); (126652, 126703); (126706, 126975);
    (127020, 127023); (127124, 127135); (127151, 127152); (127168, 127168); (127184, 127184);
    (127222, 127231); (127406, 127461); (127491, 127503); (127548, 127551); (127561, 127567);
    (127570, 127583); (127590, 127743); (128728, 128732); (128749, 128751); (128765, 128767);
    (128884, 128895); (128985, 128991); (129004, 129007); (129009, 129023); (129036, 129039);
    (129096, 129103); (129114, 129119); (129160, 129167); (129198, 129199); (129202, 129279);
    (129620, 129631); (129646, 129647); (129653, 129655); (129661, 129663); (129671, 129679);
    (129709, 129711); (129723, 129727); (129734, 129743); (129754, 129759); (129768, 129775);
    (129783, 129791); (129939, 129939); (129995, 130031); (130042, 131071); (173792, 173823);
    (177977, 177983); (178206, 178207); (183970, 183983); (191457, 194559); (195102, 196607);
    (201547, 917759); (918000, 1114111) ]%Z.

Definition in_ranges (ranges : list (Z * Z)) (n : Z) : bool :=
  existsb (fun r : Z * Z => let (lo, hi) := r in (lo <=? n)%Z && (n <=? hi)%Z) ranges.

Definition shifted (shifts : list (Z * Z * Z * Z)) (n : Z) : option Z :=
  match
    find (fun r : Z * Z * Z * Z =>
            let '(lo, hi, step, _) := r in
            (lo <=? n)%Z && (n <=? hi)%Z && ((n - lo) mod step =? 0)%Z)
         shifts
  with
  | Some (_, _, _, shift) => Some (n + shift)%Z
  | None => None
  end.

Definition case_of (shifts : list (Z * Z * Z * Z)) (special : list (Z * list Z)) (n : Z)
  : list Z :=
  match find (fun e : Z * list Z => (fst e =? n)%Z) special with
  | Some e => snd e
  | None => match shifted shifts n with Some m => [m] | None => [n] end
  end.

Definition to_lower_full : Z -> list Z := case_of lower_shifts lower_special.
Definition to_title_full : Z -> list Z := case_of title_shifts title_special.
Definition cased (n : Z) : bool := in_ranges cased_ranges n.
Definition case_ignorable (n : Z) : bool := in_ranges case_ignorable_ranges n.
Definition printable (n : Z) : bool := negb (in_ranges unprintable_ranges n).

(** *** ASCII texts *)

Definition is_upper (c : ascii) : bool :=
  let n := nat_of_ascii c in (65 <=? n)%nat && (n <=? 90)%nat.

Definition is_lower (c : ascii) : bool :=
  let n := nat_of_ascii c in (97 <=? n)%nat && (n <=? 122)%nat.

Definition to_lower (c : ascii) : ascii :=
  if is_upper c then ascii_of_nat (nat_of_ascii c + 32) else c.

Definition to_upper (c : ascii) : ascii :=
  if is_lower c then ascii_of_nat (nat_of_ascii c - 32) else c.

Definition is_cased (c : ascii) : bool := is_upper c || is_lower c.

Fixpoint lower_ascii (s : string) : string :=
  match s with
  | EmptyString => EmptyString
  | String c r => String (to_lower c) (lower_ascii r)
  end.

Fixpoint title_ascii_from (previous_is_cased : bool) (s : string) : string :=
  match s with
  | EmptyString => EmptyString
  | String c r =>
      String (if previous_is_cased then to_lower c else to_upper c)
             (title_ascii_from (is_cased c) r)
  end.

Definition is_ascii_char (c : ascii) : bool := (nat_of_ascii c <? 128)%nat.

Definition is_ascii (s : string) : bool :=
  forallb is_ascii_char (list_ascii_of_string s).

(** *** [str.lower] and [str.title] *)

Definition item_cased (x : item) : bool :=
  match x with Code n => cased n | Undecoded _ => false end.

Definition item_ignorable (x : item) : bool :=
  match x with Code n => case_ignorable n | Undecoded _ => false end.

Fixpoint skip_ignorable (l : list item) : list item :=
  match l with
  | x :: r => if item_ignorable x then skip_ignorable r else l
  | [] => []
  end.

(** A capital sigma is final when a cased character precedes it and none
    follows, case-ignorable characters apart.  [before] is what precedes,
    the nearest character first. *)
Definition final_sigma (before after : list item) : bool :=
  match skip_ignorable before with
  | x :: _ =>
      item_cased x
      && match skip_ignorable after with
         | [] => true
         | y :: _ => negb (item_cased y)
         end
  | [] => false
  end.

Definition lower_item (before after : list item) (x : item) : list item :=
  match x with
  | Code n =>
      if (n =? 931)%Z then [Code (if final_sigma before after then 962 else 963)%Z]
      else map Code (to_lower_full n)
  | Undecoded _ => [x]
  end.

Definition title_item (x : item) : list item :=
  match x with
  | Code n => map Code (to_title_full n)
  | Undecoded _ => [x]
  end.

Fixpoint do_lower (before l : list item) : list item :=
  match l with
  | [] => []
  | x :: after => (lower_item before after x ++ do_lower (x :: before) after)%list
  end.

Fixpoint do_title (previous_is_cased : bool) (before l : list item) : list item :=
  match l with
  | [] => []
  | x :: after =>
      ((if previous_is_cased then lower_item before after x else title_item x)
       ++ do_title (item_cased x) (x :: before) after)%list
  end.

(** [s.lower()] *)
Definition lower (s : string) : string :=
  if is_ascii s then lower_ascii s else text (do_lower [] (items s)).

(** [s.title()]: a character that follows a cased character is lower-cased,
    any other is title-cased. *)
Definition title (s : string) : string :=
  if is_ascii s then title_ascii_from false s else text (do_title false [] (items s)).

(** [needle in hay] on two [str]. *)
Fixpoint is_substring (needle hay : string) : bool :=
  prefix needle hay
  || match hay with
     | EmptyString => false
     | String _ r => is_substring needle r
     end.

Fixpoint has_char (c : ascii) (s : string) : bool :=
  match s with
  | EmptyString => false
  | String d r => Ascii.eqb c d || has_char c r
  end.

(** *** [repr] *)

Definition hex_digit (n : nat) : ascii :=
  nth n (list_ascii_of_string "0123456789abcdef") "0"%char.

Fixpoint hex (digits : nat) (n : Z) : string :=
  match digits with
  | O => EmptyString
  | S d => hex d (n / 16) ++ String (hex_digit (Z.to_nat (n mod 16))) EmptyString
  end.

Definition repr_char (quote c : ascii) : string :=
  let n := nat_of_ascii c in
  if Ascii.eqb c quote || Ascii.eqb c "\"%char then String "\"%char (String c EmptyString)
  else if (n =? 9)%nat then "\t"
  else if (n =? 10)%nat then "\n"
  else if (n =? 13)%nat then "\r"
  else if (n <? 32)%nat || (n =? 127)%nat then
    "\x" ++ String (hex_digit (n / 16)) (String (hex_digit (n mod 16)) EmptyString)
  else String c EmptyString.

Definition repr_item (quote : ascii) (x : item) : string :=
  match x with
  | Code n =>
      if (n <? 128)%Z then repr_char quote (char_of n)
      else if printable n then utf8 n
      else if (n <? 256)%Z then "\x" ++ hex 2 n
      else if (n <? 65536)%Z then "\u" ++ hex 4 n
      else "\U" ++ hex 8 n
  | Undecoded chunk => chunk
  end.

(** [repr(s)] on a [str]: single quotes, unless the text has a single
    quote and no double quote. *)
Definition repr (s : string) : string :=
  let quote :=
    if has_char "'"%char s && negb (has_char (ascii_of_nat 34) s)
    then ascii_of_nat 34 else "'"%char in
  String quote EmptyString
    ++ String.concat EmptyString (map (repr_item quote) (items s))
    ++ String quote EmptyString.

(** [str(n)] on an [int]. *)
Definition of_Z (z : Z) : string := NilZero.string_of_int (Z.to_int z).
Definition of_nat (n : nat) : string := NilZero.string_of_uint (Nat.to_uint n).

End PyStr.

(** ** JSON values and the Python operations the script applies to them *)

Set Warnings "-register-all".

(** What [json.load] returns.  The script never computes with a number:
    it takes its truth value and its text, so a float carries these two.
    The members of an object are in the order of the document, which is the
    order a [dict] iterates in; a [dict] has one member per key. *)
Inductive json : Type :=
| JNull
| JBool (b : bool)
| JInt (z : Z)
| JFloat (nonzero : bool) (text : string)
| JString (s : string)
| JArray (items : list json)
| JObject (members : list (string * json)).

(** The exceptions the generator can meet, with the texts CPython 3.12
    gives them. *)
Inductive exn : Type :=
| AttributeError (type_name attr : string)
| TypeError (msg : string)
| KeyError (key : string).

Inductive result (A : Type) : Type :=
| Ok (a : A)
| Raise (e : exn).
Arguments Ok {A} a.
Arguments Raise {A} e.

Module Py.

Definition type_name (v : json) : string :=
  match v with
  | JNull => "NoneType"
  | JBool _ => "bool"
  | JInt _ => "int"
  | JFloat _ _ => "float"
  | JString _ => "str"
  | JArray _ => "list"
  | JObject _ => "dict"
  end.

(** [str(e)] *)
Definition exn_str (e : exn) : string :=
  match e with
  | AttributeError t a => "'" ++ t ++ "' object has no attribute '" ++ a ++ "'"
  | TypeError msg => msg
  | KeyError k => PyStr.repr k
  end.

(** [repr(v)] *)
Fixpoint repr (v : json) : string :=
  match v with
  | JNull => "None"
  | JBool true => "True"
  | JBool false => "False"
  | JInt z => PyStr.of_Z z
  | JFloat _ text => text
  | JString s => PyStr.repr s
  | JArray items => "[" ++ PyStr.join ", " (map repr items) ++ "]"
  | JObject members =>
      "{" ++ PyStr.join ", "
               (map (fun kv : string * json =>
                       let (k, x) := kv in PyStr.repr k ++ ": " ++ repr x)
                    members)
          ++ "}"
  end.

(** [str(v)], which is what a replacement field of an f-string yields. *)
Definition str (v : json) : string :=
  match v with
  | JString s => s
  | _ => repr v
  end.

(** The truth value of [v] in [if v:]. *)
Definition truthy (v : json) : bool :=
  match v with
  | JNull => false
  | JBool b => b
  | JInt z => negb (z =? 0)%Z
  | JFloat nonzero _ => nonzero
  | JString s => negb (String.eqb s EmptyString)
  | JArray items => match items with [] => false | _ => true end
  | JObject members => match members with [] => false | _ => true end
  end.

(** [isinstance(v, dict)] *)
Definition is_dict (v : json) : bool :=
  match v with JObject _ => true | _ => false end.

Fixpoint lookup (key : string) (members : list (string * json)) : option json :=
  match members with
  | [] => None
  | (k, x) :: rest => if String.eqb key k then Some x else lookup key rest
  end.

Definition has_key (key : string) (members : list (string * json)) : bool :=
  match lookup key members with Some _ => true | None => false end.

Definition lookup_or (key : string) (default : json) (members : list (string * json))
  : json :=
  match lookup key members with Some x => x | None => default end.

(** [v.get(key, default)] *)
Definition get (v : json) (key : string) (default : json) : result json :=
  match v with
  | JObject members => Ok (lookup_or key default members)
  | _ => Raise (AttributeError (type_name v) "get")
  end.

(** [v.keys()] and [v.items()] *)
Definition keys (v : json) : result (list string) :=
  match v with
  | JObject members => Ok (map fst members)
  | _ => Raise (AttributeError (type_name v) "keys")
  end.

Definition items (v : json) : result (list (string * json)) :=
  match v with
  | JObject members => Ok members
  | _ => Raise (AttributeError (type_name v) "items")
  end.

(** [v[key]] with a [str] key *)
Definition getitem (v : json) (key : string) : result json :=
  match v with
  | JObject members =>
      match lookup key members with
      | Some x => Ok x
      | None => Raise (KeyError key)
      end
  | JArray _ => Raise (TypeError "list indices must be integers or slices, not str")
  | JString _ => Raise (TypeError "string indices must be integers, not 'str'")
  | _ => Raise (TypeError ("'" ++ type_name v ++ "' object is not subscriptable"))
  end.

Definition is_str (s : string) (x : json) : bool :=
  match x with JString t => String.eqb s t | _ => false end.

(** [key in v] with a [str] key *)
Definition contains (v : json) (key : string) : result bool :=
  match v with
  | JObject members => Ok (has_key key members)
  | JArray items => Ok (existsb (is_str key) items)
  | JString s => Ok (PyStr.is_substring key s)
  | _ => Raise (TypeError ("argument of type '" ++ type_name v ++ "' is not iterable"))
  end.

(** The elements [for x in v] runs through. *)
Definition iter (v : json) : result (list json) :=
  match v with
  | JArray items => Ok items
  | JString s => Ok (map JString (PyStr.chars s))
  | JObject members => Ok (map (fun kv => JString (fst kv)) members)
  | _ => Raise (TypeError ("'" ++ type_name v ++ "' object is not iterable"))
  end.

(** [len(v)] *)
Definition len (v : json) : result nat :=
  match v with
  | JArray items => Ok (List.length items)
  | JString s => Ok (List.length (PyStr.chars s))
  | JObject members => Ok (List.length members)
  | _ => Raise (TypeError ("object of type '" ++ type_name v ++ "' has no len()"))
  end.

(** The items of [sep.join(seq)] must all be [str]. *)
Fixpoint str_items (i : nat) (items : list json) : result (list string) :=
  match items with
  | [] => Ok []
  | JString s :: rest =>
      match str_items (S i) rest with
      | Ok l => Ok (s :: l)
      | Raise e => Raise e
      end
  | x :: _ =>
      Raise (TypeError ("sequence item " ++ PyStr.of_nat i
                        ++ ": expected str instance, " ++ type_name x ++ " found"))
  end.

(** [sep.join(v)] *)
Definition join (sep : string) (v : json) : result string :=
  match iter v with
  | Ok items =>
      match str_items 0 items with
      | Ok l => Ok (PyStr.join sep l)
      | Raise e => Raise e
      end
  | Raise _ => Raise (TypeError "can only join an iterable")
  end.

End Py.

(** ** The [markdown] list and exceptions

    [generate_local_server_section] and its siblings receive the list
    [markdown] and append to it; a call either returns or raises, and the
    lines appended before a raise stay in the list. *)

Definition M (A : Type) : Type := list string -> result A * list string.

Definition ret {A : Type} (a : A) : M A := fun markdown => (Ok a, markdown).

Definition bind {A B : Type} (m : M A) (k : A -> M B) : M B :=
  fun markdown =>
    match m markdown with
    | (Ok a, markdown') => k a markdown'
    | (Raise e, markdown') => (Raise e, markdown')
    end.

(** An expression that may raise and does not touch [markdown]. *)
Definition lift {A : Type} (r : result A) : M A := fun markdown => (r, markdown).

(** [markdown.append(line)] *)
Definition markdown_append (line : string) : M unit :=
  fun markdown => (Ok tt, (markdown ++ [line])%list).

Notation "x <- m ;; k" := (bind m (fun x => k))
  (at level 61, m at next level, right associativity).
Notation "m ;; k" := (bind m (fun _ => k))
  (at level 61, right associativity).

(** [for x in xs: body(x)] *)
Fixpoint for_each {X : Type} (body : X -> M unit) (xs : list X) : M unit :=
  match xs with
  | [] => ret tt
  | x :: rest => body x ;; for_each body rest
  end.

(** The lines a computation appends to an empty list, and its outcome. *)
Definition lines_of {A : Type} (m : M A) : list string := snd (m []).
Definition outcome {A : Type} (m : M A) : result A := fst (m []).

(** ** The generator *)

Import PyStr.

Definition generate_tool_documentation (tool : json) (indent : string) : M unit :=
  tool_name <- lift (Py.get tool "name" (JString "unknown")) ;;
  description <- lift (Py.get tool "description" (JString "No description available")) ;;
  category <- lift (Py.get tool "category" (JString "general")) ;;
  use_cases <- lift (Py.get tool "use_cases" (JArray [])) ;;
  markdown_append (indent ++ "#### `" ++ Py.str tool_name ++ "`") ;;
  markdown_append indent ;;
  markdown_append (indent ++ "**Description**: " ++ Py.str description) ;;
  markdown_append indent ;;
  markdown_append (indent ++ "**Category**: " ++ Py.str category) ;;
  (if Py.truthy use_cases then
     use_cases_str <- lift (Py.join ", " use_cases) ;;
     markdown_append (indent ++ "**Use Cases**: " ++ use_cases_str)
   else ret tt) ;;
  input_schema <- lift (Py.get tool "input_schema" JNull) ;;
  (if Py.truthy input_schema && Py.is_dict input_schema then
     properties <- lift (Py.get input_schema "properties" (JObject [])) ;;
     required <- lift (Py.get input_schema "required" (JArray [])) ;;
     if Py.truthy properties then
       markdown_append indent ;;
       markdown_append (indent ++ "**Parameters**:") ;;
       params <- lift (Py.items properties) ;;
       for_each
         (fun param : string * json =>
            let (param_name, param_info) := param in
            param_type <- lift (Py.get param_info "type" (JString "unknown")) ;;
            param_desc <- lift (Py.get param_info "description" (JString "No description")) ;;
            is_required <- lift (Py.contains required param_name) ;;
            let required_marker :=
              if is_required : bool then " *(required)*" else EmptyString in
            markdown_append (indent ++ "- `" ++ param_name ++ "` (" ++ Py.str param_type
                             ++ ")" ++ required_marker ++ ": " ++ Py.str param_desc))
         params
     else ret tt
   else ret tt) ;;
  markdown_append indent.

Definition generate_local_server_section (server_name : string) (server_info : json)
  : M unit :=
  markdown_append ("### " ++ title server_name) ;;
  markdown_append EmptyString ;;
  description <- lift (Py.get server_info "description" (JString "No description available")) ;;
  markdown_append ("**Description**: " ++ Py.str description) ;;
  markdown_append EmptyString ;;
  has_command <- lift (Py.contains server_info "command") ;;
  (if has_command : bool then
     markdown_append "**Server Configuration**:" ;;
     markdown_append "```json" ;;
     markdown_append "{" ;;
     command <- lift (Py.get server_info "command" (JString EmptyString)) ;;
     markdown_append ("  " ++ dq ++ "command" ++ dq ++ ": " ++ dq ++ Py.str command ++ dq) ;;
     args <- lift (Py.get server_info "args" (JArray [])) ;;
     (if Py.truthy args then
        arg_list <- lift (Py.iter args) ;;
        let args_str := join ", " (map (fun arg => dq ++ Py.str arg ++ dq) arg_list) in
        markdown_append ("  " ++ dq ++ "args" ++ dq ++ ": [" ++ args_str ++ "]")
      else ret tt) ;;
     working_dir <- lift (Py.get server_info "working_directory" (JString "project_root")) ;;
     markdown_append ("  " ++ dq ++ "workingDirectory" ++ dq ++ ": " ++ dq
                      ++ Py.str working_dir ++ dq) ;;
     markdown_append "}" ;;
     markdown_append "```" ;;
     markdown_append EmptyString
   else ret tt) ;;
  tools <- lift (Py.get server_info "tools" (JArray [])) ;;
  if Py.truthy tools then
    count <- lift (Py.len tools) ;;
    markdown_append ("**Available Tools** (" ++ of_nat count ++ " tools):") ;;
    markdown_append EmptyString ;;
    tool_list <- lift (Py.iter tools) ;;
    for_each (fun tool => generate_tool_documentation tool EmptyString) tool_list
  else ret tt.

Definition generate_remote_server_section (server_name : string) (server_info : json)
  : M unit :=
  markdown_append ("### " ++ title server_name) ;;
  markdown_append EmptyString ;;
  description <- lift (Py.get server_info "description" (JString "No description available")) ;;
  markdown_append ("**Description**: " ++ Py.str description) ;;
  markdown_append EmptyString ;;
  has_endpoint <- lift (Py.contains server_info "endpoint") ;;
  (if has_endpoint : bool then
     endpoint <- lift (Py.getitem server_info "endpoint") ;;
     markdown_append ("**Endpoint**: `" ++ Py.str endpoint ++ "`") ;;
     markdown_append EmptyString
   else ret tt) ;;
  tools <- lift (Py.get server_info "tools" (JArray [])) ;;
  if Py.truthy tools then
    count <- lift (Py.len tools) ;;
    markdown_append ("**Available Tools** (" ++ of_nat count ++ " tools):") ;;
    markdown_append EmptyString ;;
    tool_list <- lift (Py.iter tools) ;;
    for_each (fun tool => generate_tool_documentation tool EmptyString) tool_list
  else ret tt.

(** [q s] is [s] between double quotes, for the literals of the source that
    contain them. *)
Definition q (s : string) : string := dq ++ s ++ dq.

Definition generate_configuration_guide : M unit :=
  markdown_append "## Client Configuration Guide" ;;
  markdown_append EmptyString ;;
  markdown_append "When generating task-specific client configurations, use this structure:" ;;
  markdown_append EmptyString ;;
  markdown_append "### Expected client-config.json Structure" ;;
  markdown_append EmptyString ;;
  markdown_append "```json" ;;
  markdown_append "{" ;;
  markdown_append ("  " ++ q "remoteTools" ++ ": [") ;;
  markdown_append ("    " ++ q "kubernetes_listResources" ++ ",") ;;
  markdown_append ("    " ++ q "memory_create_entities") ;;
  markdown_append "  ]," ;;
  markdown_append ("  " ++ q "localServers" ++ ": {") ;;
  markdown_append ("    " ++ q "filesystem" ++ ": {") ;;
  markdown_append ("      " ++ q "command" ++ ": " ++ q "npx" ++ ",") ;;
  markdown_append ("      " ++ q "args" ++ ": [" ++ q "-y" ++ ", "
                   ++ q "@modelcontextprotocol/server-filesystem" ++ ", "
                   ++ q "/workspace" ++ "],") ;;
  markdown_append ("      " ++ q "tools" ++ ": [" ++ q "read_file" ++ ", "
                   ++ q "write_file" ++ ", " ++ q "list_directory" ++ "],") ;;
  markdown_append ("      " ++ q "workingDirectory" ++ ": " ++ q "project_root") ;;
  markdown_append "    }" ;;
  markdown_append "  }" ;;
  markdown_append "}" ;;
  markdown_append "```" ;;
  markdown_append EmptyString ;;
  markdown_append "### Key Points" ;;
  markdown_append EmptyString ;;
  markdown_append "- **Remote Tools**: Array of specific tool names (not server names)" ;;
  markdown_append "- **Local Servers**: Object with complete server configurations" ;;
  markdown_append "- **Tools Selection**: Only include tools actually needed for the specific task" ;;
  markdown_append "- **Working Directory**: Use `project_root` as the standard working directory" ;;
  markdown_append EmptyString ;;
  markdown_append "### Tool Selection Guidelines" ;;
  markdown_append EmptyString ;;
  markdown_append "1. **Read Task Requirements**: Understand what the task needs to accomplish" ;;
  markdown_append "2. **Match Tools to Actions**: Select tools that directly support the required actions" ;;
  markdown_append "3. **Minimize Tool Set**: Only include tools that are actually needed" ;;
  markdown_append "4. **Consider Dependencies**: Include tools needed for prerequisite actions" ;;
  markdown_append EmptyString.

(** The body of [generate_tool_catalog_markdown], which runs on the list
    the function creates. *)
Definition catalog_body (catalog_data : json) : M unit :=
  markdown_append "# MCP Tool Catalog" ;;
  markdown_append EmptyString ;;
  markdown_append "This document provides a comprehensive overview of all available MCP tools," ;;
  markdown_append "both local and remote, for task-specific configuration generation." ;;
  markdown_append EmptyString ;;
  last_updated <- lift (Py.get catalog_data "last_updated" (JString "Unknown")) ;;
  markdown_append ("**Last Updated**: " ++ Py.str last_updated) ;;
  markdown_append EmptyString ;;
  markdown_append "## Table of Contents" ;;
  markdown_append EmptyString ;;
  markdown_append "- [Local Servers](#local-servers)" ;;
  has_local <- lift (Py.contains catalog_data "local") ;;
  (if has_local : bool then
     local <- lift (Py.getitem catalog_data "local") ;;
     names <- lift (Py.keys local) ;;
     for_each
       (fun server_name =>
          markdown_append ("  - [" ++ title server_name ++ "](#" ++ lower server_name ++ ")"))
       names
   else ret tt) ;;
  markdown_append "- [Remote Tools](#remote-tools)" ;;
  has_remote <- lift (Py.contains catalog_data "remote") ;;
  (if has_remote : bool then
     remote <- lift (Py.getitem catalog_data "remote") ;;
     names <- lift (Py.keys remote) ;;
     for_each
       (fun server_name =>
          markdown_append ("  - [" ++ title server_name ++ "](#" ++ lower server_name ++ ")"))
       names
   else ret tt) ;;
  markdown_append "- [Client Configuration Guide](#client-configuration-guide)" ;;
  markdown_append EmptyString ;;
  markdown_append "## Local Servers" ;;
  markdown_append EmptyString ;;
  markdown_append "Local servers run as separate processes and communicate via stdio transport." ;;
  markdown_append "They require complete command configuration in the client config." ;;
  markdown_append EmptyString ;;
  has_local <- lift (Py.contains catalog_data "local") ;;
  (if has_local : bool then
     local <- lift (Py.getitem catalog_data "local") ;;
     servers <- lift (Py.items local) ;;
     for_each
       (fun server : string * json =>
          let (server_name, server_info) := server in
          generate_local_server_section server_name server_info)
       servers
   else ret tt) ;;
  markdown_append "## Remote Tools" ;;
  markdown_append EmptyString ;;
  markdown_append "Remote tools are accessible through the Toolman proxy server." ;;
  markdown_append "Only tool names are needed in the client config." ;;
  markdown_append EmptyString ;;
  has_remote <- lift (Py.contains catalog_data "remote") ;;
  (if has_remote : bool then
     remote <- lift (Py.getitem catalog_data "remote") ;;
     servers <- lift (Py.items remote) ;;
     for_each
       (fun server : string * json =>
          let (server_name, server_info) := server in
          generate_remote_server_section server_name server_info)
       servers
   else ret tt) ;;
  generate_configuration_guide.

Definition generate_tool_catalog_markdown (catalog_data : json) : result string :=
  match catalog_body catalog_data [] with
  | (Ok _, markdown) => Ok (join nl markdown)
  | (Raise e, _) => Raise e
  end.

(** ** The command line *)

(** What [open(catalog_file, 'r')] and the read inside [json.load] give. *)
Inductive file_result : Type :=
| FileNotFound
| ReadError (msg : string)
| Content (text : string).

(** What the decoder of [json.load] gives on a text: a value, a
    [JSONDecodeError] with its diagnostic [str(e)], or another exception
    (a [RecursionError] on a document nested too deep) with its message. *)
Inductive load_result : Type :=
| Loaded (data : json)
| JSONDecodeError (diagnostic : string)
| LoadError (msg : string).

(** What a process can consult: its arguments, the files, the clock behind
    the [datetime] the script imports, and the encoding of its standard
    output.  [encode_error text] is the message of the [UnicodeEncodeError]
    that [print(text)] raises when the encoding has no bytes for [text] (a
    lone surrogate under UTF-8, any character above the range of a narrower
    encoding), and [None] when [text] is written. *)
Record Env : Type := {
  argv : list string;
  open_read : string -> file_result;
  now : Z;
  encode_error : string -> option string
}.

(** What a run leaves: the texts given to [print], in order, and the exit
    status. *)
Record Run : Type := {
  stdout : list string;
  exit_status : Z
}.

Section Main.

(** The JSON decoder of the Python library. *)
Variable json_loads : string -> load_result.

(** [print(markdown)] is inside the [try]: when it raises, nothing of the
    document has been written and the last handler prints the message.  The
    lines the handlers and the usage print are taken to be written. *)

Definition main (env : Env) : Run :=
  match argv env with
  | [_; catalog_file] =>
      match open_read env catalog_file with
      | Content text =>
          match json_loads text with
          | Loaded catalog_data =>
              match generate_tool_catalog_markdown catalog_data with
              | Ok markdown =>
                  match encode_error env markdown with
                  | None => {| stdout := [markdown]; exit_status := 0 |}
                  | Some msg =>
                      {| stdout := ["Error: " ++ msg]; exit_status := 1 |}
                  end
              | Raise e =>
                  {| stdout := ["Error: " ++ Py.exn_str e]; exit_status := 1 |}
              end
          | JSONDecodeError diagnostic =>
              {| stdout := ["Error: Invalid JSON in '" ++ catalog_file ++ "': " ++ diagnostic];
                 exit_status := 1 |}
          | LoadError msg =>
              {| stdout := ["Error: " ++ msg]; exit_status := 1 |}
          end
      | FileNotFound =>
          {| stdout := ["Error: File '" ++ catalog_file ++ "' not found"];
             exit_status := 1 |}
      | ReadError msg =>
          {| stdout := ["Error: " ++ msg]; exit_status := 1 |}
      end
  | _ =>
      {| stdout := ["Usage: python3 generate-tool-catalog-markdown.py <tool-catalog.json>"];
         exit_status := 1 |}
  end.

End Main.

(** ** Definitions used in the statements *)

(** A computation is an appender when it leaves the lines it was given in
    place, and neither its outcome nor the lines it adds depend on them. *)
Definition appender {A : Type} (m : M A) : Prop :=
  forall markdown, m markdown = (outcome m, (markdown ++ lines_of m)%list).

(** The dictionary without [key]. *)
Definition remove_key (key : string) (members : list (string * json))
  : list (string * json) :=
  filter (fun kv => negb (String.eqb key (fst kv))) members.

(** The statements of [generate_tool_documentation] after the category
    line, as functions of the two fields they read. *)
Definition use_cases_part (indent : string) (use_cases : json) : M unit :=
  if Py.truthy use_cases then
    use_cases_str <- lift (Py.join ", " use_cases) ;;
    markdown_append (indent ++ "**Use Cases**: " ++ use_cases_str)
  else ret tt.

Definition parameter_bullet (indent : string) (required : json) (param : string * json)
  : M unit :=
  let (param_name, param_info) := param in
  param_type <- lift (Py.get param_info "type" (JString "unknown")) ;;
  param_desc <- lift (Py.get param_info "description" (JString "No description")) ;;
  is_required <- lift (Py.contains required param_name) ;;
  let required_marker := if is_required : bool then " *(required)*" else EmptyString in
  markdown_append (indent ++ "- `" ++ param_name ++ "` (" ++ Py.str param_type
                   ++ ")" ++ required_marker ++ ": " ++ Py.str param_desc).

Definition parameters_part (indent : string) (input_schema : json) : M unit :=
  if Py.truthy input_schema && Py.is_dict input_schema then
    properties <- lift (Py.get input_schema "properties" (JObject [])) ;;
    required <- lift (Py.get input_schema "required" (JArray [])) ;;
    if Py.truthy properties then
      markdown_append indent ;;
      markdown_append (indent ++ "**Parameters**:") ;;
      params <- lift (Py.items properties) ;;
      for_each (parameter_bullet indent required) params
    else ret tt
  else ret tt.

(** The five lines every tool block starts with. *)
Definition tool_head (indent : string) (members : list (string * json)) : list string :=
  [ indent ++ "#### `" ++ Py.str (Py.lookup_or "name" (JString "unknown") members) ++ "`";
    indent;
    indent ++ "**Description**: "
      ++ Py.str (Py.lookup_or "description" (JString "No description available") members);
    indent;
    indent ++ "**Category**: " ++ Py.str (Py.lookup_or "category" (JString "general") members) ].

Definition tool_rest (indent : string) (members : list (string * json)) : M unit :=
  use_cases_part indent (Py.lookup_or "use_cases" (JArray []) members) ;;
  parameters_part indent (Py.lookup_or "input_schema" JNull members) ;;
  markdown_append indent.

(** What the specification says of one bullet: its text, with the marker exactly
    when the name is among the required names. *)
Definition bullet_spec (indent : string) (required_items : list json)
  (param : string * json) (line : string) : Prop :=
  exists info marker,
    snd param = JObject info
    /\ line = indent ++ "- `" ++ fst param ++ "` ("
              ++ Py.str (Py.lookup_or "type" (JString "unknown") info) ++ ")"
              ++ marker ++ ": "
              ++ Py.str (Py.lookup_or "description" (JString "No description") info)
    /\ (In (JString (fst param)) required_items -> marker = " *(required)*")
    /\ (~ In (JString (fst param)) required_items -> marker = EmptyString).

(** The statements of a server section: those that render the tools, shared
    by the two kinds of section, and those before them. *)
Definition tools_part (tools : json) : M unit :=
  if Py.truthy tools then
    count <- lift (Py.len tools) ;;
    markdown_append ("**Available Tools** (" ++ of_nat count ++ " tools):") ;;
    markdown_append EmptyString ;;
    tool_list <- lift (Py.iter tools) ;;
    for_each (fun tool => generate_tool_documentation tool EmptyString) tool_list
  else ret tt.

Definition local_head (server_name : string) (server_info : json) : M unit :=
  markdown_append ("### " ++ title server_name) ;;
  markdown_append EmptyString ;;
  description <- lift (Py.get server_info "description" (JString "No description available")) ;;
  markdown_append ("**Description**: " ++ Py.str description) ;;
  markdown_append EmptyString ;;
  has_command <- lift (Py.contains server_info "command") ;;
  if has_command : bool then
    markdown_append "**Server Configuration**:" ;;
    markdown_append "```json" ;;
    markdown_append "{" ;;
    command <- lift (Py.get server_info "command" (JString EmptyString)) ;;
    markdown_append ("  " ++ dq ++ "command" ++ dq ++ ": " ++ dq ++ Py.str command ++ dq) ;;
    args <- lift (Py.get server_info "args" (JArray [])) ;;
    (if Py.truthy args then
       arg_list <- lift (Py.iter args) ;;
       let args_str := join ", " (map (fun arg => dq ++ Py.str arg ++ dq) arg_list) in
       markdown_append ("  " ++ dq ++ "args" ++ dq ++ ": [" ++ args_str ++ "]")
     else ret tt) ;;
    working_dir <- lift (Py.get server_info "working_directory" (JString "project_root")) ;;
    markdown_append ("  " ++ dq ++ "workingDirectory" ++ dq ++ ": " ++ dq
                     ++ Py.str working_dir ++ dq) ;;
    markdown_append "}" ;;
    markdown_append "```" ;;
    markdown_append EmptyString
  else ret tt.

Definition remote_head (server_name : string) (server_info : json) : M unit :=
  markdown_append ("### " ++ title server_name) ;;
  markdown_append EmptyString ;;
  description <- lift (Py.get server_info "description" (JString "No description available")) ;;
  markdown_append ("**Description**: " ++ Py.str description) ;;
  markdown_append EmptyString ;;
  has_endpoint <- lift (Py.contains server_info "endpoint") ;;
  if has_endpoint : bool then
    endpoint <- lift (Py.getitem server_info "endpoint") ;;
    markdown_append ("**Endpoint**: `" ++ Py.str endpoint ++ "`") ;;
    markdown_append EmptyString
  else ret tt.

(** The block of one tool, and the heading that announces the blocks. *)
Definition tool_block (tool : json) : list string :=
  lines_of (generate_tool_documentation tool EmptyString).

Definition tools_heading (tools : list json) : list string :=
  match tools with
  | [] => []
  | _ => [ "**Available Tools** (" ++ of_nat (List.length tools) ++ " tools):";
           EmptyString ]
  end.

(** A tool block that renders is headed by the name of its tool. *)
Definition headed_by_its_name (tool : json) : Prop :=
  exists members,
    tool = JObject members
    /\ hd_error (tool_block tool)
       = Some ("#### `" ++ Py.str (Py.lookup_or "name" (JString "unknown") members) ++ "`").

(** A mapping of the catalog is empty when its key is absent or maps to the
    empty object. *)
Definition empty_mapping (key : string) (members : list (string * json)) : Prop :=
  Py.lookup key members = None \/ Py.lookup key members = Some (JObject []).

(** The lines of the configuration guide. *)
Definition configuration_guide_lines : list string :=
  [
    "## Client Configuration Guide";
    EmptyString;
    "When generating task-specific client configurations, use this structure:";
    EmptyString;
    "### Expected client-config.json Structure";
    EmptyString;
    "```json";
    "{";
    "  " ++ q "remoteTools" ++ ": [";
    "    " ++ q "kubernetes_listResources" ++ ",";
    "    " ++ q "memory_create_entities";
    "  ],";
    "  " ++ q "localServers" ++ ": {";
    "    " ++ q "filesystem" ++ ": {";
    "      " ++ q "command" ++ ": " ++ q "npx" ++ ",";
    "      " ++ q "args" ++ ": [" ++ q "-y" ++ ", "
      ++ q "@modelcontextprotocol/server-filesystem" ++ ", " ++ q "/workspace" ++ "],";
    "      " ++ q "tools" ++ ": [" ++ q "read_file" ++ ", " ++ q "write_file" ++ ", "
      ++ q "list_directory" ++ "],";
    "      " ++ q "workingDirectory" ++ ": " ++ q "project_root";
    "    }";
    "  }";
    "}";
    "```";
    EmptyString;
    "### Key Points";
    EmptyString;
    "- **Remote Tools**: Array of specific tool names (not server names)";
    "- **Local Servers**: Object with complete server configurations";
    "- **Tools Selection**: Only include tools actually needed for the specific task";
    "- **Working Directory**: Use `project_root` as the standard working directory";
    EmptyString;
    "### Tool Selection Guidelines";
    EmptyString;
    "1. **Read Task Requirements**: Understand what the task needs to accomplish";
    "2. **Match Tools to Actions**: Select tools that directly support the required actions";
    "3. **Minimize Tool Set**: Only include tools that are actually needed";
    "4. **Consider Dependencies**: Include tools needed for prerequisite actions";
    EmptyString ].

(** The document of a catalog without servers, around the last-updated
    value and the lines of the configuration guide. *)
Definition skeleton (last_updated : string) (guide : list string) : list string :=
  ([ "# MCP Tool Catalog";
     EmptyString;
     "This document provides a comprehensive overview of all available MCP tools,";
     "both local and remote, for task-specific configuration generation.";
     EmptyString;
     "**Last Updated**: " ++ last_updated;
     EmptyString;
     "## Table of Contents";
     EmptyString;
     "- [Local Servers](#local-servers)";
     "- [Remote Tools](#remote-tools)";
     "- [Client Configuration Guide](#client-configuration-guide)";
     EmptyString;
     "## Local Servers";
     EmptyString;
     "Local servers run as separate processes and communicate via stdio transport.";
     "They require complete command configuration in the client config.";
     EmptyString;
     "## Remote Tools";
     EmptyString;
     "Remote tools are accessible through the Toolman proxy server.";
     "Only tool names are needed in the client config.";
     EmptyString ]%string ++ guide)%list.

(** The lines up to the table of contents. *)
Definition document_start (last_updated : string) : list string :=
  [ "# MCP Tool Catalog";
    EmptyString;
    "This document provides a comprehensive overview of all available MCP tools,";
    "both local and remote, for task-specific configuration generation.";
    EmptyString;
    "**Last Updated**: " ++ last_updated ].

(** The name made of the sharp s (U+00DF, the bytes 195 and 159) and the
    letter a. *)
Definition sharp_s_a : string := bytes [195; 159; 97]%Z.

(** The nested entry of a server: title-cased text, lower-cased anchor. *)
Definition toc_entry (server_name : string) : string :=
  "  - [" ++ title server_name ++ "](#" ++ lower server_name ++ ")".

(** The server names of a mapping of the catalog, in its order. *)
Definition server_names (key : string) (members : list (string * json)) : list string :=
  match Py.lookup key members with
  | Some (JObject servers) => map fst servers
  | _ => []
  end.

(** A mapping of the catalog is an object, or its key is absent. *)
Definition mapping_or_absent (key : string) (members : list (string * json)) : Prop :=
  Py.lookup key members = None
  \/ exists servers, Py.lookup key members = Some (JObject servers).

(** The table of contents of a catalog. *)
Definition table_of_contents (members : list (string * json)) : list string :=
  ([ "## Table of Contents"; EmptyString; "- [Local Servers](#local-servers)" ]
   ++ map toc_entry (server_names "local" members)
   ++ [ "- [Remote Tools](#remote-tools)" ]
   ++ map toc_entry (server_names "remote" members)
   ++ [ "- [Client Configuration Guide](#client-configuration-guide)"; EmptyString ])%list.

Definition usage : string :=
  "Usage: python3 generate-tool-catalog-markdown.py <tool-catalog.json>".

(** The end-to-end example of the specification. *)
Definition filesystem_example : json :=
  JObject
    [ ("local",
       JObject
         [ ("filesystem",
            JObject
              [ ("description", JString "FS ops");
                ("command", JString "npx");
                ("args", JArray [JString "-y"; JString "pkg"]);
                ("tools",
                 JArray
                   [ JObject
                       [ ("name", JString "read_file");
                         ("description", JString "Read a file");
                         ("category", JString "io") ] ]) ]) ]) ].

(** The section of the server [filesystem] in the document of the example. *)
Definition filesystem_section : list string :=
  [ "### Filesystem";
    EmptyString;
    "**Description**: FS ops";
    EmptyString;
    "**Server Configuration**:";
    "```json";
    "{";
    "  " ++ q "command" ++ ": " ++ q "npx";
    "  " ++ q "args" ++ ": [" ++ q "-y" ++ ", " ++ q "pkg" ++ "]";
    "  " ++ q "workingDirectory" ++ ": " ++ q "project_root";
    "}";
    "```";
    EmptyString;
    "**Available Tools** (1 tools):";
    EmptyString;
    "#### `read_file`";
    EmptyString;
    "**Description**: Read a file";
    EmptyString;
    "**Category**: io";
    EmptyString ].

(** The servers of a mapping of the catalog, in its order. *)
Definition servers_of (key : string) (members : list (string * json))
  : list (string * json) :=
  match Py.lookup key members with
  | Some (JObject servers) => servers
  | _ => []
  end.

(** The bodies of the two loops over the servers. *)
Definition local_section (server : string * json) : M unit :=
  let (server_name, server_info) := server in
  generate_local_server_section server_name server_info.

Definition remote_section (server : string * json) : M unit :=
  let (server_name, server_info) := server in
  generate_remote_server_section server_name server_info.

(** The shape of the data model: objects where the generator reads fields,
    lists where it iterates, strings where it joins.  Any field may be
    absent, and a scalar field may hold any value. *)
Definition is_string (v : json) : bool :=
  match v with JString _ => true | _ => false end.

Definition is_list (v : json) : bool :=
  match v with JArray _ => true | _ => false end.

Definition shaped_use_cases (v : json) : bool :=
  match v with JArray items => forallb is_string items | _ => false end.

Definition shaped_properties (v : json) : bool :=
  match v with
  | JObject props => forallb (fun p : string * json => Py.is_dict (snd p)) props
  | _ => false
  end.

Definition shaped_schema (v : json) : bool :=
  match v with
  | JNull => true
  | JObject schema =>
      shaped_properties (Py.lookup_or "properties" (JObject []) schema)
      && is_list (Py.lookup_or "required" (JArray []) schema)
  | _ => false
  end.

Definition shaped_tool (v : json) : bool :=
  match v with
  | JObject members =>
      shaped_use_cases (Py.lookup_or "use_cases" (JArray []) members)
      && shaped_schema (Py.lookup_or "input_schema" JNull members)
  | _ => false
  end.

Definition shaped_tools (v : json) : bool :=
  match v with JArray tools => forallb shaped_tool tools | _ => false end.

Definition shaped_server (v : json) : bool :=
  match v with
  | JObject members =>
      is_list (Py.lookup_or "args" (JArray []) members)
      && shaped_tools (Py.lookup_or "tools" (JArray []) members)
  | _ => false
  end.

Definition shaped_mapping (v : json) : bool :=
  match v with
  | JObject servers => forallb (fun s : string * json => shaped_server (snd s)) servers
  | _ => false
  end.

Definition shaped_catalog (v : json) : bool :=
  match v with
  | JObject members =>
      shaped_mapping (Py.lookup_or "local" (JObject []) members)
      && shaped_mapping (Py.lookup_or "remote" (JObject []) members)
  | _ => false
  end.

(** What the specification expects of the error for a server entry that is
    not an object: that rendering raises and the message names the key. *)
Definition reports_server_key (catalog_data : json) (server_name : string) : Prop :=
  exists e,
    generate_tool_catalog_markdown catalog_data = Raise e
    /\ is_substring server_name (Py.exn_str e) = true.

(** A catalog whose server entry [filesystem] is a list. *)
Definition list_server_example : json :=
  JObject [ ("local", JObject [ ("filesystem", JArray []) ]) ].

(** A server entry whose tools are not in alphabetical order. *)
Definition two_tools : list json :=
  [ JObject [ ("name", JString "write_file"); ("category", JString "io") ];
    JObject [ ("name", JString "read_file") ] ].

Definition two_tools_server : list (string * json) :=
  [ ("description", JString "FS ops"); ("tools", JArray two_tools) ].

(** A tool with one required and one optional parameter. *)
Definition mixed_properties : list (string * json) :=
  [ ("path", JObject [ ("type", JString "string"); ("description", JString "File path") ]);
    ("encoding", JObject [ ("type", JString "string") ]) ].

Definition mixed_schema : list (string * json) :=
  [ ("properties", JObject mixed_properties); ("required", JArray [JString "path"]) ].

Definition mixed_tool : list (string * json) :=
  [ ("name", JString "read_file"); ("input_schema", JObject mixed_schema) ].

(** Catalogs for the instances below. *)
Definition no_servers : list (string * json) :=
  [ ("last_updated", JString "2025-01-01"); ("local", JObject []); ("remote", JObject []) ].

Definition three_servers : list (string * json) :=
  [ ("local", JObject [ ("my server", JObject []); ("GitHub", JObject []) ]);
    ("remote", JObject [ ("k8s-API", JObject []) ]) ].

Definition remote_number_example : list (string * json) :=
  [ ("local", JObject [ ("filesystem", JObject []) ]);
    ("remote", JObject [ ("memory", JObject []); ("search", JInt 7) ]) ].

(** A process whose every file reads as [file] and whose standard output
    takes every text, and a decoder that rejects every text. *)
Definition sample_env (arguments : list string) (file : file_result) (clock : Z) : Env :=
  {| argv := arguments; open_read := fun _ => file; now := clock;
     encode_error := fun _ => None |}.

Definition rejecting_decoder (text : string) : load_result :=
  JSONDecodeError "Expecting value: line 1 column 1 (char 0)".

(** ** Definitions used in the further properties *)

(** The fixed lines that open the two parts of the document. *)
Definition local_intro : list string :=
  [ "## Local Servers";
    EmptyString;
    "Local servers run as separate processes and communicate via stdio transport.";
    "They require complete command configuration in the client config.";
    EmptyString ].

Definition remote_intro : list string :=
  [ "## Remote Tools";
    EmptyString;
    "Remote tools are accessible through the Toolman proxy server.";
    "Only tool names are needed in the client config.";
    EmptyString ].

(** The lines of a document: the start, the table of contents, the sections
    of the local servers and of the remote servers in the order of their
    mappings, and the configuration guide. *)
Definition document_lines (members : list (string * json)) : list string :=
  (document_start (Py.str (Py.lookup_or "last_updated" (JString "Unknown") members))
   ++ [EmptyString]
   ++ table_of_contents members
   ++ local_intro
   ++ flat_map (fun server => lines_of (local_section server)) (servers_of "local" members)
   ++ remote_intro
   ++ flat_map (fun server => lines_of (remote_section server)) (servers_of "remote" members)
   ++ configuration_guide_lines)%list.

(** A section opens with the heading of its server. *)
Definition opens_with_heading (section : string * json -> M unit) (server : string * json)
  : Prop :=
  hd_error (lines_of (section server)) = Some ("### " ++ title (fst server)).

(** The loop over [xs] raises [e] in the round of its first failing
    element. *)
Definition first_failure {X : Type} (body : X -> M unit) (xs : list X) (e : exn) : Prop :=
  exists good bad rest,
    xs = (good ++ bad :: rest)%list
    /\ Forall (fun x => outcome (body x) = Ok tt) good
    /\ outcome (body bad) = Raise e.

(** Two dictionaries agree on [keys] when they map each of them alike. *)
Definition agrees_on (keys : list string) (members members' : list (string * json)) : Prop :=
  forall key, In key keys -> Py.lookup key members = Py.lookup key members'.

(** The fields each function reads. *)
Definition tool_fields : list string :=
  [ "name"; "description"; "category"; "use_cases"; "input_schema" ].

Definition local_fields : list string :=
  [ "description"; "command"; "args"; "working_directory"; "tools" ].

Definition remote_fields : list string :=
  [ "description"; "endpoint"; "tools" ].

Definition catalog_fields : list string :=
  [ "last_updated"; "local"; "remote" ].

(** The four lines that open a server section. *)
Definition section_opening (server_name : string) (members : list (string * json))
  : list string :=
  [ "### " ++ title server_name;
    EmptyString;
    "**Description**: "
      ++ Py.str (Py.lookup_or "description" (JString "No description available") members);
    EmptyString ].

(** The configuration block of a local section whose arguments iterate as
    [arg_list]: absent without a [command], and without a line of arguments
    when [args] is falsy. *)
Definition configuration_block (members : list (string * json)) (arg_list : list json)
  : list string :=
  if Py.has_key "command" members then
    ([ "**Server Configuration**:";
       "```json";
       "{";
       "  " ++ q "command" ++ ": "
         ++ q (Py.str (Py.lookup_or "command" (JString EmptyString) members)) ]%string
     ++ (if Py.truthy (Py.lookup_or "args" (JArray []) members) then
           [ "  " ++ q "args" ++ ": ["
               ++ join ", " (map (fun arg => q (Py.str arg)) arg_list) ++ "]" ]%string
         else [])
     ++ [ "  " ++ q "workingDirectory" ++ ": "
            ++ q (Py.str (Py.lookup_or "working_directory" (JString "project_root") members));
          "}";
          "```";
          EmptyString ]%string)%list
  else [].

(** The lines of the configuration block that precede the arguments. *)
Definition configuration_block_start (members : list (string * json)) : list string :=
  [ "**Server Configuration**:";
    "```json";
    "{";
    "  " ++ q "command" ++ ": "
      ++ q (Py.str (Py.lookup_or "command" (JString EmptyString) members)) ].

(** What [for x in v] accepts. *)
Definition iterable (v : json) : bool :=
  match v with
  | JArray _ | JString _ | JObject _ => true
  | _ => false
  end.

(** The endpoint line of a remote section, with its blank line. *)
Definition endpoint_lines (members : list (string * json)) : list string :=
  match Py.lookup "endpoint" members with
  | Some endpoint => [ "**Endpoint**: `" ++ Py.str endpoint ++ "`"; EmptyString ]
  | None => []
  end.

(** A schema gives no parameters when it is not a non-empty object, or when
    its [properties] are falsy (absent, empty, null). *)
Definition without_parameters (input_schema : json) : bool :=
  match input_schema with
  | JObject (member :: schema) =>
      negb (Py.truthy (Py.lookup_or "properties" (JObject []) (member :: schema)))
  | _ => true
  end.

(** The line of the use cases [labels], absent when there is none. *)
Definition use_cases_lines (indent : string) (labels : list string) : list string :=
  match labels with
  | [] => []
  | _ => [ indent ++ "**Use Cases**: " ++ join ", " labels ]
  end.

(** The bullet of a property when [required] is the text [required_text]:
    the marker is there exactly when the name occurs in the text. *)
Definition substring_bullet_spec (indent required_text : string)
  (param : string * json) (line : string) : Prop :=
  exists info marker,
    snd param = JObject info
    /\ line = indent ++ "- `" ++ fst param ++ "` ("
              ++ Py.str (Py.lookup_or "type" (JString "unknown") info) ++ ")"
              ++ marker ++ ": "
              ++ Py.str (Py.lookup_or "description" (JString "No description") info)
    /\ (is_substring (fst param) required_text = true -> marker = " *(required)*")
    /\ (is_substring (fst param) required_text = false -> marker = EmptyString).

(** What [x in v] accepts. *)
Definition container (v : json) : bool :=
  match v with
  | JArray _ | JString _ | JObject _ => true
  | _ => false
  end.

(** What a section raises on truthy [tools] that are not a list: a text and
    an object are iterated, and their items, which are texts, have no
    [get]; the other values have no length. *)
Definition tools_error (tools : json) : exn :=
  match tools with
  | JString _ | JObject _ => AttributeError "str" "get"
  | _ => TypeError ("object of type '" ++ Py.type_name tools ++ "' has no len()")
  end.

(** A computation emits lines of [P] when it is an appender and every line
    it adds satisfies [P]. *)
Definition emits {A : Type} (P : string -> Prop) (m : M A) : Prop :=
  appender m /\ Forall P (lines_of m).

Definition starts_with (indent line : string) : Prop := prefix indent line = true.

(** Entries for the instances of the further properties. *)
Definition launched_server : list (string * json) :=
  [ ("command", JString "npx"); ("args", JArray [JString "-y"; JString "pkg"]) ].

Definition numbered_args_server : list (string * json) :=
  [ ("command", JString "npx"); ("args", JInt 3) ].

Definition endpoint_server : list (string * json) :=
  [ ("description", JString "Cluster"); ("endpoint", JString "http://toolman/k8s");
    ("command", JString "ignored") ].

Definition keyed_tools_server : list (string * json) :=
  [ ("tools", JObject [ ("read_file", JObject []) ]) ].

Definition labelled_tool : list (string * json) :=
  [ ("name", JString "read_file");
    ("use_cases", JArray (map JString ["io"; "files"]));
    ("input_schema", JString "none") ].

Definition mislabelled_tool : list (string * json) :=
  [ ("name", JString "read_file");
    ("use_cases", JArray (map JString ["io"] ++ [JInt 3; JString "files"])) ].

Definition text_required_schema : list (string * json) :=
  [ ("properties", JObject mixed_properties); ("required", JString "filepath") ].

Definition text_required_tool : list (string * json) :=
  [ ("name", JString "read_file"); ("input_schema", JObject text_required_schema) ].

Definition flag_required_schema : list (string * json) :=
  [ ("properties", JObject mixed_properties); ("required", JBool true) ].

Definition flag_required_tool : list (string * json) :=
  [ ("name", JString "read_file"); ("input_schema", JObject flag_required_schema) ].

Definition annotated_tool : list (string * json) :=
  [ ("homepage", JString "https://example.org"); ("category", JString "io");
    ("name", JString "read_file") ].

Definition plain_tool : list (string * json) :=
  [ ("name", JString "read_file"); ("category", JString "io") ].

(** * Properties *)

(** ** Running the monad *)

Section Running.

Context {A B : Type}.

Lemma bind_lift_ok (a : A) (k : A -> M B) markdown :
  bind (lift (Ok a)) k markdown = k a markdown.
Proof. reflexivity. Qed.

Lemma bind_lift_raise (e : exn) (k : A -> M B) markdown :
  bind (lift (Raise e)) k markdown = (Raise e, markdown).
Proof. reflexivity. Qed.

Lemma bind_append (line : string) (k : unit -> M B) markdown :
  bind (markdown_append line) k markdown = k tt (markdown ++ [line])%list.
Proof. reflexivity. Qed.

Lemma bind_ret (a : A) (k : A -> M B) markdown :
  bind (ret a) k markdown = k a markdown.
Proof. reflexivity. Qed.

End Running.

(** Runs the statements at the head of a sequence whose outcome is known. *)
Ltac run_steps :=
  repeat (first [ rewrite bind_lift_ok | rewrite bind_append
                | rewrite bind_ret | rewrite bind_lift_raise ];
          cbv beta).

Lemma bind_assoc {A B C : Type} (m : M A) (k : A -> M B) (h : B -> M C) markdown :
  bind (bind m k) h markdown = bind m (fun a => bind (k a) h) markdown.
Proof.
  unfold bind. destruct (m markdown) as [[a | e] markdown']; reflexivity.
Qed.

Lemma appender_ret {A : Type} (a : A) : appender (ret a).
Proof. intros md. unfold ret, outcome, lines_of. simpl. now rewrite app_nil_r. Qed.

Lemma appender_lift {A : Type} (r : result A) : appender (lift r).
Proof. intros md. unfold lift, outcome, lines_of. simpl. now rewrite app_nil_r. Qed.

Lemma appender_append (line : string) : appender (markdown_append line).
Proof. intros md. reflexivity. Qed.

Lemma appender_bind {A B : Type} (m : M A) (k : A -> M B) :
  appender m -> (forall a, appender (k a)) -> appender (bind m k).
Proof.
  intros Hm Hk md.
  assert (E : bind m k []
              = match outcome m with
                | Ok a => (outcome (k a), (lines_of m ++ lines_of (k a))%list)
                | Raise e => (Raise e, lines_of m)
                end).
  { unfold bind. rewrite (Hm []). simpl.
    destruct (outcome m) as [a | e]; [ apply (Hk a) | reflexivity ]. }
  change (outcome (bind m k)) with (fst (bind m k [])).
  change (lines_of (bind m k)) with (snd (bind m k [])).
  rewrite E. unfold bind. rewrite (Hm md).
  destruct (outcome m) as [a | e]; simpl.
  - rewrite (Hk a). now rewrite app_assoc.
  - reflexivity.
Qed.

Lemma appender_for_each {X : Type} (body : X -> M unit) (xs : list X) :
  (forall x, appender (body x)) -> appender (for_each body xs).
Proof.
  intros Hb. induction xs as [| x rest IH]; simpl.
  - apply appender_ret.
  - apply appender_bind; auto.
Qed.

Ltac appender_tac :=
  repeat first
    [ apply appender_ret
    | apply appender_lift
    | apply appender_append
    | apply appender_for_each; intros
    | apply appender_bind; [ | intros ]
    | match goal with
      | |- appender (if ?b then _ else _) => destruct b
      | |- appender (let (_, _) := ?p in _) => destruct p
      | |- appender (match ?p with _ => _ end) => destruct p
      end ].

Lemma appender_tool (tool : json) (indent : string) :
  appender (generate_tool_documentation tool indent).
Proof. unfold generate_tool_documentation. appender_tac. Qed.

Lemma appender_local (server_name : string) (server_info : json) :
  appender (generate_local_server_section server_name server_info).
Proof.
  unfold generate_local_server_section. appender_tac; apply appender_tool.
Qed.

Lemma appender_remote (server_name : string) (server_info : json) :
  appender (generate_remote_server_section server_name server_info).
Proof.
  unfold generate_remote_server_section. appender_tac; apply appender_tool.
Qed.

Lemma appender_guide : appender generate_configuration_guide.
Proof. unfold generate_configuration_guide. appender_tac. Qed.

Lemma appender_catalog (catalog_data : json) : appender (catalog_body catalog_data).
Proof.
  unfold catalog_body.
  appender_tac;
    first [ apply appender_local | apply appender_remote | apply appender_guide ].
Qed.

(** What an appender leaves is an extension of what it was given. *)
Lemma appender_extends {A : Type} (m : M A) (markdown : list string) :
  appender m -> exists rest, snd (m markdown) = (markdown ++ rest)%list.
Proof. intros H. exists (lines_of m). now rewrite (H markdown). Qed.

(** A loop whose every round returns appends the rounds' lines in order. *)
Lemma for_each_ok {X : Type} (body : X -> M unit) (xs : list X) :
  (forall x, appender (body x)) ->
  Forall (fun x => outcome (body x) = Ok tt) xs ->
  forall markdown,
    for_each body xs markdown
    = (Ok tt, (markdown ++ flat_map (fun x => lines_of (body x)) xs)%list).
Proof.
  intros Hb Hall. induction Hall as [| x rest Hx _ IH]; intros md; simpl.
  - unfold ret. now rewrite app_nil_r.
  - unfold bind. rewrite (Hb x md), Hx, IH. now rewrite app_assoc.
Qed.

(** A loop that returns has returned in every round. *)
Lemma for_each_ok_inv {X : Type} (body : X -> M unit) (xs : list X) :
  (forall x, appender (body x)) ->
  forall markdown,
    fst (for_each body xs markdown) = Ok tt ->
    Forall (fun x => outcome (body x) = Ok tt) xs.
Proof.
  intros Hb. induction xs as [| x rest IH]; intros md H; simpl in *.
  - constructor.
  - unfold bind in H. rewrite (Hb x md) in H.
    destruct (outcome (body x)) as [[] | e] eqn:Hx; simpl in H.
    + constructor; eauto.
    + discriminate.
Qed.

(** The outcome of a sequence of appenders is that of its first failure. *)
Lemma outcome_bind {A B : Type} (m : M A) (k : A -> M B) :
  appender m -> (forall a, appender (k a)) ->
  outcome (bind m k)
  = match outcome m with Ok a => outcome (k a) | Raise e => Raise e end.
Proof.
  intros Hm Hk. unfold outcome at 1. unfold bind. rewrite (Hm []).
  destruct (outcome m) as [a | e]; [ now rewrite (Hk a) | reflexivity ].
Qed.

Lemma lines_bind {A B : Type} (m : M A) (k : A -> M B) :
  appender m -> (forall a, appender (k a)) ->
  lines_of (bind m k)
  = (lines_of m
     ++ match outcome m with Ok a => lines_of (k a) | Raise _ => [] end)%list.
Proof.
  intros Hm Hk. unfold lines_of at 1. unfold bind. rewrite (Hm []).
  destruct (outcome m) as [a | e]; simpl.
  - now rewrite (Hk a).
  - now rewrite app_nil_r.
Qed.

(** ** Dictionaries *)

Lemma lookup_remove_same (key : string) members :
  Py.lookup key (remove_key key members) = None.
Proof.
  induction members as [| [k x] rest IH]; simpl; auto.
  destruct (String.eqb key k) eqn:E; simpl; auto. now rewrite E.
Qed.

Lemma lookup_remove_other (key key' : string) members :
  key <> key' -> Py.lookup key (remove_key key' members) = Py.lookup key members.
Proof.
  intros Hne. induction members as [| [k x] rest IH]; simpl; auto.
  destruct (String.eqb key' k) eqn:E; simpl.
  - apply String.eqb_eq in E. subst k.
    destruct (String.eqb key key') eqn:E'; auto.
    apply String.eqb_eq in E'. contradiction.
  - now rewrite IH.
Qed.

Lemma lookup_or_remove_same (key : string) default members :
  Py.lookup_or key default (remove_key key members) = default.
Proof. unfold Py.lookup_or. now rewrite lookup_remove_same. Qed.

Lemma lookup_or_remove_other (key key' : string) default members :
  key <> key' ->
  Py.lookup_or key default (remove_key key' members) = Py.lookup_or key default members.
Proof. intros H. unfold Py.lookup_or. now rewrite lookup_remove_other. Qed.

Lemma has_key_remove_other (key key' : string) members :
  key <> key' -> Py.has_key key (remove_key key' members) = Py.has_key key members.
Proof. intros H. unfold Py.has_key. now rewrite lookup_remove_other. Qed.

(** ** The parts of a tool block *)

Lemma tool_run (members : list (string * json)) (indent : string) markdown :
  generate_tool_documentation (JObject members) indent markdown
  = tool_rest indent members (markdown ++ tool_head indent members)%list.
Proof.
  unfold generate_tool_documentation, tool_rest, tool_head, use_cases_part,
    parameters_part, parameter_bullet.
  cbn [Py.get]. rewrite !bind_lift_ok. rewrite !bind_append.
  rewrite <- !app_assoc. reflexivity.
Qed.

Lemma appender_use_cases indent use_cases : appender (use_cases_part indent use_cases).
Proof. unfold use_cases_part. appender_tac. Qed.

Lemma appender_bullet indent required param :
  appender (parameter_bullet indent required param).
Proof. unfold parameter_bullet. appender_tac. Qed.

Lemma appender_parameters indent input_schema :
  appender (parameters_part indent input_schema).
Proof. unfold parameters_part. appender_tac. apply appender_bullet. Qed.

Lemma appender_tool_rest indent members : appender (tool_rest indent members).
Proof.
  unfold tool_rest. appender_tac;
    first [ apply appender_use_cases | apply appender_parameters ].
Qed.

Lemma tool_lines (members : list (string * json)) (indent : string) :
  lines_of (generate_tool_documentation (JObject members) indent)
  = (tool_head indent members ++ lines_of (tool_rest indent members))%list.
Proof.
  unfold lines_of at 1. rewrite tool_run, (appender_tool_rest indent members).
  reflexivity.
Qed.

Lemma tool_outcome (members : list (string * json)) (indent : string) :
  outcome (generate_tool_documentation (JObject members) indent)
  = outcome (tool_rest indent members).
Proof.
  unfold outcome at 1. rewrite tool_run, (appender_tool_rest indent members).
  reflexivity.
Qed.

Lemma tool_rest_outcome (indent : string) (members : list (string * json)) :
  outcome (tool_rest indent members) = Ok tt
  <-> outcome (use_cases_part indent (Py.lookup_or "use_cases" (JArray []) members)) = Ok tt
      /\ outcome (parameters_part indent (Py.lookup_or "input_schema" JNull members)) = Ok tt.
Proof.
  unfold tool_rest.
  rewrite outcome_bind;
    [ | apply appender_use_cases
      | intros; appender_tac; apply appender_parameters ].
  rewrite outcome_bind; [ | apply appender_parameters | intros; appender_tac ].
  destruct (outcome (use_cases_part _ _)) as [[] | e1];
    destruct (outcome (parameters_part _ _)) as [[] | e2];
    split; try tauto; try discriminate; intros [H1 H2]; discriminate.
Qed.

Lemma tool_remove_key_ok (indent key : string) (members : list (string * json)) :
  outcome (generate_tool_documentation (JObject members) indent) = Ok tt ->
  outcome (generate_tool_documentation (JObject (remove_key key members)) indent) = Ok tt.
Proof.
  rewrite !tool_outcome, !tool_rest_outcome. intros [Huc Hps].
  destruct (string_dec key "use_cases") as [-> | Huc'];
    [ rewrite lookup_or_remove_same, lookup_or_remove_other by discriminate
    | destruct (string_dec key "input_schema") as [-> | Hps'];
      [ rewrite lookup_or_remove_same, lookup_or_remove_other by discriminate
      | rewrite !lookup_or_remove_other by congruence ] ];
    split; auto.
Qed.

Lemma tool_empty_ok (indent : string) :
  outcome (generate_tool_documentation (JObject []) indent) = Ok tt.
Proof. reflexivity. Qed.

(** C3.  A tool entry without a [category] has the category line
    "**Category**: general", one without a [description] has the description
    line "**Description**: No description available", and the absence of a
    field never makes the rendering of a tool fail: a tool block that
    renders still renders when any one of its fields is taken away, and the
    entry with no field at all renders. *)
Theorem tool_fallback_texts (members : list (string * json)) (indent : string) :
  (Py.lookup "category" members = None ->
   nth_error (lines_of (generate_tool_documentation (JObject members) indent)) 4
   = Some (indent ++ "**Category**: general"))
  /\ (Py.lookup "description" members = None ->
      nth_error (lines_of (generate_tool_documentation (JObject members) indent)) 2
      = Some (indent ++ "**Description**: No description available"))
  /\ (forall key,
        outcome (generate_tool_documentation (JObject members) indent) = Ok tt ->
        outcome (generate_tool_documentation (JObject (remove_key key members)) indent)
        = Ok tt)
  /\ outcome (generate_tool_documentation (JObject []) indent) = Ok tt.
Proof.
  split; [ | split; [ | split ] ].
  - intros H. rewrite tool_lines. unfold tool_head, Py.lookup_or. now rewrite H.
  - intros H. rewrite tool_lines. unfold tool_head, Py.lookup_or. now rewrite H.
  - intros key. apply tool_remove_key_ok.
  - apply tool_empty_ok.
Qed.

Lemma tool_fallback_texts_witness :
  nth_error (lines_of (generate_tool_documentation
                         (JObject [("name", JString "read_file")]) EmptyString)) 4
  = Some "**Category**: general"
  /\ nth_error (lines_of (generate_tool_documentation
                            (JObject [("name", JString "read_file")]) EmptyString)) 2
     = Some "**Description**: No description available"
  /\ outcome (generate_tool_documentation
                (JObject (remove_key "use_cases"
                            [("name", JString "read_file");
                             ("use_cases", JArray [JString "io"])])) EmptyString)
     = Ok tt.
Proof.
  split; [ | split ].
  - apply (proj1 (tool_fallback_texts [("name", JString "read_file")] EmptyString)).
    reflexivity.
  - apply (proj1 (proj2 (tool_fallback_texts [("name", JString "read_file")] EmptyString))).
    reflexivity.
  - apply (proj1 (proj2 (proj2 (tool_fallback_texts
                                  [("name", JString "read_file");
                                   ("use_cases", JArray [JString "io"])] EmptyString)))
             "use_cases").
    reflexivity.
Defined.

(** ** Parameter bullets *)

Lemma is_str_In (name : string) (items : list json) :
  existsb (Py.is_str name) items = true <-> In (JString name) items.
Proof.
  rewrite existsb_exists. split.
  - intros [x [Hin Hx]]. destruct x; simpl in Hx; try discriminate.
    apply String.eqb_eq in Hx. now subst.
  - intros Hin. exists (JString name). split; auto. simpl. apply String.eqb_refl.
Qed.

Lemma bullet_ok (indent : string) (required_items : list json) (param : string * json) :
  outcome (parameter_bullet indent (JArray required_items) param) = Ok tt ->
  exists line,
    lines_of (parameter_bullet indent (JArray required_items) param) = [line]
    /\ bullet_spec indent required_items param line.
Proof.
  destruct param as [name info]. unfold parameter_bullet.
  destruct info as [| b | z | nz t | s | l | info]; try discriminate.
  intros _. eexists. split; [ reflexivity | ].
  exists info, (if existsb (Py.is_str name) required_items
                then " *(required)*" else EmptyString).
  simpl. repeat split.
  - intros Hin. apply is_str_In in Hin. now rewrite Hin.
  - intros Hnin. destruct (existsb (Py.is_str name) required_items) eqn:E; auto.
    apply is_str_In in E. contradiction.
Qed.

Lemma bullets_ok (indent : string) (required_items : list json)
  (params : list (string * json)) :
  Forall (fun p => outcome (parameter_bullet indent (JArray required_items) p) = Ok tt)
         params ->
  exists bullets,
    flat_map (fun p => lines_of (parameter_bullet indent (JArray required_items) p)) params
    = bullets
    /\ Forall2 (bullet_spec indent required_items) params bullets.
Proof.
  induction 1 as [| p rest Hp _ [bullets [E IH]]]; simpl.
  - exists []. split; [ reflexivity | constructor ].
  - destruct (bullet_ok _ _ _ Hp) as [line [El Hl]].
    exists (line :: bullets). rewrite El, E. split; [ reflexivity | now constructor ].
Qed.

(** C4.  In a tool that renders and whose schema has properties and a list
    (possibly absent) of required names, the block ends with the line
    "**Parameters**:", one bullet per property in the schema's order, and
    the closing line; the bullet of a property carries the marker
    " *(required)*" when its name is in the list and no marker when it is
    not, whatever the other properties are. *)
Theorem required_marker_iff_required
  (members schema props : list (string * json)) (required_items : list json)
  (indent : string) :
  Py.lookup "input_schema" members = Some (JObject schema) ->
  Py.lookup "properties" schema = Some (JObject props) ->
  props <> [] ->
  Py.lookup_or "required" (JArray []) schema = JArray required_items ->
  outcome (generate_tool_documentation (JObject members) indent) = Ok tt ->
  exists bullets,
    lines_of (generate_tool_documentation (JObject members) indent)
    = (tool_head indent members
       ++ lines_of (use_cases_part indent (Py.lookup_or "use_cases" (JArray []) members))
       ++ [indent; (indent ++ "**Parameters**:")%string] ++ bullets ++ [indent])%list
    /\ Forall2 (bullet_spec indent required_items) props bullets.
Proof.
  intros Hschema Hprops Hne Hreq Hok.
  assert (Es : Py.lookup_or "input_schema" JNull members = JObject schema)
    by (unfold Py.lookup_or; now rewrite Hschema).
  rewrite tool_outcome in Hok. rewrite tool_lines.
  pose proof (proj1 (tool_rest_outcome _ _) Hok) as [Huc Hps].
  unfold tool_rest.
  rewrite lines_bind;
    [ | apply appender_use_cases | intros; appender_tac; apply appender_parameters ].
  rewrite Huc.
  rewrite lines_bind; [ | apply appender_parameters | intros; appender_tac ].
  rewrite Hps.
  rewrite Es in Hps |- *.
  assert (Hrun : forall markdown,
             parameters_part indent (JObject schema) markdown
             = for_each (parameter_bullet indent (JArray required_items)) props
                 (markdown ++ [indent; (indent ++ "**Parameters**:")%string])%list).
  { intros markdown. unfold parameters_part.
    assert (Ep : Py.lookup_or "properties" (JObject []) schema = JObject props)
      by (unfold Py.lookup_or; now rewrite Hprops).
    destruct schema as [| kv schema']; [ discriminate | ].
    cbn [Py.truthy Py.is_dict andb Py.get]. run_steps.
    rewrite Hreq, Ep.
    destruct props as [| p props']; [ contradiction | ].
    cbn [Py.truthy Py.items]. run_steps.
    now rewrite <- app_assoc. }
  assert (Hall : Forall (fun p => outcome (parameter_bullet indent (JArray required_items) p)
                                  = Ok tt) props).
  { apply (for_each_ok_inv _ _ (appender_bullet indent (JArray required_items))
             [indent; (indent ++ "**Parameters**:")%string]).
    unfold outcome in Hps. rewrite Hrun in Hps. exact Hps. }
  destruct (bullets_ok _ _ _ Hall) as [bullets [Eb Hb]].
  exists bullets. split; [ | exact Hb ].
  unfold lines_of at 2. rewrite Hrun.
  rewrite (for_each_ok _ _ (appender_bullet indent (JArray required_items)) Hall).
  rewrite Eb. simpl. reflexivity.
Qed.

(** ** The parts of a server section *)

Lemma local_run (server_name : string) (members : list (string * json)) markdown :
  generate_local_server_section server_name (JObject members) markdown
  = bind (local_head server_name (JObject members))
         (fun _ => tools_part (Py.lookup_or "tools" (JArray []) members)) markdown.
Proof.
  unfold generate_local_server_section, local_head, tools_part.
  cbn [Py.get Py.contains]. unfold bind, lift, markdown_append, ret.
  destruct (Py.has_key "command" members); [ | reflexivity ].
  destruct (Py.truthy (Py.lookup_or "args" (JArray []) members)); [ | reflexivity ].
  destruct (Py.iter (Py.lookup_or "args" (JArray []) members)); reflexivity.
Qed.

Lemma remote_run (server_name : string) (members : list (string * json)) markdown :
  generate_remote_server_section server_name (JObject members) markdown
  = bind (remote_head server_name (JObject members))
         (fun _ => tools_part (Py.lookup_or "tools" (JArray []) members)) markdown.
Proof.
  unfold generate_remote_server_section, remote_head, tools_part.
  cbn [Py.get Py.contains Py.getitem]. unfold bind, lift, markdown_append, ret.
  destruct (Py.has_key "endpoint" members); [ | reflexivity ].
  destruct (Py.lookup "endpoint" members); reflexivity.
Qed.

Lemma appender_tools_part (tools : json) : appender (tools_part tools).
Proof. unfold tools_part. appender_tac. Qed.

Lemma appender_local_head server_name server_info :
  appender (local_head server_name server_info).
Proof. unfold local_head. appender_tac. Qed.

Lemma appender_remote_head server_name server_info :
  appender (remote_head server_name server_info).
Proof. unfold remote_head. appender_tac. Qed.

Lemma local_head_remove_tools (server_name : string) (members : list (string * json)) :
  local_head server_name (JObject (remove_key "tools" members))
  = local_head server_name (JObject members).
Proof.
  unfold local_head. cbn [Py.get Py.contains].
  rewrite !lookup_or_remove_other, has_key_remove_other by discriminate.
  reflexivity.
Qed.

Lemma remote_head_remove_tools (server_name : string) (members : list (string * json)) :
  remote_head server_name (JObject (remove_key "tools" members))
  = remote_head server_name (JObject members).
Proof.
  unfold remote_head. cbn [Py.get Py.contains Py.getitem].
  rewrite !lookup_or_remove_other, has_key_remove_other, lookup_remove_other
    by discriminate.
  reflexivity.
Qed.

(** ** Tool blocks of a server section *)

Lemma tool_ok_headed (tool : json) :
  outcome (generate_tool_documentation tool EmptyString) = Ok tt ->
  headed_by_its_name tool.
Proof.
  destruct tool as [| b | z | nz t | s | l | members]; try discriminate.
  intros _. exists members. split; [ reflexivity | ].
  unfold tool_block. now rewrite tool_lines.
Qed.

Lemma tools_part_ok (tools : list json) :
  outcome (tools_part (JArray tools)) = Ok tt ->
  lines_of (tools_part (JArray tools))
  = (tools_heading tools ++ flat_map tool_block tools)%list
  /\ Forall headed_by_its_name tools.
Proof.
  destruct tools as [| t rest]; [ intros _; split; [ reflexivity | constructor ] | ].
  set (tools := t :: rest).
  assert (Hrun : forall markdown,
             tools_part (JArray tools) markdown
             = for_each (fun tool => generate_tool_documentation tool EmptyString) tools
                 (markdown ++ tools_heading tools)%list).
  { intros markdown. unfold tools_part, tools. cbn [Py.truthy Py.len Py.iter].
    run_steps. now rewrite <- app_assoc. }
  intros Hok. unfold outcome in Hok. rewrite Hrun in Hok.
  apply for_each_ok_inv in Hok; [ | intros; apply appender_tool ].
  split.
  - unfold lines_of at 1. rewrite Hrun.
    rewrite (for_each_ok _ _ (fun x => appender_tool x EmptyString) Hok).
    reflexivity.
  - eapply Forall_impl; [ | exact Hok ]. intros x. apply tool_ok_headed.
Qed.

Lemma section_tools (section section' head : M unit) (tools : list json) :
  appender head ->
  (forall markdown,
      section markdown = bind head (fun _ => tools_part (JArray tools)) markdown) ->
  (forall markdown,
      section' markdown = bind head (fun _ => tools_part (JArray [])) markdown) ->
  outcome section = Ok tt ->
  lines_of section
  = (lines_of section' ++ tools_heading tools ++ flat_map tool_block tools)%list
  /\ Forall headed_by_its_name tools.
Proof.
  intros Hhead Hrun Hrun' Hok.
  unfold outcome in Hok. rewrite Hrun in Hok. fold (outcome (bind head (fun _ => tools_part (JArray tools)))) in Hok.
  rewrite outcome_bind in Hok; [ | exact Hhead | intros; apply appender_tools_part ].
  unfold lines_of at 1 2. rewrite Hrun, Hrun'.
  fold (lines_of (bind head (fun _ => tools_part (JArray tools)))).
  fold (lines_of (bind head (fun _ => tools_part (JArray [])))).
  rewrite !lines_bind by (first [ exact Hhead | intros; apply appender_tools_part ]).
  destruct (outcome head) as [[] | e]; [ | discriminate ].
  destruct (tools_part_ok tools Hok) as [Hlines Hheaded].
  split; [ | exact Hheaded ].
  rewrite Hlines. change (lines_of (tools_part (JArray []))) with (@nil string).
  now rewrite app_nil_r.
Qed.

Lemma lookup_or_tools (members : list (string * json)) (tools : json) :
  Py.lookup "tools" members = Some tools ->
  Py.lookup_or "tools" (JArray []) members = tools.
Proof. intros H. unfold Py.lookup_or. now rewrite H. Qed.

(** C2.  A server section that renders, local or remote, is the section of
    the same entry without its tools, followed by the heading that counts
    the tools and by the blocks of the tools in the order of the entry's
    tool sequence; every block is headed by the name of its tool. *)
Theorem tool_blocks_in_input_order
  (server_name : string) (members : list (string * json)) (tools : list json) :
  Py.lookup "tools" members = Some (JArray tools) ->
  (outcome (generate_local_server_section server_name (JObject members)) = Ok tt ->
   lines_of (generate_local_server_section server_name (JObject members))
   = (lines_of (generate_local_server_section server_name
                  (JObject (remove_key "tools" members)))
      ++ tools_heading tools ++ flat_map tool_block tools)%list
   /\ Forall headed_by_its_name tools)
  /\ (outcome (generate_remote_server_section server_name (JObject members)) = Ok tt ->
      lines_of (generate_remote_server_section server_name (JObject members))
      = (lines_of (generate_remote_server_section server_name
                     (JObject (remove_key "tools" members)))
         ++ tools_heading tools ++ flat_map tool_block tools)%list
      /\ Forall headed_by_its_name tools).
Proof.
  intros Htools. split; intros Hok.
  - apply (section_tools _ _ (local_head server_name (JObject members))).
    + apply appender_local_head.
    + intros markdown. rewrite local_run. now rewrite (lookup_or_tools _ _ Htools).
    + intros markdown. rewrite local_run, local_head_remove_tools.
      now rewrite lookup_or_remove_same.
    + exact Hok.
  - apply (section_tools _ _ (remote_head server_name (JObject members))).
    + apply appender_remote_head.
    + intros markdown. rewrite remote_run. now rewrite (lookup_or_tools _ _ Htools).
    + intros markdown. rewrite remote_run, remote_head_remove_tools.
      now rewrite lookup_or_remove_same.
    + exact Hok.
Qed.

(** ** The catalog without servers *)

Lemma empty_mapping_toc (key : string) (members : list (string * json))
  (k : unit -> M unit) markdown :
  empty_mapping key members ->
  bind (if Py.has_key key members then
          mapping <- lift (Py.getitem (JObject members) key) ;;
          names <- lift (Py.keys mapping) ;;
          for_each
            (fun server_name =>
               markdown_append ("  - [" ++ title server_name ++ "](#"
                                ++ lower server_name ++ ")"))
            names
        else ret tt) k markdown
  = k tt markdown.
Proof.
  intros [H | H]; cbn [Py.getitem]; unfold Py.has_key, bind, lift;
    rewrite H; reflexivity.
Qed.

Lemma empty_mapping_sections (key : string) (members : list (string * json))
  (section : string -> json -> M unit) (k : unit -> M unit) markdown :
  empty_mapping key members ->
  bind (if Py.has_key key members then
          mapping <- lift (Py.getitem (JObject members) key) ;;
          servers <- lift (Py.items mapping) ;;
          for_each
            (fun server : string * json =>
               let (server_name, server_info) := server in
               section server_name server_info)
            servers
        else ret tt) k markdown
  = k tt markdown.
Proof.
  intros [H | H]; cbn [Py.getitem]; unfold Py.has_key, bind, lift;
    rewrite H; reflexivity.
Qed.

(** C5.  For a catalog whose [local] and [remote] mappings are empty (absent
    or the empty object) the document is the title, the preamble, the
    last-updated line, the table of contents with its three entries alone,
    the two section headings with their sentences, and the thirty-seven
    lines of the configuration guide, and nothing else. *)
Theorem empty_catalog_document (members : list (string * json)) :
  empty_mapping "local" members ->
  empty_mapping "remote" members ->
  generate_tool_catalog_markdown (JObject members)
  = Ok (join nl (skeleton (Py.str (Py.lookup_or "last_updated" (JString "Unknown") members))
                          configuration_guide_lines)).
Proof.
  intros Hlocal Hremote.
  unfold generate_tool_catalog_markdown, catalog_body.
  cbn [Py.get Py.contains]. run_steps.
  rewrite (empty_mapping_toc "local" members _ _ Hlocal). run_steps.
  rewrite (empty_mapping_toc "remote" members _ _ Hremote). run_steps.
  rewrite (empty_mapping_sections "local" members _ _ _ Hlocal). run_steps.
  rewrite (empty_mapping_sections "remote" members _ _ _ Hremote). run_steps.
  rewrite (appender_guide _). reflexivity.
Qed.

(** ** The start of the document *)

Lemma append_assoc (a b c : string) : (a ++ b) ++ c = a ++ b ++ c.
Proof. induction a as [| x a IH]; simpl; [ reflexivity | now rewrite IH ]. Qed.

Lemma join_cons (sep a b : string) (rest : list string) :
  join sep (a :: b :: rest) = a ++ sep ++ join sep (b :: rest).
Proof. reflexivity. Qed.

Lemma join_app (sep : string) (xs : list string) (y : string) (ys : list string) :
  xs <> [] ->
  join sep (xs ++ y :: ys) = join sep xs ++ sep ++ join sep (y :: ys).
Proof.
  induction xs as [| a [| b xs'] IH]; intros Hne.
  - contradiction.
  - reflexivity.
  - change ((a :: b :: xs') ++ y :: ys)%list with (a :: b :: (xs' ++ y :: ys))%list.
    rewrite !join_cons.
    change (b :: (xs' ++ y :: ys))%list with ((b :: xs') ++ y :: ys)%list.
    rewrite IH by discriminate.
    now rewrite !append_assoc.
Qed.

Lemma generate_ok_lines (catalog_data : json) (document : string) :
  generate_tool_catalog_markdown catalog_data = Ok document ->
  document = join nl (lines_of (catalog_body catalog_data)).
Proof.
  unfold generate_tool_catalog_markdown, lines_of.
  destruct (catalog_body catalog_data []) as [[[] | e] markdown]; intros H.
  - now inversion H.
  - discriminate.
Qed.

Ltac catalog_rest_appender :=
  appender_tac;
  first [ apply appender_local | apply appender_remote | apply appender_guide ].

Lemma catalog_start (members : list (string * json)) :
  exists rest,
    lines_of (catalog_body (JObject members))
    = (document_start (Py.str (Py.lookup_or "last_updated" (JString "Unknown") members))
       ++ EmptyString :: rest)%list.
Proof.
  unfold lines_of, catalog_body. cbn [Py.get].
  do 8 (first [ rewrite bind_lift_ok | rewrite bind_append ]; cbv beta).
  cbn [app].
  match goal with
  | |- exists rest, snd (?m ?md) = _ => destruct (appender_extends m md) as [rest Hrest]
  end.
  - catalog_rest_appender.
  - exists rest. rewrite Hrest. reflexivity.
Qed.


(** ** The table of contents *)

Lemma for_each_append {X : Type} (f : X -> string) (xs : list X) markdown :
  for_each (fun x => markdown_append (f x)) xs markdown
  = (Ok tt, (markdown ++ map f xs)%list).
Proof.
  revert markdown. induction xs as [| x rest IH]; intros markdown; simpl.
  - unfold ret. now rewrite app_nil_r.
  - rewrite bind_append, IH. now rewrite <- app_assoc.
Qed.

Lemma toc_run (key : string) (members : list (string * json))
  (k : unit -> M unit) markdown :
  mapping_or_absent key members ->
  bind (if Py.has_key key members then
          mapping <- lift (Py.getitem (JObject members) key) ;;
          names <- lift (Py.keys mapping) ;;
          for_each (fun server_name => markdown_append (toc_entry server_name)) names
        else ret tt) k markdown
  = k tt (markdown ++ map toc_entry (server_names key members))%list.
Proof.
  intros [H | [servers H]]; cbn [Py.getitem]; unfold Py.has_key, server_names;
    rewrite H.
  - rewrite bind_ret. simpl. now rewrite app_nil_r.
  - rewrite bind_assoc, bind_lift_ok. cbv beta.
    cbn [Py.keys]. rewrite bind_assoc, bind_lift_ok. cbv beta.
    unfold bind. now rewrite for_each_append.
Qed.

Lemma to_lower_idempotent (c : ascii) : to_lower (to_lower c) = to_lower c.
Proof.
  unfold to_lower. destruct (is_upper c) eqn:E; [ | now rewrite E ].
  unfold is_upper in *. apply andb_prop in E as [E1 E2].
  apply Nat.leb_le in E1. apply Nat.leb_le in E2.
  rewrite nat_ascii_embedding by lia.
  destruct (Nat.leb_spec 65 (nat_of_ascii c + 32));
    destruct (Nat.leb_spec (nat_of_ascii c + 32) 90); simpl; try reflexivity; lia.
Qed.

Lemma to_lower_to_upper (c : ascii) : to_lower (to_upper c) = to_lower c.
Proof.
  unfold to_upper. destruct (is_lower c) eqn:E; [ | reflexivity ].
  unfold is_lower in E. apply andb_prop in E as [E1 E2].
  apply Nat.leb_le in E1. apply Nat.leb_le in E2.
  unfold to_lower, is_upper. rewrite nat_ascii_embedding by lia.
  replace (65 <=? nat_of_ascii c - 32)%nat with true by (symmetry; apply Nat.leb_le; lia).
  replace (nat_of_ascii c - 32 <=? 90)%nat with true by (symmetry; apply Nat.leb_le; lia).
  replace (65 <=? nat_of_ascii c)%nat with true by (symmetry; apply Nat.leb_le; lia).
  replace (nat_of_ascii c <=? 90)%nat with false by (symmetry; apply Nat.leb_gt; lia).
  simpl. replace (nat_of_ascii c - 32 + 32)%nat with (nat_of_ascii c) by lia.
  apply ascii_nat_embedding.
Qed.

Lemma lower_title_from (previous_is_cased : bool) (s : string) :
  lower_ascii (title_ascii_from previous_is_cased s) = lower_ascii s.
Proof.
  revert previous_is_cased. induction s as [| c r IH]; intros p; simpl.
  - reflexivity.
  - rewrite IH. destruct p; [ now rewrite to_lower_idempotent | now rewrite to_lower_to_upper ].
Qed.

Lemma lower_length (s : string) : String.length (lower_ascii s) = String.length s.
Proof. induction s as [| c r IH]; simpl; congruence. Qed.

Lemma lower_keeps (s : string) (i : nat) (c : ascii) :
  String.get i s = Some c -> is_upper c = false -> String.get i (lower_ascii s) = Some c.
Proof.
  revert i. induction s as [| d r IH]; intros i Hget Hc; simpl in *.
  - discriminate.
  - destruct i as [| i'].
    + inversion Hget; subst. unfold to_lower. now rewrite Hc.
    + now apply IH.
Qed.

Lemma to_lower_is_ascii (c : ascii) :
  is_ascii_char c = true -> is_ascii_char (to_lower c) = true.
Proof.
  intros H. unfold to_lower. destruct (is_upper c) eqn:E; [ | exact H ].
  unfold is_upper in E. apply andb_prop in E as [E1 E2]. apply Nat.leb_le in E2.
  unfold is_ascii_char. rewrite nat_ascii_embedding by lia. apply Nat.ltb_lt. lia.
Qed.

Lemma to_upper_is_ascii (c : ascii) :
  is_ascii_char c = true -> is_ascii_char (to_upper c) = true.
Proof.
  intros H. unfold to_upper. destruct (is_lower c) eqn:E; [ | exact H ].
  unfold is_lower in E. apply andb_prop in E as [E1 E2]. apply Nat.leb_le in E2.
  unfold is_ascii_char. rewrite nat_ascii_embedding by lia. apply Nat.ltb_lt. lia.
Qed.

Lemma title_ascii_is_ascii (previous_is_cased : bool) (s : string) :
  is_ascii s = true -> is_ascii (title_ascii_from previous_is_cased s) = true.
Proof.
  unfold is_ascii. revert previous_is_cased.
  induction s as [| c r IH]; intros p H; simpl in *.
  - reflexivity.
  - apply andb_prop in H as [Hc Hr]. rewrite (IH _ Hr), andb_true_r.
    destruct p; [ now apply to_lower_is_ascii | now apply to_upper_is_ascii ].
Qed.

(** On the ASCII range the tables are the case mappings of the ASCII
    functions. *)
Lemma tables_on_ascii :
  forallb (fun n : Z =>
             (if list_eq_dec Z.eq_dec (to_lower_full n) [byte (to_lower (char_of n))]
              then true else false)
             && (if list_eq_dec Z.eq_dec (to_title_full n) [byte (to_upper (char_of n))]
                 then true else false)
             && Bool.eqb (cased n) (is_cased (char_of n)))
          (map Z.of_nat (seq 0 128))
  = true.
Proof. vm_compute. reflexivity. Qed.

Lemma lower_on_ascii (s : string) : is_ascii s = true -> lower s = lower_ascii s.
Proof. intros H. unfold lower. now rewrite H. Qed.

Lemma title_on_ascii (s : string) :
  is_ascii s = true -> title s = title_ascii_from false s.
Proof. intros H. unfold title. now rewrite H. Qed.

(** The name of two characters, the sharp s and the letter a: its title
    case is "Ssa", whose lower case is "ssa", and its own lower case is the
    name itself. *)
Lemma anchor_is_not_the_lowered_heading :
  title sharp_s_a = "Ssa"
  /\ lower (title sharp_s_a) = "ssa"
  /\ lower sharp_s_a = sharp_s_a
  /\ toc_entry sharp_s_a = "  - [Ssa](#" ++ sharp_s_a ++ ")"
  /\ lower (title sharp_s_a) <> lower sharp_s_a.
Proof. vm_compute. repeat split. discriminate. Qed.

(** C9, as the code has it.  When [local] and [remote] are objects (or
    absent), the document has, after the last-updated line, the table of
    contents: the entry of the local servers, one nested entry per local
    server in the mapping's order, the entry of the remote tools, one nested
    entry per remote server, and the entry of the configuration guide.  A
    nested entry shows the title-cased name and links to the lower-cased
    name, to which nothing else is done.  On an ASCII name the lower-cased
    heading text is the same anchor, and lower-casing keeps the length and
    every character that is not an upper-case letter; neither holds of
    every name. *)
Theorem toc_entries_per_server :
  (forall members,
      mapping_or_absent "local" members ->
      mapping_or_absent "remote" members ->
      exists rest,
        lines_of (catalog_body (JObject members))
        = (document_start (Py.str (Py.lookup_or "last_updated" (JString "Unknown") members))
           ++ [EmptyString] ++ table_of_contents members ++ rest)%list)
  /\ (forall server_name,
         toc_entry server_name
         = "  - [" ++ title server_name ++ "](#" ++ lower server_name ++ ")")
  /\ (forall server_name,
         is_ascii server_name = true ->
         lower (title server_name) = lower server_name)
  /\ (forall server_name,
         is_ascii server_name = true ->
         String.length (lower server_name) = String.length server_name
         /\ forall i c,
              String.get i server_name = Some c ->
              is_upper c = false ->
              String.get i (lower server_name) = Some c).
Proof.
  split; [ | split; [ | split ] ].
  - intros members Hlocal Hremote.
    unfold lines_of, catalog_body. cbn [Py.get Py.contains].
    do 12 (first [ rewrite bind_lift_ok | rewrite bind_append ]; cbv beta).
    change (fun server_name : string =>
              markdown_append ("  - [" ++ title server_name ++ "](#"
                               ++ lower server_name ++ ")"))
      with (fun server_name : string => markdown_append (toc_entry server_name)).
    rewrite (toc_run "local" members _ _ Hlocal).
    do 2 (first [ rewrite bind_lift_ok | rewrite bind_append ]; cbv beta).
    rewrite (toc_run "remote" members _ _ Hremote).
    do 2 (first [ rewrite bind_lift_ok | rewrite bind_append ]; cbv beta).
    match goal with
    | |- exists rest, snd (?m ?md) = _ => destruct (appender_extends m md) as [rest Hrest]
    end.
    + catalog_rest_appender.
    + exists rest. rewrite Hrest. unfold table_of_contents, document_start.
      repeat first [ progress cbn [app] | rewrite <- app_assoc ]. reflexivity.
  - reflexivity.
  - intros server_name H.
    rewrite (title_on_ascii _ H), (lower_on_ascii _ H).
    rewrite (lower_on_ascii _ (title_ascii_is_ascii false _ H)).
    apply lower_title_from.
  - intros server_name H. rewrite (lower_on_ascii _ H).
    split; [ apply lower_length | apply lower_keeps ].
Qed.

(** ** The command line *)


(** ** The end-to-end example *)

(** C8.  The document of the example is produced, and its lines hold, in
    one run, the heading "### Filesystem", the fenced block with the lines
    of the command "npx" and of the arguments "-y", "pkg", and the block of
    the tool headed "#### `read_file`" with the line "**Category**: io". *)
Theorem filesystem_example_document :
  exists before after,
    lines_of (catalog_body filesystem_example)
    = (before ++ filesystem_section ++ after)%list
    /\ generate_tool_catalog_markdown filesystem_example
       = Ok (join nl (before ++ filesystem_section ++ after)%list)
    /\ last before EmptyString = EmptyString
    /\ hd_error after = Some "## Remote Tools".
Proof.
  exists (firstn 19 (lines_of (catalog_body filesystem_example))),
         (skipn 40 (lines_of (catalog_body filesystem_example))).
  vm_compute. repeat split.
Qed.

(** ** Where rendering raises *)

Lemma bind_appender {A B : Type} (m : M A) (k : A -> M B) markdown :
  appender m ->
  bind m k markdown
  = match outcome m with
    | Ok a => k a (markdown ++ lines_of m)%list
    | Raise e => (Raise e, (markdown ++ lines_of m)%list)
    end.
Proof. intros Hm. unfold bind. rewrite (Hm markdown). reflexivity. Qed.

Lemma generate_outcome (catalog_data : json) :
  generate_tool_catalog_markdown catalog_data
  = match outcome (catalog_body catalog_data) with
    | Ok _ => Ok (join nl (lines_of (catalog_body catalog_data)))
    | Raise e => Raise e
    end.
Proof.
  unfold generate_tool_catalog_markdown, outcome, lines_of.
  destruct (catalog_body catalog_data []) as [[[] | e] markdown]; reflexivity.
Qed.

Lemma appender_local_section server : appender (local_section server).
Proof. destruct server. apply appender_local. Qed.

Lemma appender_remote_section server : appender (remote_section server).
Proof. destruct server. apply appender_remote. Qed.

Lemma sections_run (key : string) (members : list (string * json))
  (section : string * json -> M unit) (k : unit -> M unit) markdown :
  mapping_or_absent key members ->
  bind (if Py.has_key key members then
          mapping <- lift (Py.getitem (JObject members) key) ;;
          servers <- lift (Py.items mapping) ;;
          for_each section servers
        else ret tt) k markdown
  = bind (for_each section (servers_of key members)) k markdown.
Proof.
  intros [H | [servers H]]; cbn [Py.getitem]; unfold Py.has_key, servers_of;
    rewrite H.
  - reflexivity.
  - rewrite bind_assoc, bind_lift_ok. cbv beta.
    cbn [Py.items]. now rewrite bind_assoc, bind_lift_ok.
Qed.

(** With [local] and [remote] objects or absent, the catalog renders when
    its sections do, and raises what the first failing section raises. *)
Lemma catalog_outcome (members : list (string * json)) :
  mapping_or_absent "local" members ->
  mapping_or_absent "remote" members ->
  outcome (catalog_body (JObject members))
  = match outcome (for_each local_section (servers_of "local" members)) with
    | Ok _ => outcome (for_each remote_section (servers_of "remote" members))
    | Raise e => Raise e
    end.
Proof.
  intros Hlocal Hremote.
  unfold outcome at 1. unfold catalog_body. cbn [Py.get Py.contains].
  do 12 (first [ rewrite bind_lift_ok | rewrite bind_append ]; cbv beta).
  change (fun server_name : string =>
            markdown_append ("  - [" ++ title server_name ++ "](#"
                             ++ lower server_name ++ ")"))
    with (fun server_name : string => markdown_append (toc_entry server_name)).
  rewrite (toc_run "local" members _ _ Hlocal).
  do 2 (first [ rewrite bind_lift_ok | rewrite bind_append ]; cbv beta).
  rewrite (toc_run "remote" members _ _ Hremote).
  do 8 (first [ rewrite bind_lift_ok | rewrite bind_append ]; cbv beta).
  change (fun server : string * json =>
            let (server_name, server_info) := server in
            generate_local_server_section server_name server_info)
    with local_section.
  rewrite (sections_run "local" members _ _ _ Hlocal).
  rewrite bind_appender by (apply appender_for_each, appender_local_section).
  destruct (outcome (for_each local_section (servers_of "local" members)))
    as [[] | e]; [ | reflexivity ].
  do 6 (first [ rewrite bind_lift_ok | rewrite bind_append ]; cbv beta).
  change (fun server : string * json =>
            let (server_name, server_info) := server in
            generate_remote_server_section server_name server_info)
    with remote_section.
  rewrite (sections_run "remote" members _ _ _ Hremote).
  rewrite bind_appender by (apply appender_for_each, appender_remote_section).
  destruct (outcome (for_each remote_section (servers_of "remote" members)))
    as [[] | e]; [ | reflexivity ].
  rewrite (appender_guide _). reflexivity.
Qed.

Lemma for_each_outcome_ok {X : Type} (body : X -> M unit) (xs : list X) :
  (forall x, appender (body x)) ->
  Forall (fun x => outcome (body x) = Ok tt) xs ->
  outcome (for_each body xs) = Ok tt.
Proof.
  intros Hb Hall. unfold outcome. now rewrite (for_each_ok body xs Hb Hall).
Qed.

Lemma for_each_outcome_raise {X : Type} (body : X -> M unit)
  (good : list X) (bad : X) (rest : list X) (e : exn) :
  (forall x, appender (body x)) ->
  Forall (fun x => outcome (body x) = Ok tt) good ->
  outcome (body bad) = Raise e ->
  outcome (for_each body (good ++ bad :: rest)) = Raise e.
Proof.
  intros Hb Hgood Hbad. induction Hgood as [| x good' Hx _ IH]; simpl.
  - rewrite outcome_bind by (auto using appender_for_each). now rewrite Hbad.
  - rewrite outcome_bind by (auto using appender_for_each). now rewrite Hx.
Qed.

Lemma str_items_ok (items : list json) (i : nat) :
  forallb is_string items = true -> exists l, Py.str_items i items = Ok l.
Proof.
  revert i. induction items as [| x rest IH]; intros i H; simpl in *.
  - now exists [].
  - apply andb_prop in H as [Hx Hrest]. destruct x; try discriminate.
    destruct (IH (S i) Hrest) as [l Hl]. rewrite Hl. now eexists.
Qed.

Lemma shaped_use_cases_ok (indent : string) (use_cases : json) :
  shaped_use_cases use_cases = true ->
  outcome (use_cases_part indent use_cases) = Ok tt.
Proof.
  destruct use_cases as [| | | | | items |]; try discriminate. simpl.
  intros H. unfold use_cases_part. destruct items as [| x rest]; [ reflexivity | ].
  cbn [Py.truthy]. unfold Py.join. cbn [Py.iter].
  destruct (str_items_ok (x :: rest) 0 H) as [l Hl]. rewrite Hl. reflexivity.
Qed.

Lemma shaped_schema_ok (indent : string) (input_schema : json) :
  shaped_schema input_schema = true ->
  outcome (parameters_part indent input_schema) = Ok tt.
Proof.
  destruct input_schema as [| | | | | | schema]; try discriminate;
    [ reflexivity | ].
  simpl. intros H. apply andb_prop in H as [Hprops Hreq].
  unfold parameters_part, outcome.
  destruct schema as [| kv schema']; [ reflexivity | ].
  cbn [Py.truthy Py.is_dict andb Py.get]. run_steps.
  destruct (Py.lookup_or "properties" (JObject []) (kv :: schema'))
    as [| | | | | | props]; try discriminate.
  destruct (Py.lookup_or "required" (JArray []) (kv :: schema'))
    as [| | | | | required |]; try discriminate.
  destruct props as [| p props']; [ reflexivity | ].
  cbn [Py.truthy Py.items]. run_steps.
  rewrite for_each_ok; [ reflexivity | intros; apply appender_bullet | ].
  simpl in Hprops. apply Forall_forall. intros [name info] Hin.
  assert (Hinfo : Py.is_dict info = true).
  { change (Py.is_dict (snd (name, info)) = true).
    apply (proj1 (forallb_forall _ (p :: props')) Hprops). exact Hin. }
  destruct info; try discriminate. reflexivity.
Qed.

Lemma shaped_tool_ok (indent : string) (tool : json) :
  shaped_tool tool = true ->
  outcome (generate_tool_documentation tool indent) = Ok tt.
Proof.
  destruct tool as [| | | | | | members]; try discriminate. simpl.
  intros H. apply andb_prop in H as [Huc Hschema].
  rewrite tool_outcome. apply tool_rest_outcome.
  split; [ now apply shaped_use_cases_ok | now apply shaped_schema_ok ].
Qed.

Lemma shaped_tools_ok (tools : json) :
  shaped_tools tools = true -> outcome (tools_part tools) = Ok tt.
Proof.
  destruct tools as [| | | | | tools |]; try discriminate. simpl. intros H.
  destruct tools as [| t rest]; [ reflexivity | ].
  unfold tools_part, outcome. cbn [Py.truthy Py.len Py.iter]. run_steps.
  rewrite for_each_ok; [ reflexivity | intros; apply appender_tool | ].
  apply Forall_forall. intros tool Hin. apply shaped_tool_ok.
  apply (proj1 (forallb_forall _ (t :: rest)) H). exact Hin.
Qed.

Lemma local_head_ok (server_name : string) (members : list (string * json)) :
  is_list (Py.lookup_or "args" (JArray []) members) = true ->
  outcome (local_head server_name (JObject members)) = Ok tt.
Proof.
  intros Hargs. unfold local_head, outcome. cbn [Py.get Py.contains]. run_steps.
  destruct (Py.has_key "command" members); [ | reflexivity ].
  run_steps.
  destruct (Py.lookup_or "args" (JArray []) members) as [| | | | | args |];
    try discriminate.
  destruct args as [| a rest]; reflexivity.
Qed.

Lemma remote_head_ok (server_name : string) (members : list (string * json)) :
  outcome (remote_head server_name (JObject members)) = Ok tt.
Proof.
  unfold remote_head, outcome. cbn [Py.get Py.contains Py.getitem]. run_steps.
  unfold Py.has_key. destruct (Py.lookup "endpoint" members); reflexivity.
Qed.

Lemma local_outcome (server_name : string) (members : list (string * json)) :
  outcome (generate_local_server_section server_name (JObject members))
  = match outcome (local_head server_name (JObject members)) with
    | Ok _ => outcome (tools_part (Py.lookup_or "tools" (JArray []) members))
    | Raise e => Raise e
    end.
Proof.
  unfold outcome at 1. rewrite local_run.
  apply (outcome_bind (local_head server_name (JObject members))).
  - apply appender_local_head.
  - intros. apply appender_tools_part.
Qed.

Lemma remote_outcome (server_name : string) (members : list (string * json)) :
  outcome (generate_remote_server_section server_name (JObject members))
  = outcome (tools_part (Py.lookup_or "tools" (JArray []) members)).
Proof.
  unfold outcome at 1. rewrite remote_run.
  rewrite (bind_appender _ _ _ (appender_remote_head server_name (JObject members))).
  rewrite remote_head_ok. now rewrite (appender_tools_part _ _).
Qed.

Lemma shaped_server_ok (server_name : string) (server_info : json) :
  shaped_server server_info = true ->
  outcome (generate_local_server_section server_name server_info) = Ok tt
  /\ outcome (generate_remote_server_section server_name server_info) = Ok tt.
Proof.
  destruct server_info as [| | | | | | members]; try discriminate. simpl.
  intros H. apply andb_prop in H as [Hargs Htools]. split.
  - rewrite local_outcome, local_head_ok by exact Hargs. now apply shaped_tools_ok.
  - rewrite remote_outcome. now apply shaped_tools_ok.
Qed.

Lemma shaped_mapping_cases (key : string) (members : list (string * json)) :
  shaped_mapping (Py.lookup_or key (JObject []) members) = true ->
  mapping_or_absent key members
  /\ Forall (fun s : string * json => shaped_server (snd s) = true)
            (servers_of key members).
Proof.
  unfold Py.lookup_or, mapping_or_absent, servers_of.
  destruct (Py.lookup key members) as [v |]; [ | intros _; split; auto ].
  destruct v as [| | | | | | servers]; try discriminate. simpl. intros H.
  split; [ right; now exists servers | ].
  apply Forall_forall. intros s Hin. apply (proj1 (forallb_forall _ servers) H s Hin).
Qed.

(** A catalog of the shape of the data model renders. *)
Lemma shaped_catalog_ok (catalog_data : json) :
  shaped_catalog catalog_data = true ->
  generate_tool_catalog_markdown catalog_data
  = Ok (join nl (lines_of (catalog_body catalog_data))).
Proof.
  destruct catalog_data as [| | | | | | members]; try discriminate. simpl.
  intros H. apply andb_prop in H as [Hlocal Hremote].
  apply shaped_mapping_cases in Hlocal as [Ml Fl].
  apply shaped_mapping_cases in Hremote as [Mr Fr].
  rewrite generate_outcome, catalog_outcome by assumption.
  rewrite !for_each_outcome_ok; try reflexivity.
  - intros; apply appender_remote_section.
  - eapply Forall_impl; [ | exact Fr ]. intros [name info] Hs.
    now apply shaped_server_ok.
  - intros; apply appender_local_section.
  - eapply Forall_impl; [ | exact Fl ]. intros [name info] Hs.
    now apply shaped_server_ok.
Qed.

(** The server entry [filesystem] is a list: rendering raises the
    [AttributeError] of the missing [get], whose message holds the type
    name [list] and not the key. *)
Lemma server_key_not_reported :
  generate_tool_catalog_markdown list_server_example
  = Raise (AttributeError "list" "get")
  /\ Py.exn_str (AttributeError "list" "get") = "'list' object has no attribute 'get'"
  /\ ~ reports_server_key list_server_example "filesystem".
Proof.
  split; [ reflexivity | split; [ reflexivity | ] ].
  intros [e [Hraise Hname]]. vm_compute in Hraise. inversion Hraise; subst e.
  vm_compute in Hname. discriminate.
Qed.

Lemma local_not_object (server_name : string) (server_info : json) :
  Py.is_dict server_info = false ->
  outcome (generate_local_server_section server_name server_info)
  = Raise (AttributeError (Py.type_name server_info) "get").
Proof. destruct server_info; try discriminate; reflexivity. Qed.

Lemma remote_not_object (server_name : string) (server_info : json) :
  Py.is_dict server_info = false ->
  outcome (generate_remote_server_section server_name server_info)
  = Raise (AttributeError (Py.type_name server_info) "get").
Proof. destruct server_info; try discriminate; reflexivity. Qed.

(** C7, as the code has it.  The generator does not validate its input.  A
    top level that is not an object makes it raise the [AttributeError] of
    the missing method [get], which names the type of the value and no
    path.  When [local] and [remote] are objects or absent, so that the
    table of contents is written, the first server entry that is not an
    object, the sections before it rendering, makes it raise the same
    error, which names the type of the entry and not its key.  Whatever
    rendering raises, the command line prints "Error: " and the message and
    exits with status 1.  A catalog of the shape of the data model, with any
    of its fields absent, renders. *)
Theorem structural_errors :
  (forall catalog_data,
      Py.is_dict catalog_data = false ->
      generate_tool_catalog_markdown catalog_data
      = Raise (AttributeError (Py.type_name catalog_data) "get"))
  /\ (forall members good server_name server_info rest,
         Py.lookup "local" members
         = Some (JObject (good ++ (server_name, server_info) :: rest)%list) ->
         mapping_or_absent "remote" members ->
         Forall (fun s => outcome (local_section s) = Ok tt) good ->
         Py.is_dict server_info = false ->
         generate_tool_catalog_markdown (JObject members)
         = Raise (AttributeError (Py.type_name server_info) "get"))
  /\ (forall members good server_name server_info rest,
         mapping_or_absent "local" members ->
         Forall (fun s => outcome (local_section s) = Ok tt) (servers_of "local" members) ->
         Py.lookup "remote" members
         = Some (JObject (good ++ (server_name, server_info) :: rest)%list) ->
         Forall (fun s => outcome (remote_section s) = Ok tt) good ->
         Py.is_dict server_info = false ->
         generate_tool_catalog_markdown (JObject members)
         = Raise (AttributeError (Py.type_name server_info) "get"))
  /\ (forall json_loads env script catalog_file text catalog_data e,
         argv env = [script; catalog_file] ->
         open_read env catalog_file = Content text ->
         json_loads text = Loaded catalog_data ->
         generate_tool_catalog_markdown catalog_data = Raise e ->
         main json_loads env
         = {| stdout := ["Error: " ++ Py.exn_str e]; exit_status := 1 |})
  /\ (forall catalog_data,
         shaped_catalog catalog_data = true ->
         exists document, generate_tool_catalog_markdown catalog_data = Ok document).
Proof.
  split; [ | split; [ | split; [ | split ] ] ].
  - intros catalog_data H. destruct catalog_data; try discriminate; reflexivity.
  - intros members good server_name server_info rest Hlocal Hremote Hgood Hbad.
    rewrite generate_outcome, catalog_outcome;
      [ | right; eexists; exact Hlocal | exact Hremote ].
    unfold servers_of at 1. rewrite Hlocal.
    rewrite (for_each_outcome_raise local_section good (server_name, server_info) rest
               (AttributeError (Py.type_name server_info) "get"));
      [ reflexivity | apply appender_local_section | exact Hgood
      | now apply local_not_object ].
  - intros members good server_name server_info rest Hlocal Hall Hremote Hgood Hbad.
    rewrite generate_outcome, catalog_outcome;
      [ | exact Hlocal | right; eexists; exact Hremote ].
    rewrite (for_each_outcome_ok local_section _ appender_local_section Hall).
    unfold servers_of. rewrite Hremote.
    rewrite (for_each_outcome_raise remote_section good (server_name, server_info) rest
               (AttributeError (Py.type_name server_info) "get"));
      [ reflexivity | apply appender_remote_section | exact Hgood
      | now apply remote_not_object ].
  - intros json_loads env script catalog_file text catalog_data e Hargv Hfile Hload Hraise.
    unfold main. now rewrite Hargv, Hfile, Hload, Hraise.
  - intros catalog_data H. eexists. now apply shaped_catalog_ok.
Qed.

(** ** Instances *)

Lemma tool_blocks_in_input_order_witness :
  (lines_of (generate_local_server_section "fs" (JObject two_tools_server))
   = (lines_of (generate_local_server_section "fs"
                  (JObject (remove_key "tools" two_tools_server)))
      ++ tools_heading two_tools ++ flat_map tool_block two_tools)%list
   /\ Forall headed_by_its_name two_tools)
  /\ (lines_of (generate_remote_server_section "fs" (JObject two_tools_server))
      = (lines_of (generate_remote_server_section "fs"
                     (JObject (remove_key "tools" two_tools_server)))
         ++ tools_heading two_tools ++ flat_map tool_block two_tools)%list
      /\ Forall headed_by_its_name two_tools).
Proof.
  split.
  - apply (proj1 (tool_blocks_in_input_order "fs" two_tools_server two_tools eq_refl)).
    reflexivity.
  - apply (proj2 (tool_blocks_in_input_order "fs" two_tools_server two_tools eq_refl)).
    reflexivity.
Defined.

Lemma required_marker_iff_required_witness :
  exists bullets,
    lines_of (generate_tool_documentation (JObject mixed_tool) EmptyString)
    = (tool_head EmptyString mixed_tool
       ++ lines_of (use_cases_part EmptyString
                      (Py.lookup_or "use_cases" (JArray []) mixed_tool))
       ++ [EmptyString; (EmptyString ++ "**Parameters**:")%string] ++ bullets
       ++ [EmptyString])%list
    /\ Forall2 (bullet_spec EmptyString [JString "path"]) mixed_properties bullets.
Proof.
  apply (required_marker_iff_required mixed_tool mixed_schema mixed_properties
           [JString "path"] EmptyString);
    [ reflexivity | reflexivity | discriminate | reflexivity | reflexivity ].
Defined.

Lemma empty_catalog_document_witness :
  generate_tool_catalog_markdown (JObject no_servers)
  = Ok (join nl (skeleton "2025-01-01" configuration_guide_lines))
  /\ generate_tool_catalog_markdown (JObject [])
     = Ok (join nl (skeleton "Unknown" configuration_guide_lines)).
Proof.
  split.
  - apply (empty_catalog_document no_servers); right; reflexivity.
  - apply (empty_catalog_document []); left; reflexivity.
Defined.


Lemma structural_errors_witness :
  generate_tool_catalog_markdown (JArray []) = Raise (AttributeError "list" "get")
  /\ generate_tool_catalog_markdown list_server_example
     = Raise (AttributeError "list" "get")
  /\ generate_tool_catalog_markdown (JObject remote_number_example)
     = Raise (AttributeError "int" "get")
  /\ main (fun _ => Loaded list_server_example)
          (sample_env ["generate"; "catalog.json"] (Content "{}") 0)
     = {| stdout := ["Error: 'list' object has no attribute 'get'"]; exit_status := 1 |}
  /\ exists document, generate_tool_catalog_markdown filesystem_example = Ok document.
Proof.
  destruct structural_errors as [Htop [Hlocal [Hremote [Hmain Hshaped]]]].
  split; [ | split; [ | split; [ | split ] ] ].
  - apply (Htop (JArray [])). reflexivity.
  - apply (Hlocal [ ("local", JObject [ ("filesystem", JArray []) ]) ]
             [] "filesystem" (JArray []) []);
      [ reflexivity | left; reflexivity | constructor | reflexivity ].
  - apply (Hremote remote_number_example [ ("memory", JObject []) ] "search" (JInt 7) []);
      [ right; eexists; reflexivity
      | repeat constructor
      | reflexivity
      | repeat constructor
      | reflexivity ].
  - apply (Hmain (fun _ => Loaded list_server_example)
             (sample_env ["generate"; "catalog.json"] (Content "{}") 0)
             "generate" "catalog.json" "{}" list_server_example
             (AttributeError "list" "get"));
      reflexivity.
  - apply (Hshaped filesystem_example). reflexivity.
Defined.

Lemma toc_entries_per_server_witness :
  (exists rest,
      lines_of (catalog_body (JObject three_servers))
      = (document_start "Unknown" ++ [EmptyString]
         ++ [ "## Table of Contents"; EmptyString;
              "- [Local Servers](#local-servers)";
              "  - [My Server](#my server)";
              "  - [Github](#github)";
              "- [Remote Tools](#remote-tools)";
              "  - [K8S-Api](#k8s-api)";
              "- [Client Configuration Guide](#client-configuration-guide)";
              EmptyString ]
         ++ rest)%list)
  /\ lower (title "GitHub") = lower "GitHub"
  /\ String.length (lower "k8s-API") = String.length "k8s-API".
Proof.
  split; [ | split ].
  - apply (proj1 toc_entries_per_server three_servers);
      right; eexists; reflexivity.
  - apply (proj1 (proj2 (proj2 toc_entries_per_server)) "GitHub"). reflexivity.
  - apply (proj2 (proj2 (proj2 toc_entries_per_server)) "k8s-API"). reflexivity.
Defined.


(** * Further properties of the generator *)

(** ** The document as a whole *)

Lemma for_each_lines {X : Type} (body : X -> M unit) (xs : list X) :
  (forall x, appender (body x)) ->
  outcome (for_each body xs) = Ok tt ->
  lines_of (for_each body xs) = flat_map (fun x => lines_of (body x)) xs.
Proof.
  intros Hb Hok. apply (for_each_ok_inv body xs Hb []) in Hok.
  unfold lines_of at 1. now rewrite (for_each_ok body xs Hb Hok).
Qed.

Lemma local_not_mapping (members : list (string * json)) (v : json) :
  Py.lookup "local" members = Some v ->
  Py.is_dict v = false ->
  outcome (catalog_body (JObject members))
  = Raise (AttributeError (Py.type_name v) "keys").
Proof.
  intros H Hv. unfold outcome, catalog_body. cbn [Py.get Py.contains].
  do 12 (first [ rewrite bind_lift_ok | rewrite bind_append ]; cbv beta).
  unfold Py.has_key. cbn [Py.getitem]. rewrite H. cbn [Py.getitem].
  rewrite bind_assoc, bind_lift_ok. cbv beta. rewrite bind_assoc.
  destruct v; try discriminate; reflexivity.
Qed.

Lemma remote_not_mapping (members : list (string * json)) (v : json) :
  mapping_or_absent "local" members ->
  Py.lookup "remote" members = Some v ->
  Py.is_dict v = false ->
  outcome (catalog_body (JObject members))
  = Raise (AttributeError (Py.type_name v) "keys").
Proof.
  intros Hlocal H Hv. unfold outcome, catalog_body. cbn [Py.get Py.contains].
  do 12 (first [ rewrite bind_lift_ok | rewrite bind_append ]; cbv beta).
  change (fun server_name : string =>
            markdown_append ("  - [" ++ title server_name ++ "](#"
                             ++ lower server_name ++ ")"))
    with (fun server_name : string => markdown_append (toc_entry server_name)).
  rewrite (toc_run "local" members _ _ Hlocal).
  do 2 (first [ rewrite bind_lift_ok | rewrite bind_append ]; cbv beta).
  unfold Py.has_key at 1. cbn [Py.getitem]. rewrite H. cbn [Py.getitem].
  rewrite bind_assoc, bind_lift_ok. cbv beta. rewrite bind_assoc.
  destruct v; try discriminate; reflexivity.
Qed.

(** A catalog that renders has objects, if anything, under [local] and
    [remote]. *)
Lemma render_ok_mappings (members : list (string * json)) :
  outcome (catalog_body (JObject members)) = Ok tt ->
  mapping_or_absent "local" members /\ mapping_or_absent "remote" members.
Proof.
  intros Hok.
  assert (Hlocal : mapping_or_absent "local" members).
  { destruct (Py.lookup "local" members) as [v |] eqn:E; [ | now left ].
    destruct v; try (right; eexists; exact E);
      rewrite (local_not_mapping members _ E eq_refl) in Hok; discriminate. }
  split; [ exact Hlocal | ].
  destruct (Py.lookup "remote" members) as [v |] eqn:E; [ | now left ].
  destruct v; try (right; eexists; exact E);
    rewrite (remote_not_mapping members _ Hlocal E eq_refl) in Hok; discriminate.
Qed.

Lemma catalog_lines_ok (members : list (string * json)) :
  outcome (catalog_body (JObject members)) = Ok tt ->
  lines_of (catalog_body (JObject members)) = document_lines members.
Proof.
  intros Hok. destruct (render_ok_mappings members Hok) as [Hlocal Hremote].
  rewrite (catalog_outcome members Hlocal Hremote) in Hok.
  destruct (outcome (for_each local_section (servers_of "local" members)))
    as [[] | e] eqn:HL; [ | discriminate ].
  unfold lines_of at 1. unfold catalog_body. cbn [Py.get Py.contains].
  do 12 (first [ rewrite bind_lift_ok | rewrite bind_append ]; cbv beta).
  change (fun server_name : string =>
            markdown_append ("  - [" ++ title server_name ++ "](#"
                             ++ lower server_name ++ ")"))
    with (fun server_name : string => markdown_append (toc_entry server_name)).
  rewrite (toc_run "local" members _ _ Hlocal).
  do 2 (first [ rewrite bind_lift_ok | rewrite bind_append ]; cbv beta).
  rewrite (toc_run "remote" members _ _ Hremote).
  do 8 (first [ rewrite bind_lift_ok | rewrite bind_append ]; cbv beta).
  change (fun server : string * json =>
            let (server_name, server_info) := server in
            generate_local_server_section server_name server_info)
    with local_section.
  rewrite (sections_run "local" members _ _ _ Hlocal).
  rewrite bind_appender by (apply appender_for_each, appender_local_section).
  rewrite HL.
  rewrite (for_each_lines local_section _ appender_local_section HL).
  do 6 (first [ rewrite bind_lift_ok | rewrite bind_append ]; cbv beta).
  change (fun server : string * json =>
            let (server_name, server_info) := server in
            generate_remote_server_section server_name server_info)
    with remote_section.
  rewrite (sections_run "remote" members _ _ _ Hremote).
  rewrite bind_appender by (apply appender_for_each, appender_remote_section).
  rewrite Hok.
  rewrite (for_each_lines remote_section _ appender_remote_section Hok).
  rewrite (appender_guide _).
  unfold document_lines, document_start, table_of_contents, local_intro, remote_intro.
  cbn [snd].
  repeat first [ progress cbn [app] | rewrite <- app_assoc ]. reflexivity.
Qed.

Lemma local_section_heading (server : string * json) :
  opens_with_heading local_section server.
Proof.
  destruct server as [name info]. unfold opens_with_heading, lines_of, local_section.
  unfold generate_local_server_section.
  do 2 (rewrite bind_append; cbv beta). cbn [app fst].
  match goal with
  | |- hd_error (snd (?m ?md)) = _ => destruct (appender_extends m md) as [rest Hrest]
  end.
  - appender_tac; apply appender_tool.
  - now rewrite Hrest.
Qed.

Lemma remote_section_heading (server : string * json) :
  opens_with_heading remote_section server.
Proof.
  destruct server as [name info]. unfold opens_with_heading, lines_of, remote_section.
  unfold generate_remote_server_section.
  do 2 (rewrite bind_append; cbv beta). cbn [app fst].
  match goal with
  | |- hd_error (snd (?m ?md)) = _ => destruct (appender_extends m md) as [rest Hrest]
  end.
  - appender_tac; apply appender_tool.
  - now rewrite Hrest.
Qed.

Lemma server_names_servers_of (key : string) (members : list (string * json)) :
  server_names key members = map fst (servers_of key members).
Proof.
  unfold server_names, servers_of.
  destruct (Py.lookup key members) as [v |]; [ destruct v | ]; reflexivity.
Qed.

(** X1.  A document that is produced comes from an object and is, joined by
    line feeds: the title, the preamble and the last-updated value; the
    table of contents; the local part, with the sections of the local
    servers in the order of the mapping; the remote part, likewise; and the
    configuration guide.  The nested entries of the table of contents are
    those of the servers whose sections follow, in the same order, and every
    section opens with the heading of its server. *)
Theorem rendered_document_structure (catalog_data : json) (document : string) :
  generate_tool_catalog_markdown catalog_data = Ok document ->
  exists members,
    catalog_data = JObject members
    /\ document = join nl (document_lines members)
    /\ server_names "local" members = map fst (servers_of "local" members)
    /\ server_names "remote" members = map fst (servers_of "remote" members)
    /\ Forall (opens_with_heading local_section) (servers_of "local" members)
    /\ Forall (opens_with_heading remote_section) (servers_of "remote" members).
Proof.
  intros Hdoc. rewrite generate_outcome in Hdoc.
  destruct (outcome (catalog_body catalog_data)) as [[] | e] eqn:Hok; [ | discriminate ].
  destruct catalog_data as [| | | | | | members]; try discriminate.
  exists members. rewrite (catalog_lines_ok members Hok) in Hdoc.
  repeat split.
  - now inversion Hdoc.
  - apply server_names_servers_of.
  - apply server_names_servers_of.
  - apply Forall_forall. intros s _. apply local_section_heading.
  - apply Forall_forall. intros s _. apply remote_section_heading.
Qed.

(** ** Where rendering raises, continued *)

(** X3.  A [local] or [remote] value that is not an object makes rendering
    raise the [AttributeError] of the missing method [keys], named after the
    type of the value.  The table of contents is written before any section:
    a bad [remote] is reported whatever the local entries hold. *)
Theorem mapping_not_object (members : list (string * json)) (v : json) :
  Py.is_dict v = false ->
  (Py.lookup "local" members = Some v ->
   generate_tool_catalog_markdown (JObject members)
   = Raise (AttributeError (Py.type_name v) "keys"))
  /\ (mapping_or_absent "local" members ->
      Py.lookup "remote" members = Some v ->
      generate_tool_catalog_markdown (JObject members)
      = Raise (AttributeError (Py.type_name v) "keys")).
Proof.
  intros Hv. split.
  - intros H. rewrite generate_outcome. now rewrite (local_not_mapping members v H Hv).
  - intros Hlocal H. rewrite generate_outcome.
    now rewrite (remote_not_mapping members v Hlocal H Hv).
Qed.

Lemma for_each_raise_inv {X : Type} (body : X -> M unit) (xs : list X) (e : exn) :
  (forall x, appender (body x)) ->
  outcome (for_each body xs) = Raise e ->
  first_failure body xs e.
Proof.
  intros Hb. induction xs as [| x rest IH]; simpl; intros H.
  - discriminate.
  - rewrite outcome_bind in H by (auto using appender_for_each).
    destruct (outcome (body x)) as [[] | e'] eqn:Hx.
    + destruct (IH H) as [good [bad [rest' [E [Hgood Hbad]]]]].
      exists (x :: good), bad, rest'. subst rest. repeat split; auto.
    + inversion H; subst e'. exists [], x, rest. repeat split; auto.
Qed.

Lemma first_failure_outcome {X : Type} (body : X -> M unit) (xs : list X) (e : exn) :
  (forall x, appender (body x)) ->
  first_failure body xs e ->
  outcome (for_each body xs) = Raise e.
Proof.
  intros Hb [good [bad [rest [E [Hgood Hbad]]]]]. subst xs.
  now apply for_each_outcome_raise.
Qed.

(** X4.  With [local] and [remote] objects or absent, rendering raises
    exactly when a section does, and what it raises is the exception of the
    first section that fails, the local servers coming before the remote
    ones. *)
Theorem render_error_is_first_failing_section
  (members : list (string * json)) (e : exn) :
  mapping_or_absent "local" members ->
  mapping_or_absent "remote" members ->
  generate_tool_catalog_markdown (JObject members) = Raise e
  <-> first_failure local_section (servers_of "local" members) e
      \/ (Forall (fun s => outcome (local_section s) = Ok tt) (servers_of "local" members)
          /\ first_failure remote_section (servers_of "remote" members) e).
Proof.
  intros Hlocal Hremote.
  rewrite generate_outcome, (catalog_outcome members Hlocal Hremote).
  destruct (outcome (for_each local_section (servers_of "local" members)))
    as [[] | e1] eqn:HL.
  - assert (Hall : Forall (fun s => outcome (local_section s) = Ok tt)
                     (servers_of "local" members))
      by (apply (for_each_ok_inv _ _ appender_local_section []); exact HL).
    destruct (outcome (for_each remote_section (servers_of "remote" members)))
      as [[] | e2] eqn:HR; split.
    + discriminate.
    + intros [Hf | [_ Hf]].
      * apply (first_failure_outcome _ _ _ appender_local_section) in Hf. congruence.
      * apply (first_failure_outcome _ _ _ appender_remote_section) in Hf. congruence.
    + intros H. inversion H; subst e2. right. split; [ exact Hall | ].
      now apply for_each_raise_inv; [ apply appender_remote_section | ].
    + intros [Hf | [_ Hf]].
      * apply (first_failure_outcome _ _ _ appender_local_section) in Hf. congruence.
      * apply (first_failure_outcome _ _ _ appender_remote_section) in Hf. congruence.
  - split.
    + intros H. inversion H; subst e1. left.
      now apply for_each_raise_inv; [ apply appender_local_section | ].
    + intros [Hf | [Hall _]].
      * apply (first_failure_outcome _ _ _ appender_local_section) in Hf. congruence.
      * apply (for_each_outcome_ok _ _ appender_local_section) in Hall. congruence.
Qed.

(** ** The lines the functions are given *)

(** X5.  The four functions that receive [markdown] only append to it, also
    when they raise: the lines they were given stay in place, and what they
    add and whether they return do not depend on those lines. *)
Theorem generators_only_append :
  (forall tool indent, appender (generate_tool_documentation tool indent))
  /\ (forall server_name server_info,
         appender (generate_local_server_section server_name server_info))
  /\ (forall server_name server_info,
         appender (generate_remote_server_section server_name server_info))
  /\ appender generate_configuration_guide.
Proof.
  repeat split.
  - intros. apply appender_tool.
  - intros. apply appender_local.
  - intros. apply appender_remote.
  - apply appender_guide.
Qed.

(** ** The command line, continued *)


(** ** Tool entries that are not of the shape *)

(** X6.  A tool entry that is not an object raises the [AttributeError] of
    the missing method [get] before anything of its block is appended. *)
Theorem tool_not_object (tool : json) (indent : string) (markdown : list string) :
  Py.is_dict tool = false ->
  generate_tool_documentation tool indent markdown
  = (Raise (AttributeError (Py.type_name tool) "get"), markdown).
Proof. intros H. destruct tool; try discriminate; reflexivity. Qed.

Lemma str_items_first_bad (strings : list string) (x : json) (rest : list json) (i : nat) :
  is_string x = false ->
  Py.str_items i (map JString strings ++ x :: rest)
  = Raise (TypeError ("sequence item " ++ of_nat (i + List.length strings)
                      ++ ": expected str instance, " ++ Py.type_name x ++ " found")).
Proof.
  intros Hx. revert i. induction strings as [| s strings' IH]; intros i; simpl.
  - rewrite Nat.add_0_r. destruct x; try discriminate; reflexivity.
  - rewrite IH. now rewrite Nat.add_succ_r.
Qed.

(** X7.  When the use cases of a tool are a list whose first item that is
    not a string is at position [i], the tool raises the [TypeError] of
    [join] for item [i], after the five lines that head the block and
    before any line of use cases. *)
Theorem use_cases_not_strings
  (members : list (string * json)) (strings : list string) (x : json) (rest : list json)
  (indent : string) (markdown : list string) :
  Py.lookup "use_cases" members = Some (JArray (map JString strings ++ x :: rest)) ->
  is_string x = false ->
  generate_tool_documentation (JObject members) indent markdown
  = (Raise (TypeError ("sequence item " ++ of_nat (List.length strings)
                       ++ ": expected str instance, " ++ Py.type_name x ++ " found")),
     (markdown ++ tool_head indent members)%list).
Proof.
  intros Huc Hx. rewrite tool_run. unfold tool_rest, use_cases_part.
  assert (Euc : Py.lookup_or "use_cases" (JArray []) members
                = JArray (map JString strings ++ x :: rest))
    by (unfold Py.lookup_or; now rewrite Huc).
  rewrite Euc.
  assert (Htruthy : Py.truthy (JArray (map JString strings ++ x :: rest)) = true)
    by (destruct strings; reflexivity).
  rewrite Htruthy. unfold Py.join. cbn [Py.iter].
  rewrite (str_items_first_bad strings x rest 0 Hx). reflexivity.
Qed.

(** ** The fields that are read *)

Lemma lookup_or_agrees (keys : list string) (members members' : list (string * json))
  (key : string) (default : json) :
  agrees_on keys members members' ->
  In key keys ->
  Py.lookup_or key default members = Py.lookup_or key default members'.
Proof. intros H Hin. unfold Py.lookup_or. now rewrite (H key Hin). Qed.

Lemma has_key_agrees (keys : list string) (members members' : list (string * json))
  (key : string) :
  agrees_on keys members members' ->
  In key keys ->
  Py.has_key key members = Py.has_key key members'.
Proof. intros H Hin. unfold Py.has_key. now rewrite (H key Hin). Qed.

Ltac in_fields := simpl; tauto.

(** X8.  Each function reads only its fields: two tool entries that agree
    on [name], [description], [category], [use_cases] and [input_schema]
    render alike, as do two local entries that agree on [description],
    [command], [args], [working_directory] and [tools], two remote entries
    that agree on [description], [endpoint] and [tools], and two catalogs
    that agree on [last_updated], [local] and [remote].  Any other key of
    the entry is without effect. *)
Theorem only_known_fields_are_read (members members' : list (string * json)) :
  (agrees_on tool_fields members members' ->
   forall indent,
     generate_tool_documentation (JObject members) indent
     = generate_tool_documentation (JObject members') indent)
  /\ (agrees_on local_fields members members' ->
      forall server_name,
        generate_local_server_section server_name (JObject members)
        = generate_local_server_section server_name (JObject members'))
  /\ (agrees_on remote_fields members members' ->
      forall server_name,
        generate_remote_server_section server_name (JObject members)
        = generate_remote_server_section server_name (JObject members'))
  /\ (agrees_on catalog_fields members members' ->
      generate_tool_catalog_markdown (JObject members)
      = generate_tool_catalog_markdown (JObject members')).
Proof.
  split; [ | split; [ | split ] ]; intros H.
  - intros indent. unfold generate_tool_documentation. cbn [Py.get].
    rewrite (lookup_or_agrees _ _ _ "name" _ H) by in_fields.
    rewrite (lookup_or_agrees _ _ _ "description" _ H) by in_fields.
    rewrite (lookup_or_agrees _ _ _ "category" _ H) by in_fields.
    rewrite (lookup_or_agrees _ _ _ "use_cases" _ H) by in_fields.
    rewrite (lookup_or_agrees _ _ _ "input_schema" _ H) by in_fields.
    reflexivity.
  - intros server_name. unfold generate_local_server_section. cbn [Py.get Py.contains].
    rewrite (lookup_or_agrees _ _ _ "description" _ H) by in_fields.
    rewrite (has_key_agrees _ _ _ "command" H) by in_fields.
    rewrite (lookup_or_agrees _ _ _ "command" _ H) by in_fields.
    rewrite (lookup_or_agrees _ _ _ "args" _ H) by in_fields.
    rewrite (lookup_or_agrees _ _ _ "working_directory" _ H) by in_fields.
    rewrite (lookup_or_agrees _ _ _ "tools" _ H) by in_fields.
    reflexivity.
  - intros server_name. unfold generate_remote_server_section.
    cbn [Py.get Py.contains Py.getitem].
    rewrite (lookup_or_agrees _ _ _ "description" _ H) by in_fields.
    rewrite (has_key_agrees _ _ _ "endpoint" H) by in_fields.
    rewrite (H "endpoint") by in_fields.
    rewrite (lookup_or_agrees _ _ _ "tools" _ H) by in_fields.
    reflexivity.
  - unfold generate_tool_catalog_markdown, catalog_body.
    cbn [Py.get Py.contains Py.getitem].
    rewrite (lookup_or_agrees _ _ _ "last_updated" _ H) by in_fields.
    rewrite (has_key_agrees _ _ _ "local" H) by in_fields.
    rewrite (has_key_agrees _ _ _ "remote" H) by in_fields.
    rewrite (H "local") by in_fields.
    rewrite (H "remote") by in_fields.
    reflexivity.
Qed.

(** ** Absent fields, continued *)

Lemma local_head_outcome (server_name : string) (members : list (string * json)) :
  outcome (local_head server_name (JObject members))
  = if Py.has_key "command" members then
      if Py.truthy (Py.lookup_or "args" (JArray []) members) then
        match Py.iter (Py.lookup_or "args" (JArray []) members) with
        | Ok _ => Ok tt
        | Raise e => Raise e
        end
      else Ok tt
    else Ok tt.
Proof.
  unfold local_head, outcome. cbn [Py.get Py.contains]. run_steps.
  destruct (Py.has_key "command" members); [ | reflexivity ].
  run_steps.
  destruct (Py.truthy (Py.lookup_or "args" (JArray []) members)); [ | reflexivity ].
  destruct (Py.iter (Py.lookup_or "args" (JArray []) members)); reflexivity.
Qed.

Lemma local_remove_key_ok (server_name key : string) (members : list (string * json)) :
  outcome (generate_local_server_section server_name (JObject members)) = Ok tt ->
  outcome (generate_local_server_section server_name (JObject (remove_key key members)))
  = Ok tt.
Proof.
  rewrite !local_outcome, !local_head_outcome. intros H.
  assert (Htools : outcome (tools_part (Py.lookup_or "tools" (JArray []) members)) = Ok tt).
  { destruct (Py.has_key "command" members); [ | exact H ].
    destruct (Py.truthy (Py.lookup_or "args" (JArray []) members)); [ | exact H ].
    destruct (Py.iter (Py.lookup_or "args" (JArray []) members)); [ exact H | discriminate ]. }
  destruct (string_dec key "command") as [-> | Hc].
  - unfold Py.has_key. rewrite lookup_remove_same.
    now rewrite lookup_or_remove_other by discriminate.
  - rewrite has_key_remove_other by congruence.
    destruct (string_dec key "args") as [-> | Ha].
    + rewrite lookup_or_remove_same. cbn [Py.truthy].
      rewrite lookup_or_remove_other by discriminate.
      destruct (Py.has_key "command" members); exact Htools.
    + rewrite (lookup_or_remove_other "args") by congruence.
      destruct (string_dec key "tools") as [-> | Ht].
      * rewrite lookup_or_remove_same.
        destruct (Py.has_key "command" members); [ | reflexivity ].
        destruct (Py.truthy (Py.lookup_or "args" (JArray []) members)); [ | reflexivity ].
        destruct (Py.iter (Py.lookup_or "args" (JArray []) members));
          [ reflexivity | discriminate ].
      * rewrite (lookup_or_remove_other "tools") by congruence. exact H.
Qed.

Lemma remote_remove_key_ok (server_name key : string) (members : list (string * json)) :
  outcome (generate_remote_server_section server_name (JObject members)) = Ok tt ->
  outcome (generate_remote_server_section server_name (JObject (remove_key key members)))
  = Ok tt.
Proof.
  rewrite !remote_outcome. intros H.
  destruct (string_dec key "tools") as [-> | Ht].
  - now rewrite lookup_or_remove_same.
  - now rewrite lookup_or_remove_other by congruence.
Qed.

Lemma mapping_or_absent_remove (key key' : string) (members : list (string * json)) :
  mapping_or_absent key members -> mapping_or_absent key (remove_key key' members).
Proof.
  intros H. unfold mapping_or_absent.
  destruct (string_dec key key') as [-> | Hne].
  - left. apply lookup_remove_same.
  - now rewrite lookup_remove_other by exact Hne.
Qed.

Lemma servers_of_remove (key key' : string) (members : list (string * json)) :
  servers_of key (remove_key key' members) = servers_of key members
  \/ servers_of key (remove_key key' members) = [].
Proof.
  unfold servers_of. destruct (string_dec key key') as [-> | Hne].
  - right. now rewrite lookup_remove_same.
  - left. now rewrite lookup_remove_other by exact Hne.
Qed.

Lemma catalog_remove_key_ok (key : string) (members : list (string * json)) :
  outcome (catalog_body (JObject members)) = Ok tt ->
  outcome (catalog_body (JObject (remove_key key members))) = Ok tt.
Proof.
  intros Hok. destruct (render_ok_mappings members Hok) as [Hlocal Hremote].
  rewrite (catalog_outcome members Hlocal Hremote) in Hok.
  rewrite catalog_outcome by (now apply mapping_or_absent_remove).
  destruct (outcome (for_each local_section (servers_of "local" members)))
    as [[] | e] eqn:HL; [ | discriminate ].
  destruct (servers_of_remove "local" key members) as [-> | ->];
    destruct (servers_of_remove "remote" key members) as [-> | ->];
    try rewrite HL; try rewrite Hok; reflexivity.
Qed.

(** X9.  Taking a key away never makes rendering fail: a local section, a
    remote section and a catalog that render still render without any one
    of the keys of the entry. *)
Theorem missing_field_never_fails (key : string) (members : list (string * json)) :
  (forall server_name,
      outcome (generate_local_server_section server_name (JObject members)) = Ok tt ->
      outcome (generate_local_server_section server_name
                 (JObject (remove_key key members))) = Ok tt)
  /\ (forall server_name,
         outcome (generate_remote_server_section server_name (JObject members)) = Ok tt ->
         outcome (generate_remote_server_section server_name
                    (JObject (remove_key key members))) = Ok tt)
  /\ (forall document,
         generate_tool_catalog_markdown (JObject members) = Ok document ->
         exists document',
           generate_tool_catalog_markdown (JObject (remove_key key members))
           = Ok document').
Proof.
  split; [ | split ].
  - intros server_name. apply local_remove_key_ok.
  - intros server_name. apply remote_remove_key_ok.
  - intros document Hdoc. rewrite generate_outcome in Hdoc |- *.
    destruct (outcome (catalog_body (JObject members))) as [[] | e] eqn:Hok;
      [ | discriminate ].
    rewrite (catalog_remove_key_ok key members Hok). now eexists.
Qed.

(** ** Server sections without tools *)

(** X10.  A local section whose [tools] are falsy (absent, empty, null) is
    its four opening lines and its configuration block.  The block is there
    exactly when the entry has a [command]; it has a line of arguments
    exactly when [args] is truthy, the quoted arguments joined by commas;
    its working directory is "project_root" when the entry gives none.
    Without a [command], [args] and [working_directory] are not shown. *)
Theorem local_section_without_tools
  (server_name : string) (members : list (string * json)) (arg_list : list json)
  (markdown : list string) :
  Py.truthy (Py.lookup_or "tools" (JArray []) members) = false ->
  (Py.has_key "command" members = true ->
   Py.truthy (Py.lookup_or "args" (JArray []) members) = true ->
   Py.iter (Py.lookup_or "args" (JArray []) members) = Ok arg_list) ->
  generate_local_server_section server_name (JObject members) markdown
  = (Ok tt,
     (markdown ++ section_opening server_name members
      ++ configuration_block members arg_list)%list).
Proof.
  intros Htools Hargs. rewrite local_run. unfold tools_part. rewrite Htools.
  unfold local_head, section_opening, configuration_block.
  cbn [Py.get Py.contains]. unfold bind, lift, markdown_append, ret.
  destruct (Py.has_key "command" members).
  - destruct (Py.truthy (Py.lookup_or "args" (JArray []) members)).
    + rewrite (Hargs eq_refl eq_refl).
      repeat first [ progress cbn [app] | rewrite <- app_assoc ]. reflexivity.
    + repeat first [ progress cbn [app] | rewrite <- app_assoc ]. reflexivity.
  - repeat first [ progress cbn [app] | rewrite <- app_assoc ]. reflexivity.
Qed.

(** X11.  When a local entry has a [command] and its [args] are truthy but
    cannot be iterated (a number, [true]), the section raises the
    [TypeError] of the iteration, after the line of the command. *)
Theorem args_not_iterable
  (server_name : string) (members : list (string * json)) (markdown : list string) :
  Py.has_key "command" members = true ->
  Py.truthy (Py.lookup_or "args" (JArray []) members) = true ->
  iterable (Py.lookup_or "args" (JArray []) members) = false ->
  generate_local_server_section server_name (JObject members) markdown
  = (Raise (TypeError ("'" ++ Py.type_name (Py.lookup_or "args" (JArray []) members)
                       ++ "' object is not iterable")),
     (markdown ++ section_opening server_name members
      ++ configuration_block_start members)%list).
Proof.
  intros Hcommand Htruthy Hiter. rewrite local_run.
  unfold local_head, section_opening, configuration_block_start.
  cbn [Py.get Py.contains]. unfold bind, lift, markdown_append, ret.
  rewrite Hcommand, Htruthy.
  destruct (Py.lookup_or "args" (JArray []) members); try discriminate;
    cbn [Py.iter Py.type_name];
    repeat first [ progress cbn [app] | rewrite <- app_assoc ]; reflexivity.
Qed.

Lemma tools_part_outcome_iff (tools : list json) :
  outcome (tools_part (JArray tools)) = Ok tt
  <-> Forall (fun tool => outcome (generate_tool_documentation tool EmptyString) = Ok tt)
             tools.
Proof.
  destruct tools as [| t rest]; [ split; [ constructor | reflexivity ] | ].
  unfold tools_part, outcome. cbn [Py.truthy Py.len Py.iter]. run_steps. split.
  - apply for_each_ok_inv. intros; apply appender_tool.
  - intros H. rewrite for_each_ok; [ reflexivity | intros; apply appender_tool | exact H ].
Qed.

(** X12.  A remote section whose [tools] are falsy is its four opening lines
    and, when the entry has an [endpoint], the endpoint line: nothing of a
    [command] or of [args] is shown.  A remote section can fail in its tools
    alone: with a list of tools it renders exactly when each tool does. *)
Theorem remote_section_without_tools
  (server_name : string) (members : list (string * json)) :
  (Py.truthy (Py.lookup_or "tools" (JArray []) members) = false ->
   forall markdown,
     generate_remote_server_section server_name (JObject members) markdown
     = (Ok tt,
        (markdown ++ section_opening server_name members ++ endpoint_lines members)%list))
  /\ (forall tools,
         Py.lookup_or "tools" (JArray []) members = JArray tools ->
         outcome (generate_remote_server_section server_name (JObject members)) = Ok tt
         <-> Forall (fun tool =>
                       outcome (generate_tool_documentation tool EmptyString) = Ok tt)
                    tools).
Proof.
  split.
  - intros Htools markdown. rewrite remote_run. unfold tools_part. rewrite Htools.
    unfold remote_head, section_opening, endpoint_lines.
    cbn [Py.get Py.contains Py.getitem]. unfold Py.has_key, bind, lift, markdown_append, ret.
    destruct (Py.lookup "endpoint" members);
      repeat first [ progress cbn [app] | rewrite <- app_assoc ]; reflexivity.
  - intros tools Htools. rewrite remote_outcome, Htools. apply tools_part_outcome_iff.
Qed.

(** ** Tool blocks, continued *)

Lemma str_items_strings (labels : list string) (i : nat) :
  Py.str_items i (map JString labels) = Ok labels.
Proof.
  revert i. induction labels as [| s rest IH]; intros i; simpl.
  - reflexivity.
  - now rewrite IH.
Qed.

Lemma use_cases_run (indent : string) (labels : list string) markdown :
  use_cases_part indent (JArray (map JString labels)) markdown
  = (Ok tt, (markdown ++ use_cases_lines indent labels)%list).
Proof.
  unfold use_cases_part. destruct labels as [| s rest].
  - unfold ret. simpl. now rewrite app_nil_r.
  - change (Py.truthy (JArray (map JString (s :: rest)))) with true. cbv iota.
    unfold Py.join. cbn [Py.iter]. rewrite str_items_strings. reflexivity.
Qed.

Lemma parameters_skipped (indent : string) (input_schema : json) markdown :
  without_parameters input_schema = true ->
  parameters_part indent input_schema markdown = (Ok tt, markdown).
Proof.
  unfold parameters_part.
  destruct input_schema as [| b | z | nz t | s | l | schema]; intros H.
  - reflexivity.
  - now destruct b.
  - cbn [Py.truthy Py.is_dict]. now rewrite andb_false_r.
  - now destruct nz.
  - cbn [Py.truthy Py.is_dict]. now rewrite andb_false_r.
  - now destruct l.
  - destruct schema as [| member schema']; [ reflexivity | ].
    cbn [without_parameters] in H. apply negb_true_iff in H.
    cbn [Py.truthy Py.is_dict andb Py.get]. run_steps.
    rewrite H. reflexivity.
Qed.

(** X13.  A tool whose use cases are the strings [labels] and whose schema
    gives no parameters renders as the five lines that head the block, the
    line of the use cases joined by commas when there is one, and the
    closing line.  A schema that is absent, null, empty or not an object,
    and properties that are absent or empty, are passed over without an
    error and without the line "**Parameters**:". *)
Theorem tool_block_without_parameters
  (members : list (string * json)) (labels : list string) (indent : string)
  (markdown : list string) :
  Py.lookup_or "use_cases" (JArray []) members = JArray (map JString labels) ->
  without_parameters (Py.lookup_or "input_schema" JNull members) = true ->
  generate_tool_documentation (JObject members) indent markdown
  = (Ok tt,
     (markdown ++ tool_head indent members ++ use_cases_lines indent labels
      ++ [indent])%list).
Proof.
  intros Huc Hschema. rewrite tool_run. unfold tool_rest. rewrite Huc.
  unfold bind at 1. rewrite use_cases_run.
  unfold bind at 1. rewrite (parameters_skipped _ _ _ Hschema).
  unfold markdown_append. now rewrite <- !app_assoc.
Qed.

(** The parameters of a schema with properties, whatever [required] is. *)
Lemma parameters_run (indent : string) (schema props : list (string * json)) markdown :
  Py.lookup "properties" schema = Some (JObject props) ->
  props <> [] ->
  parameters_part indent (JObject schema) markdown
  = for_each (parameter_bullet indent (Py.lookup_or "required" (JArray []) schema)) props
      (markdown ++ [indent; (indent ++ "**Parameters**:")%string])%list.
Proof.
  intros Hprops Hne. unfold parameters_part.
  assert (Ep : Py.lookup_or "properties" (JObject []) schema = JObject props)
    by (unfold Py.lookup_or; now rewrite Hprops).
  destruct schema as [| kv schema']; [ discriminate | ].
  cbn [Py.truthy Py.is_dict andb Py.get]. run_steps. rewrite Ep.
  destruct props as [| p props']; [ contradiction | ].
  cbn [Py.truthy Py.items]. run_steps. now rewrite <- app_assoc.
Qed.

Lemma substring_bullet_ok (indent required_text : string) (param : string * json) :
  outcome (parameter_bullet indent (JString required_text) param) = Ok tt ->
  exists line,
    lines_of (parameter_bullet indent (JString required_text) param) = [line]
    /\ substring_bullet_spec indent required_text param line.
Proof.
  destruct param as [name info]. unfold parameter_bullet.
  destruct info as [| b | z | nz t | s | l | info]; try discriminate.
  intros _. eexists. split; [ reflexivity | ].
  exists info, (if is_substring name required_text then " *(required)*" else EmptyString).
  simpl. repeat split; intros H; now rewrite H.
Qed.

Lemma substring_bullets_ok (indent required_text : string)
  (params : list (string * json)) :
  Forall (fun p => outcome (parameter_bullet indent (JString required_text) p) = Ok tt)
         params ->
  exists bullets,
    flat_map (fun p => lines_of (parameter_bullet indent (JString required_text) p)) params
    = bullets
    /\ Forall2 (substring_bullet_spec indent required_text) params bullets.
Proof.
  induction 1 as [| p rest Hp _ [bullets [E IH]]]; simpl.
  - exists []. split; [ reflexivity | constructor ].
  - destruct (substring_bullet_ok _ _ _ Hp) as [line [El Hl]].
    exists (line :: bullets). rewrite El, E. split; [ reflexivity | now constructor ].
Qed.

(** X14.  When [required] is a text instead of a list of names, a property
    is marked required exactly when its name occurs somewhere in that text:
    [in] on a string is the substring test. *)
Theorem required_as_string_marks_substrings
  (members schema props : list (string * json)) (required_text indent : string) :
  Py.lookup "input_schema" members = Some (JObject schema) ->
  Py.lookup "properties" schema = Some (JObject props) ->
  props <> [] ->
  Py.lookup "required" schema = Some (JString required_text) ->
  outcome (generate_tool_documentation (JObject members) indent) = Ok tt ->
  exists bullets,
    lines_of (generate_tool_documentation (JObject members) indent)
    = (tool_head indent members
       ++ lines_of (use_cases_part indent (Py.lookup_or "use_cases" (JArray []) members))
       ++ [indent; (indent ++ "**Parameters**:")%string] ++ bullets ++ [indent])%list
    /\ Forall2 (substring_bullet_spec indent required_text) props bullets.
Proof.
  intros Hschema Hprops Hne Hreq Hok.
  assert (Es : Py.lookup_or "input_schema" JNull members = JObject schema)
    by (unfold Py.lookup_or; now rewrite Hschema).
  assert (Er : Py.lookup_or "required" (JArray []) schema = JString required_text)
    by (unfold Py.lookup_or; now rewrite Hreq).
  rewrite tool_outcome in Hok. rewrite tool_lines.
  pose proof (proj1 (tool_rest_outcome _ _) Hok) as [Huc Hps].
  unfold tool_rest.
  rewrite lines_bind;
    [ | apply appender_use_cases | intros; appender_tac; apply appender_parameters ].
  rewrite Huc.
  rewrite lines_bind; [ | apply appender_parameters | intros; appender_tac ].
  rewrite Hps. rewrite Es in Hps |- *.
  assert (Hall : Forall (fun p => outcome (parameter_bullet indent (JString required_text) p)
                                  = Ok tt) props).
  { apply (for_each_ok_inv _ _ (appender_bullet indent (JString required_text))
             [indent; (indent ++ "**Parameters**:")%string]).
    unfold outcome in Hps. rewrite (parameters_run _ _ _ _ Hprops Hne), Er in Hps.
    exact Hps. }
  destruct (substring_bullets_ok _ _ _ Hall) as [bullets [Eb Hb]].
  exists bullets. split; [ | exact Hb ].
  unfold lines_of at 2. rewrite (parameters_run _ _ _ _ Hprops Hne), Er.
  rewrite (for_each_ok _ _ (appender_bullet indent (JString required_text)) Hall).
  rewrite Eb. simpl. reflexivity.
Qed.

(** X15.  When [required] is neither a list, a text nor an object (a number,
    a boolean, null), a tool with properties raises the [TypeError] of the
    membership test at its first property, provided that property is an
    object. *)
Theorem required_not_a_container
  (members schema props : list (string * json)) (name : string)
  (info : list (string * json)) (required : json) (indent : string) :
  Py.lookup "input_schema" members = Some (JObject schema) ->
  Py.lookup "properties" schema = Some (JObject ((name, JObject info) :: props)) ->
  Py.lookup "required" schema = Some required ->
  container required = false ->
  outcome (use_cases_part indent (Py.lookup_or "use_cases" (JArray []) members)) = Ok tt ->
  outcome (generate_tool_documentation (JObject members) indent)
  = Raise (TypeError ("argument of type '" ++ Py.type_name required
                      ++ "' is not iterable")).
Proof.
  intros Hschema Hprops Hreq Hcontainer Huc.
  assert (Es : Py.lookup_or "input_schema" JNull members = JObject schema)
    by (unfold Py.lookup_or; now rewrite Hschema).
  assert (Er : Py.lookup_or "required" (JArray []) schema = required)
    by (unfold Py.lookup_or; now rewrite Hreq).
  rewrite tool_outcome. unfold tool_rest.
  rewrite outcome_bind;
    [ | apply appender_use_cases | intros; appender_tac; apply appender_parameters ].
  rewrite Huc.
  rewrite outcome_bind; [ | apply appender_parameters | intros; appender_tac ].
  rewrite Es. unfold outcome at 1.
  rewrite (parameters_run _ _ _ _ Hprops) by discriminate. rewrite Er.
  destruct required; try discriminate; reflexivity.
Qed.

(** ** Tools that are not a list *)

Lemma chars_cons (c : ascii) (s : string) :
  exists chunk chunks, chars (String c s) = chunk :: chunks.
Proof.
  simpl. destruct (chars s) as [| x xs]; [ now eexists; eexists | ].
  destruct ((128 <=? byte c)%Z && continues x); now eexists; eexists.
Qed.

Lemma tools_part_not_a_list (tools : json) :
  Py.truthy tools = true ->
  is_list tools = false ->
  outcome (tools_part tools) = Raise (tools_error tools).
Proof.
  intros Htruthy Hlist. unfold tools_part, outcome. rewrite Htruthy.
  destruct tools as [| b | z | nz t | s | l | members]; try discriminate;
    try reflexivity.
  - destruct s as [| c s']; [ discriminate | ].
    destruct (chars_cons c s') as [chunk [chunks E]].
    cbn [Py.len Py.iter]. rewrite E. reflexivity.
  - destruct members as [| [k v] members']; [ discriminate | reflexivity ].
Qed.

(** X16.  Truthy [tools] that are not a list make the section raise after
    its head: an object or a text of tools is iterated by key or by
    character and raises the [AttributeError] of [get] on a [str]; a number
    or [true] raises the [TypeError] of [len]. *)
Theorem tools_not_a_list
  (server_name : string) (members : list (string * json)) (tools : json) :
  Py.lookup "tools" members = Some tools ->
  Py.truthy tools = true ->
  is_list tools = false ->
  outcome (generate_remote_server_section server_name (JObject members))
  = Raise (tools_error tools)
  /\ (outcome (generate_local_server_section server_name
                 (JObject (remove_key "tools" members))) = Ok tt ->
      outcome (generate_local_server_section server_name (JObject members))
      = Raise (tools_error tools)).
Proof.
  intros Htools Htruthy Hlist.
  pose proof (lookup_or_tools _ _ Htools) as Et. split.
  - rewrite remote_outcome, Et. now apply tools_part_not_a_list.
  - rewrite !local_outcome, local_head_remove_tools, Et.
    destruct (outcome (local_head server_name (JObject members))) as [[] | e];
      [ | discriminate ].
    intros _. now apply tools_part_not_a_list.
Qed.

(** ** The indentation of a tool block *)

Lemma emits_ret {A : Type} (P : string -> Prop) (a : A) : emits P (ret a).
Proof. split; [ apply appender_ret | constructor ]. Qed.

Lemma emits_lift {A : Type} (P : string -> Prop) (r : result A) : emits P (lift r).
Proof. split; [ apply appender_lift | constructor ]. Qed.

Lemma emits_append (P : string -> Prop) (line : string) :
  P line -> emits P (markdown_append line).
Proof. intros H. split; [ apply appender_append | now repeat constructor ]. Qed.

Lemma emits_bind {A B : Type} (P : string -> Prop) (m : M A) (k : A -> M B) :
  emits P m -> (forall a, emits P (k a)) -> emits P (bind m k).
Proof.
  intros [Hm Pm] Hk. split.
  - apply appender_bind; [ exact Hm | intros a; apply (Hk a) ].
  - rewrite lines_bind; [ | exact Hm | intros a; apply (Hk a) ].
    apply Forall_app. split; [ exact Pm | ].
    destruct (outcome m) as [a | e]; [ apply (Hk a) | constructor ].
Qed.

Lemma emits_for_each {X : Type} (P : string -> Prop) (body : X -> M unit) (xs : list X) :
  (forall x, emits P (body x)) -> emits P (for_each body xs).
Proof.
  intros Hb. induction xs as [| x rest IH]; simpl.
  - apply emits_ret.
  - apply emits_bind; auto.
Qed.

Lemma prefix_append (s t : string) : prefix s (s ++ t) = true.
Proof.
  induction s as [| c s' IH]; simpl.
  - now destruct t.
  - destruct (ascii_dec c c) as [_ | Hne]; [ exact IH | contradiction ].
Qed.

Lemma prefix_refl (s : string) : prefix s s = true.
Proof.
  induction s as [| c s' IH]; simpl.
  - reflexivity.
  - destruct (ascii_dec c c) as [_ | Hne]; [ exact IH | contradiction ].
Qed.

Ltac emits_tac :=
  repeat first
    [ apply emits_ret
    | apply emits_lift
    | apply emits_append; first [ apply prefix_append | apply prefix_refl ]
    | apply emits_for_each; intros
    | apply emits_bind; [ | intros ]
    | match goal with
      | |- emits _ (if ?b then _ else _) => destruct b
      | |- emits _ (let (_, _) := ?p in _) => destruct p
      end ].

(** X17.  Every line of a tool block starts with the indentation the
    function is given, whatever the tool entry is and also when the block
    is cut short by an exception. *)
Theorem tool_lines_start_with_indent (tool : json) (indent : string) :
  Forall (starts_with indent) (lines_of (generate_tool_documentation tool indent)).
Proof.
  assert (H : emits (starts_with indent) (generate_tool_documentation tool indent)).
  { unfold generate_tool_documentation, starts_with. emits_tac. }
  exact (proj2 H).
Qed.

(** ** Instances of the further properties *)

Lemma rendered_document_structure_witness :
  exists members,
    filesystem_example = JObject members
    /\ join nl (lines_of (catalog_body filesystem_example)) = join nl (document_lines members)
    /\ server_names "local" members = map fst (servers_of "local" members)
    /\ server_names "remote" members = map fst (servers_of "remote" members)
    /\ Forall (opens_with_heading local_section) (servers_of "local" members)
    /\ Forall (opens_with_heading remote_section) (servers_of "remote" members).
Proof.
  apply (rendered_document_structure filesystem_example
           (join nl (lines_of (catalog_body filesystem_example)))).
  reflexivity.
Defined.


Lemma mapping_not_object_witness :
  generate_tool_catalog_markdown (JObject [ ("local", JArray []) ])
  = Raise (AttributeError "list" "keys")
  /\ generate_tool_catalog_markdown
       (JObject [ ("local", JObject [ ("fs", JInt 1) ]); ("remote", JString "none") ])
     = Raise (AttributeError "str" "keys").
Proof.
  split.
  - apply (proj1 (mapping_not_object [ ("local", JArray []) ] (JArray []) eq_refl)).
    reflexivity.
  - apply (proj2 (mapping_not_object
                    [ ("local", JObject [ ("fs", JInt 1) ]); ("remote", JString "none") ]
                    (JString "none") eq_refl)).
    + right. eexists. reflexivity.
    + reflexivity.
Defined.

Lemma render_error_is_first_failing_section_witness :
  first_failure local_section (servers_of "local" remote_number_example)
    (AttributeError "int" "get")
  \/ (Forall (fun s => outcome (local_section s) = Ok tt)
        (servers_of "local" remote_number_example)
      /\ first_failure remote_section (servers_of "remote" remote_number_example)
           (AttributeError "int" "get")).
Proof.
  apply (proj1 (render_error_is_first_failing_section remote_number_example
                  (AttributeError "int" "get")
                  (or_intror (ex_intro _ _ eq_refl))
                  (or_intror (ex_intro _ _ eq_refl)))).
  reflexivity.
Defined.

Lemma tool_not_object_witness :
  generate_tool_documentation (JString "read_file") EmptyString ["kept"]
  = (Raise (AttributeError "str" "get"), ["kept"]).
Proof. apply (tool_not_object (JString "read_file") EmptyString ["kept"]). reflexivity. Defined.

Lemma use_cases_not_strings_witness :
  generate_tool_documentation (JObject mislabelled_tool) EmptyString []
  = (Raise (TypeError "sequence item 1: expected str instance, int found"),
     ([] ++ tool_head EmptyString mislabelled_tool)%list).
Proof.
  apply (use_cases_not_strings mislabelled_tool ["io"] (JInt 3) [JString "files"]
           EmptyString []);
    reflexivity.
Defined.

Lemma only_known_fields_are_read_witness :
  generate_tool_documentation (JObject annotated_tool) "  "
  = generate_tool_documentation (JObject plain_tool) "  ".
Proof.
  apply (proj1 (only_known_fields_are_read annotated_tool plain_tool)).
  intros key Hin. simpl in Hin.
  repeat (destruct Hin as [<- | Hin]; [ reflexivity | ]). contradiction.
Defined.

Lemma missing_field_never_fails_witness :
  outcome (generate_local_server_section "fs"
             (JObject (remove_key "args" launched_server))) = Ok tt
  /\ outcome (generate_remote_server_section "k8s"
                (JObject (remove_key "endpoint" endpoint_server))) = Ok tt
  /\ exists document,
       generate_tool_catalog_markdown (JObject (remove_key "local" three_servers))
       = Ok document.
Proof.
  split; [ | split ].
  - apply (proj1 (missing_field_never_fails "args" launched_server) "fs"). reflexivity.
  - apply (proj1 (proj2 (missing_field_never_fails "endpoint" endpoint_server)) "k8s").
    reflexivity.
  - apply (proj2 (proj2 (missing_field_never_fails "local" three_servers))
             (join nl (lines_of (catalog_body (JObject three_servers))))).
    reflexivity.
Defined.

Lemma local_section_without_tools_witness :
  generate_local_server_section "fs" (JObject launched_server) []
  = (Ok tt,
     ([] ++ section_opening "fs" launched_server
      ++ configuration_block launched_server [JString "-y"; JString "pkg"])%list).
Proof.
  apply (local_section_without_tools "fs" launched_server [JString "-y"; JString "pkg"] []).
  - reflexivity.
  - intros _ _. reflexivity.
Defined.

Lemma args_not_iterable_witness :
  generate_local_server_section "fs" (JObject numbered_args_server) []
  = (Raise (TypeError "'int' object is not iterable"),
     ([] ++ section_opening "fs" numbered_args_server
      ++ configuration_block_start numbered_args_server)%list).
Proof. apply (args_not_iterable "fs" numbered_args_server []); reflexivity. Defined.

Lemma remote_section_without_tools_witness :
  generate_remote_server_section "k8s" (JObject endpoint_server) []
  = (Ok tt,
     [ "### K8S"; EmptyString; "**Description**: Cluster"; EmptyString;
       "**Endpoint**: `http://toolman/k8s`"; EmptyString ]).
Proof.
  apply (proj1 (remote_section_without_tools "k8s" endpoint_server) eq_refl []).
Defined.

Lemma tool_block_without_parameters_witness :
  generate_tool_documentation (JObject labelled_tool) EmptyString []
  = (Ok tt,
     [ "#### `read_file`"; EmptyString; "**Description**: No description available";
       EmptyString; "**Category**: general"; "**Use Cases**: io, files"; EmptyString ]).
Proof.
  apply (tool_block_without_parameters labelled_tool ["io"; "files"] EmptyString []);
    reflexivity.
Defined.

Lemma required_as_string_marks_substrings_witness :
  exists bullets,
    lines_of (generate_tool_documentation (JObject text_required_tool) EmptyString)
    = (tool_head EmptyString text_required_tool
       ++ lines_of (use_cases_part EmptyString
                      (Py.lookup_or "use_cases" (JArray []) text_required_tool))
       ++ [EmptyString; (EmptyString ++ "**Parameters**:")%string] ++ bullets
       ++ [EmptyString])%list
    /\ Forall2 (substring_bullet_spec EmptyString "filepath") mixed_properties bullets.
Proof.
  apply (required_as_string_marks_substrings text_required_tool text_required_schema
           mixed_properties "filepath" EmptyString);
    [ reflexivity | reflexivity | discriminate | reflexivity | reflexivity ].
Defined.

Lemma required_not_a_container_witness :
  outcome (generate_tool_documentation (JObject flag_required_tool) EmptyString)
  = Raise (TypeError "argument of type 'bool' is not iterable").
Proof.
  apply (required_not_a_container flag_required_tool flag_required_schema
           [ ("encoding", JObject [ ("type", JString "string") ]) ]
           "path" [ ("type", JString "string"); ("description", JString "File path") ]
           (JBool true) EmptyString);
    reflexivity.
Defined.

Lemma tools_not_a_list_witness :
  outcome (generate_remote_server_section "fs" (JObject keyed_tools_server))
  = Raise (AttributeError "str" "get")
  /\ outcome (generate_local_server_section "fs" (JObject keyed_tools_server))
     = Raise (AttributeError "str" "get").
Proof.
  destruct (tools_not_a_list "fs" keyed_tools_server
              (JObject [ ("read_file", JObject []) ]) eq_refl eq_refl eq_refl)
    as [Hremote Hlocal].
  split; [ exact Hremote | apply Hlocal; reflexivity ].
Defined.
